(** * Payment identifiers of Electrum: classification, bip21 URIs, batches, LNURL round 2

    A shallow embedding of [electrum/payment_identifier.py] and of the
    fragments of the Python runtime it runs on ([str] methods, [decimal],
    [urllib.parse], the three regular expressions of the module), followed
    by the properties of the payment-identifier specification.

    Conventions of the embedding.
    - Python text ([str]) is a list of characters.  The embedding is exact on
      ASCII text, which is what every literal of the module is; a character
      above 127 is neither a space, a letter, a digit nor a word character.
    - A function that can raise returns an [outcome]; methods of
      [PaymentIdentifier] thread the object explicitly and return the object
      as it is at the moment of the return or of the raise.
    - Modules of the application that the payment identifier imports but that
      are not part of it ([bitcoin], [lnaddr], [lnurl], [invoices], [util],
      the configuration object) are interfaces ([Class]es); the statements
      hold for every implementation of them.
    - The standard library is the one of CPython 3.11. *)

From Stdlib Require Import List Ascii ZArith NArith Lia Bool.
Import ListNotations.

Set Implicit Arguments.

(** ** Text *)

Definition str := list ascii.

Inductive literal := lit_nil | lit_cons (c : ascii) (s : literal).

Fixpoint literal_of_bytes (l : list Byte.byte) : literal :=
  match l with
  | [] => lit_nil
  | b :: r => lit_cons (ascii_of_byte b) (literal_of_bytes r)
  end.

Fixpoint bytes_of_literal (s : literal) : list Byte.byte :=
  match s with
  | lit_nil => []
  | lit_cons c r => byte_of_ascii c :: bytes_of_literal r
  end.

Declare Scope str_scope.
Delimit Scope str_scope with str.
#[local] Set Warnings "-via-type-mismatch".
String Notation list literal_of_bytes bytes_of_literal
  (via literal mapping [[nil] => lit_nil, [cons] => lit_cons]) : str_scope.
#[local] Set Warnings "via-type-mismatch".
Open Scope str_scope.
Open Scope Z_scope.

(** [bytes] objects are lists of bytes as well. *)
Definition bytes := list ascii.

Module Py.

Definition ord (c : ascii) : Z := Z.of_N (N_of_ascii c).

Definition between (lo hi : Z) (c : ascii) : bool :=
  (lo <=? ord c) && (ord c <=? hi).

(** [str.isspace] of one character: the ASCII characters for which
    CPython's [Py_UNICODE_ISSPACE] holds. *)
Definition isspace (c : ascii) : bool := between 9 13 c || between 28 32 c.

(** C's [isspace], used by [bytes.fromhex] and by [int(str)]. *)
Definition c_isspace (c : ascii) : bool := between 9 13 c || (ord c =? 32).

Definition isdigit (c : ascii) : bool := between 48 57 c.
Definition isupper (c : ascii) : bool := between 65 90 c.
Definition islower (c : ascii) : bool := between 97 122 c.
Definition isalpha (c : ascii) : bool := isupper c || islower c.
Definition isalnum (c : ascii) : bool := isalpha c || isdigit c.
Definition isascii (c : ascii) : bool := ord c <? 128.

(** [\w] of the [re] module on ASCII text. *)
Definition isword (c : ascii) : bool := isalnum c || (ord c =? 95).

Definition chr_eqb (a b : ascii) : bool := Ascii.eqb a b.

Definition lower_char (c : ascii) : ascii :=
  if isupper c then ascii_of_N (N_of_ascii c + 32) else c.

Definition lower (s : str) : str := map lower_char s.

Fixpoint str_eqb (a b : str) : bool :=
  match a, b with
  | [], [] => true
  | x :: a', y :: b' => chr_eqb x y && str_eqb a' b'
  | _, _ => false
  end.

Fixpoint startswith (s prefix : str) : bool :=
  match prefix, s with
  | [], _ => true
  | p :: prefix', c :: s' => chr_eqb p c && startswith s' prefix'
  | _ :: _, [] => false
  end.

(** [c in s] for a single character. *)
Definition contains (c : ascii) (s : str) : bool := existsb (chr_eqb c) s.

Fixpoint lstrip_by (p : ascii -> bool) (s : str) : str :=
  match s with
  | c :: r => if p c then lstrip_by p r else s
  | [] => []
  end.

Definition rstrip_by (p : ascii -> bool) (s : str) : str :=
  rev (lstrip_by p (rev s)).

(** [s.strip()] *)
Definition strip (s : str) : str := rstrip_by isspace (lstrip_by isspace s).

(** [s.split(sep)] for a one-character separator: never empty. *)
Fixpoint split (sep : ascii) (s : str) : list str :=
  match s with
  | [] => [[]]
  | c :: r =>
      if chr_eqb c sep then [] :: split sep r
      else match split sep r with
           | w :: ws => (c :: w) :: ws
           | [] => [[c]]
           end
  end.

(** [s.split(sep, 1)] when [sep] occurs in [s]: the text before the first
    separator and the text after it. *)
Fixpoint partition (sep : ascii) (s : str) : option (str * str) :=
  match s with
  | [] => None
  | c :: r =>
      if chr_eqb c sep then Some ([], r)
      else match partition sep r with
           | Some (a, b) => Some (c :: a, b)
           | None => None
           end
  end.

(** [s.split()]: the maximal runs of characters that are not spaces. *)
Fixpoint split_ws_aux (cur : str) (s : str) : list str :=
  match s with
  | [] => match cur with [] => [] | _ => [rev cur] end
  | c :: r =>
      if isspace c
      then match cur with
           | [] => split_ws_aux [] r
           | _ => rev cur :: split_ws_aux [] r
           end
      else split_ws_aux (c :: cur) r
  end.

Definition split_ws (s : str) : list str := split_ws_aux [] s.

(** [s.replace(c, "")] *)
Definition remove (c : ascii) (s : str) : str :=
  filter (fun x => negb (chr_eqb x c)) s.

(** [s.replace(a, b)] for single characters. *)
Definition replace (a b : ascii) (s : str) : str :=
  map (fun x => if chr_eqb x a then b else x) s.

(** [sep.join(parts)] *)
Fixpoint join (sep : str) (parts : list str) : str :=
  match parts with
  | [] => []
  | [p] => p
  | p :: ps => p ++ sep ++ join sep ps
  end.

(** Truth value of a text: non-empty. *)
Definition nonempty (s : str) : bool :=
  match s with [] => false | _ => true end.

End Py.

(** ** Exceptions and outcomes *)

(** The exceptions the module can meet, by class.  All of them derive from
    Python's [Exception].  The text of a message is kept where the module
    builds it from its own data; [InvalidBitcoinURI] carries its reason in
    structured form. *)
Inductive exn :=
| NameError (name : str)
| AttributeError (attribute : str)
| TypeError (what : str)
| ValueError (what : str)
| AssertionError
| OverflowError (what : str)
| DecimalException (signal : str)
| Exception (message : str)
| InvalidBitcoinURI (reason : uri_error)
| LnDecodeException (message : str)
| LNURLError (message : str)
| OtherException (class_name message : str)
with uri_error :=
| NotAnAddress
| NotABitcoinURI
| DuplicateKey (key : str)
| InvalidAddress (address : str)
| AmountOutOfBounds
| FailedToParseField (field : str) (cause : exn)
| FailedToDecodeLightning (cause : exn)
| InconsistentAmount
| InconsistentAddress.

Inductive outcome (A : Type) :=
| Ret (a : A)
| Raise (e : exn).
Arguments Ret {A} a.
Arguments Raise {A} e.

Definition bind {A B} (m : outcome A) (k : A -> outcome B) : outcome B :=
  match m with
  | Ret a => k a
  | Raise e => Raise e
  end.

Notation "'let*' x ':=' m 'in' k" := (bind m (fun x => k))
  (at level 10, x pattern, m at level 100, k at level 200).

(** [try: m  except Exception as e: h e] *)
Definition try_except {A} (m : outcome A) (h : exn -> outcome A) : outcome A :=
  match m with
  | Ret a => Ret a
  | Raise e => h e
  end.

Definition returns {A} (m : outcome A) : bool :=
  match m with Ret _ => true | Raise _ => false end.

(** ** The [decimal] module

    [prec = 28], [ROUND_HALF_EVEN], [Emax = 999999], [Emin = -999999], traps
    on [InvalidOperation] and [Overflow]: the default context.  The sign of
    a zero is not kept; neither [int()] nor a comparison can see it. *)
Module Decimal.

Inductive t :=
| Finite (c : Z) (e : Z)        (* c * 10^e *)
| Infinity (negative : bool)
| NaN (signaling : bool).

Definition prec : Z := 28.
Definition Emax : Z := 999999.
Definition Emin : Z := -999999.
Definition Etiny : Z := Emin - prec + 1.
(** The limits of a conversion from text, which must be exact. *)
Definition MAX_EMAX : Z := 999999999999999999.
Definition MAX_ETINY : Z := -1999999999999999997.

Definition InvalidOperation : exn := DecimalException "InvalidOperation".
Definition Overflow : exn := DecimalException "Overflow".

(** Number of decimal digits of [|c|]; 1 for 0. *)
Fixpoint ndigits_aux (fuel : nat) (c : Z) : Z :=
  match fuel with
  | O => 1
  | S f => if c <? 10 then 1 else 1 + ndigits_aux f (c / 10)
  end.

Definition ndigits (c : Z) : Z :=
  let a := Z.abs c in ndigits_aux (S (Z.to_nat (Z.log2 a))) a.

(** Drop the last [k] digits of [c], rounding half to even. *)
Definition shift_round (c : Z) (k : Z) : Z :=
  if k <=? 0 then c
  else
    let a := Z.abs c in
    let q := a / 10 ^ k in
    let r := a mod 10 ^ k in
    let half := 5 * 10 ^ (k - 1) in
    let q' := if (half <? r) || ((r =? half) && Z.odd q) then q + 1 else q in
    Z.sgn c * q'.

(** What the context does to the exact result [c * 10^e] of an operation. *)
Definition finalize (c e : Z) : outcome t :=
  if c =? 0 then Ret (Finite 0 (Z.max Etiny (Z.min Emax e)))
  else
    let d := ndigits c in
    let adj := e + d - 1 in
    if Emax <? adj then Raise Overflow
    else if adj <? Emin then
      if e <? Etiny then Ret (Finite (shift_round c (Etiny - e)) Etiny)
      else Ret (Finite c e)
    else if prec <? d then
      let c' := shift_round c (d - prec) in
      let e' := e + (d - prec) in
      if Z.abs c' =? 10 ^ prec then
        if Emax <? e' + prec then Raise Overflow
        else Ret (Finite (Z.sgn c' * 10 ^ (prec - 1)) (e' + 1))
      else Ret (Finite c' e')
    else Ret (Finite c e).

(** [a * b] *)
Definition mul (a b : t) : outcome t :=
  match a, b with
  | NaN true, _ | _, NaN true => Raise InvalidOperation
  | NaN false, _ | _, NaN false => Ret (NaN false)
  | Infinity s, Infinity s' => Ret (Infinity (xorb s s'))
  | Infinity s, Finite c _ | Finite c _, Infinity s =>
      if c =? 0 then Raise InvalidOperation
      else Ret (Infinity (xorb s (c <? 0)))
  | Finite c1 e1, Finite c2 e2 => finalize (c1 * c2) (e1 + e2)
  end.

(** [Decimal(n)] for an [int]. *)
Definition of_int (n : Z) : t := Finite n 0.

(** [a > n] for an [int] [n]. *)
Definition gt_int (a : t) (n : Z) : outcome bool :=
  match a with
  | NaN _ => Raise InvalidOperation
  | Infinity s => Ret (negb s)
  | Finite c e =>
      if 0 <=? e then Ret (n <? c * 10 ^ e)
      else Ret (n * 10 ^ (- e) <? c)
  end.

(** [int(a)]: truncation towards zero. *)
Definition to_int (a : t) : outcome Z :=
  match a with
  | NaN _ => Raise (ValueError "cannot convert NaN to integer")
  | Infinity _ => Raise (OverflowError "cannot convert Infinity to integer")
  | Finite c e =>
      if 0 <=? e then Ret (c * 10 ^ e)
      else Ret (Z.quot c (10 ^ (- e)))
  end.

(** [pow(Decimal(10), k)] for the exponents the module uses,
    [-8 <= k <= 1]. *)
Definition pow10 (k : Z) : t :=
  if 0 <? k then Finite (10 ^ k) 0 else Finite 1 k.

(** The longest prefix of decimal digits, and what follows it. *)
Fixpoint take_digits (s : str) : str * str :=
  match s with
  | c :: r =>
      if Py.isdigit c then let (d, rest) := take_digits r in (c :: d, rest)
      else ([], s)
  | [] => ([], [])
  end.

Definition digit_value (c : ascii) : Z := Py.ord c - 48.

Definition digits_value (ds : str) : Z :=
  fold_left (fun acc c => 10 * acc + digit_value c) ds 0.

Definition signed (negative : bool) (c : Z) : Z := if negative then - c else c.

(** An optional sign. *)
Definition take_sign (s : str) : bool * str :=
  match s with
  | "+"%char :: r => (false, r)
  | "-"%char :: r => (true, r)
  | _ => (false, s)
  end.

(** [e] or [E], an optional sign and at least one digit, up to the end of
    the text; no exponent part is exponent 0. *)
Definition exponent_part (s : str) : option Z :=
  match s with
  | [] => Some 0
  | c :: r =>
      if Py.chr_eqb (Py.lower_char c) "e" then
        let (neg, r') := take_sign r in
        match take_digits r' with
        | (((_ :: _) as ds), []) => Some (signed neg (digits_value ds))
        | _ => None
        end
      else None
  end.

(** The conversion is exact or fails: the exponent has to fit the largest
    context there is. *)
Definition representable (c e : Z) : bool :=
  (MAX_ETINY <=? e) &&
  (if c =? 0 then e <=? MAX_EMAX else e + ndigits c - 1 <=? MAX_EMAX).

Definition finite_of_str (negative : bool) (s : str) : outcome t :=
  let (ip, r1) := take_digits s in
  let (fp, r2) := match r1 with
                  | "."%char :: r => take_digits r
                  | _ => ([], r1)
                  end in
  match ip ++ fp, exponent_part r2 with
  | ((_ :: _) as ds), Some x =>
      let c := signed negative (digits_value ds) in
      let e := x - Z.of_nat (length fp) in
      if representable c e then Ret (Finite c e) else Raise InvalidOperation
  | _, _ => Raise InvalidOperation
  end.

(** [Decimal(s)] for a text [s]: spaces around the numeral and underscores
    anywhere are dropped; then a sign and [Inf], [Infinity], [NaN] or [sNaN]
    with diagnostic digits, in any case, or a decimal numeral. *)
Definition of_str (s : str) : outcome t :=
  let (neg, body) := take_sign (Py.remove "_" (Py.strip s)) in
  let low := Py.lower body in
  if Py.str_eqb low "inf" || Py.str_eqb low "infinity" then Ret (Infinity neg)
  else if Py.startswith low "nan" then
    match take_digits (skipn 3 low) with
    | (_, []) => Ret (NaN false)
    | _ => Raise InvalidOperation
    end
  else if Py.startswith low "snan" then
    match take_digits (skipn 4 low) with
    | (_, []) => Ret (NaN true)
    | _ => Raise InvalidOperation
    end
  else finite_of_str neg body.

End Decimal.

(** ** Built-in conversions *)
Module Builtins.

(** Digits with single underscores between them; the value and the number
    of digits. *)
Fixpoint int_digits (acc : Z) (count : Z) (s : str) : option (Z * Z) :=
  match s with
  | [] => Some (acc, count)
  | "_"%char :: ((d :: _) as r) =>
      if Py.isdigit d then int_digits acc count r else None
  | c :: r =>
      if Py.isdigit c
      then int_digits (10 * acc + Decimal.digit_value c) (count + 1) r
      else None
  end.

Definition invalid_literal : exn :=
  ValueError "invalid literal for int() with base 10".

(** [int(s)] for a text [s], in base 10: C spaces around the numeral are
    dropped, a numeral of more than 4300 digits is refused. *)
Definition int_of_str (s : str) : outcome Z :=
  let s1 := Py.rstrip_by Py.c_isspace (Py.lstrip_by Py.c_isspace s) in
  let (neg, body) := Decimal.take_sign s1 in
  match body with
  | c :: _ =>
      if Py.isdigit c then
        match int_digits 0 0 body with
        | Some (v, n) =>
            if 4300 <? n
            then Raise (ValueError "Exceeds the limit (4300 digits) for integer string conversion")
            else Ret (Decimal.signed neg v)
        | None => Raise invalid_literal
        end
      else Raise invalid_literal
  | [] => Raise invalid_literal
  end.

Definition hex_value (c : ascii) : option Z :=
  if Py.isdigit c then Some (Py.ord c - 48)
  else if Py.between 97 102 c then Some (Py.ord c - 87)
  else if Py.between 65 70 c then Some (Py.ord c - 55)
  else None.

Definition byte_of_Z (n : Z) : ascii := ascii_of_N (Z.to_N n).

(** [bytes.fromhex(s)]: pairs of hexadecimal digits, C spaces allowed
    between the pairs. *)
Fixpoint bytes_fromhex (s : str) : outcome bytes :=
  match s with
  | [] => Ret []
  | c :: r =>
      if Py.c_isspace c then bytes_fromhex r
      else
        match r with
        | c' :: r' =>
            match hex_value c, hex_value c' with
            | Some h, Some l =>
                let* rest := bytes_fromhex r' in Ret (byte_of_Z (16 * h + l) :: rest)
            | _, _ => Raise (ValueError "non-hexadecimal number found in fromhex() arg")
            end
        | [] => Raise (ValueError "non-hexadecimal number found in fromhex() arg")
        end
  end.

Definition hex_digit (n : Z) : ascii :=
  if n <? 10 then ascii_of_N (Z.to_N (48 + n)) else ascii_of_N (Z.to_N (87 + n)).

(** [b.hex()] *)
Definition bytes_hex (b : bytes) : str :=
  flat_map (fun c => [hex_digit (Py.ord c / 16); hex_digit (Py.ord c mod 16)]) b.

End Builtins.

(** ** Dictionaries

    A [dict] keeps its keys in insertion order, and the order decides which
    duplicate key an error names: an association list with unique keys. *)
Module Dict.

Definition t (V : Type) := list (str * V).

Fixpoint get {V} (k : str) (d : t V) : option V :=
  match d with
  | [] => None
  | (k', v) :: r => if Py.str_eqb k' k then Some v else get k r
  end.

(** [k in d] *)
Definition mem {V} (k : str) (d : t V) : bool :=
  match get k d with Some _ => true | None => false end.

(** [d[k] = v]: in place when [k] is a key already, at the end otherwise. *)
Fixpoint set {V} (k : str) (v : V) (d : t V) : t V :=
  match d with
  | [] => [(k, v)]
  | (k', v') :: r =>
      if Py.str_eqb k' k then (k', v) :: r else (k', v') :: set k v r
  end.

End Dict.

(** ** [urllib.parse] *)
Module Urllib.

Record ParseResult := {
  scheme : str;
  netloc : str;
  path : str;
  params : str;
  query : str;
  fragment : str;
}.

Definition uses_params : list str :=
  [""; "ftp"; "hdl"; "prospero"; "http"; "imap"; "https"; "shttp"; "rtsp";
   "rtspu"; "sip"; "sips"; "mms"; "sftp"; "tel"].

Definition uses_netloc : list str :=
  [""; "ftp"; "http"; "gopher"; "nntp"; "telnet"; "imap"; "wais"; "file";
   "mms"; "https"; "shttp"; "snews"; "prospero"; "rtsp"; "rtspu"; "rsync";
   "svn"; "svn+ssh"; "sftp"; "nfs"; "git"; "git+ssh"; "ws"; "wss"].

Definition str_in (s : str) (l : list str) : bool := existsb (Py.str_eqb s) l.

Definition scheme_char (c : ascii) : bool :=
  Py.isalnum c || Py.contains c "+-.".

(** [_WHATWG_C0_CONTROL_OR_SPACE] *)
Definition c0_control_or_space (c : ascii) : bool := Py.ord c <=? 32.

(** [_UNSAFE_URL_BYTES_TO_REMOVE]: tab, carriage return, line feed. *)
Definition unsafe_url_byte (c : ascii) : bool :=
  (Py.ord c =? 9) || (Py.ord c =? 13) || (Py.ord c =? 10).

(** The scheme of [url] and the text after its colon, when [url] starts
    with a letter and has only scheme characters before its first colon. *)
Definition split_scheme (url : str) : option (str * str) :=
  match url with
  | c :: _ =>
      match Py.partition ":" url with
      | Some ((_ :: _) as s, rest) =>
          if Py.isascii c && Py.isalpha c && forallb scheme_char s
          then Some (Py.lower s, rest)
          else None
      | _ => None
      end
  | [] => None
  end.

(** [_splitnetloc(url, 2)] on a text that starts with two slashes, given
    without them: up to the first of [/], [?] and [#]. *)
Fixpoint splitnetloc (url : str) : str * str :=
  match url with
  | [] => ([], [])
  | c :: r =>
      if Py.contains c "/?#" then ([], url)
      else let (n, rest) := splitnetloc r in (c :: n, rest)
  end.

(** [s.rpartition(sep)[2]]: the text after the last separator. *)
Fixpoint after_last (sep : ascii) (s : str) : str :=
  match s with
  | [] => []
  | c :: r =>
      if Py.contains sep r then after_last sep r
      else if Py.chr_eqb c sep then r else s
  end.

Definition invalid_ipv6 : exn := ValueError "Invalid IPv6 URL".

(** [_check_bracketed_netloc]; the validation of the address between the
    brackets ([_check_bracketed_host], on the [ipaddress] module) is
    [host_ok]. *)
Definition check_bracketed_netloc (host_ok : str -> bool) (netloc : str)
  : outcome unit :=
  let hostname_and_port := after_last "@" netloc in
  let* hostname :=
    match Py.partition "[" hostname_and_port with
    | Some (before_bracket, bracketed) =>
        if Py.nonempty before_bracket then Raise invalid_ipv6
        else
          match Py.partition "]" bracketed with
          | Some (hostname, port) =>
              if Py.nonempty port && negb (Py.startswith port ":")
              then Raise invalid_ipv6 else Ret hostname
          | None => Ret bracketed
          end
    | None =>
        match Py.partition ":" hostname_and_port with
        | Some (hostname, _) => Ret hostname
        | None => Ret hostname_and_port
        end
    end in
  if host_ok hostname then Ret tt
  else Raise (ValueError "does not appear to be an IPv4 or IPv6 address").

(** [urlsplit(url)] and then [urlparse(url)].  [_checknetloc] only looks at
    a network location that is not ASCII. *)
Definition urlparse (host_ok : str -> bool) (url : str) : outcome ParseResult :=
  let url := Py.lstrip_by c0_control_or_space url in
  let url := filter (fun c => negb (unsafe_url_byte c)) url in
  let (scheme, url) := match split_scheme url with
                       | Some (s, rest) => (s, rest)
                       | None => ([], url)
                       end in
  let* (netloc, url) :=
    if Py.startswith url "//" then
      let (netloc, url') := splitnetloc (skipn 2 url) in
      let has_open := Py.contains "[" netloc in
      let has_close := Py.contains "]" netloc in
      if (has_open && negb has_close) || (has_close && negb has_open)
      then Raise invalid_ipv6
      else if has_open && has_close
      then let* _ := check_bracketed_netloc host_ok netloc in Ret (netloc, url')
      else Ret (netloc, url')
    else Ret ([], url) in
  let (url, fragment) := match Py.partition "#" url with
                         | Some (u, f) => (u, f)
                         | None => (url, [])
                         end in
  let (url, query) := match Py.partition "?" url with
                      | Some (u, q) => (u, q)
                      | None => (url, [])
                      end in
  let (url, params) :=
    if str_in scheme uses_params && Py.contains ";" url
    then
      (* [_splitparams]: the first [;] of the last path segment *)
      let segment := after_last "/" url in
      match Py.partition ";" segment with
      | Some (seg, p) =>
          (firstn (length url - length segment) url ++ seg, p)
      | None => (url, [])
      end
    else (url, []) in
  Ret {| scheme := scheme; netloc := netloc; path := url; params := params;
         query := query; fragment := fragment |}.

(** The percent escapes of an ASCII text, decoded to bytes
    ([unquote_to_bytes]); a percent sign that two hexadecimal digits do not
    follow stands for itself. *)
Fixpoint unquote_to_bytes (s : str) : bytes :=
  match s with
  | [] => []
  | c :: r =>
      if Py.chr_eqb c "%" then
        match r with
        | h :: l :: r' =>
            match Builtins.hex_value h, Builtins.hex_value l with
            | Some x, Some y => Builtins.byte_of_Z (16 * x + y) :: unquote_to_bytes r'
            | _, _ => c :: unquote_to_bytes r
            end
        | _ => c :: unquote_to_bytes r
        end
      else c :: unquote_to_bytes r
  end.

(** [unquote(s)]: every maximal ASCII run of [s] has its escapes decoded to
    bytes and the bytes decoded as UTF-8 with replacement ([decode]). *)
Fixpoint unquote_runs (decode : bytes -> str) (run : str) (s : str) : str :=
  let flush :=
    match run with
    | [] => []
    | _ => decode (unquote_to_bytes (rev run))
    end in
  match s with
  | [] => flush
  | c :: r =>
      if Py.isascii c then unquote_runs decode (c :: run) r
      else flush ++ c :: unquote_runs decode [] r
  end.

Definition unquote (decode : bytes -> str) (s : str) : str :=
  if Py.contains "%" s then unquote_runs decode [] s else s.

(** [_ALWAYS_SAFE]: letters, digits and [_.-~]. *)
Definition always_safe (c : ascii) : bool :=
  Py.isalnum c || Py.contains c "_.-~".

(** Upper-case hexadecimal digit, as ['%{:02X}'] prints it. *)
Definition upper_hex_digit (n : Z) : ascii :=
  if n <? 10 then ascii_of_N (Z.to_N (48 + n)) else ascii_of_N (Z.to_N (55 + n)).

(** [quote(s)] with the default [safe='/']. *)
Definition quote (s : str) : str :=
  flat_map (fun c =>
    if always_safe c || Py.chr_eqb c "/" then [c]
    else ["%"%char; upper_hex_digit (Py.ord c / 16);
          upper_hex_digit (Py.ord c mod 16)]) s.

(** [parse_qsl(qs)] with its defaults: fields without [=] and fields with
    a blank value are skipped. *)
Definition parse_qsl (decode : bytes -> str) (qs : str) : list (str * str) :=
  let query_args := if Py.nonempty qs then Py.split "&" qs else [] in
  flat_map (fun name_value =>
    match Py.partition "=" name_value with
    | Some (n, v) =>
        if Py.nonempty v
        then [(unquote decode (Py.replace "+" " " n),
               unquote decode (Py.replace "+" " " v))]
        else []
    | None => []
    end) query_args.

(** [parse_qs(qs)]: the values of each name, names in order of first
    appearance. *)
Definition parse_qs (decode : bytes -> str) (qs : str) : Dict.t (list str) :=
  fold_left (fun parsed_result '(name, value) =>
    match Dict.get name parsed_result with
    | Some vs => Dict.set name (vs ++ [value]) parsed_result
    | None => Dict.set name [value] parsed_result
    end) (parse_qsl decode qs) [].

(** [urlunparse] *)
Definition urlunparse (p : ParseResult) : str :=
  let url := if Py.nonempty (params p) then path p ++ ";" ++ params p else path p in
  let url :=
    if Py.nonempty (netloc p) ||
       (Py.nonempty (scheme p) && str_in (scheme p) uses_netloc &&
        negb (Py.startswith url "//"))
    then "//" ++ netloc p ++
         (if Py.nonempty url && negb (Py.startswith url "/") then "/" ++ url else url)
    else url in
  let url := if Py.nonempty (scheme p) then scheme p ++ ":" ++ url else url in
  let url := if Py.nonempty (query p) then url ++ "?" ++ query p else url in
  if Py.nonempty (fragment p) then url ++ "#" ++ fragment p else url.

End Urllib.

(** ** The regular expressions of the module

    Each pattern is matched the way [re.match] does it, from the start of
    the text; the functions below say, for one fixed pattern each, whether
    a match exists and what its groups are. *)
Module Re.

Definition amount_char (c : ascii) : bool := Py.isdigit c || Py.chr_eqb c ".".

Fixpoint span (p : ascii -> bool) (s : str) : str * str :=
  match s with
  | c :: r => if p c then let (a, b) := span p r in (c :: a, b) else ([], s)
  | [] => ([], [])
  end.

(** [re.match(r'([0-9.]+)X([0-9])', am)]: groups 1 and 2. *)
Definition match_amount_X (am : str) : option (str * ascii) :=
  match span amount_char am with
  | ((_ :: _) as mantissa, "X"%char :: d :: _) =>
      if Py.isdigit d then Some (mantissa, d) else None
  | _ => None
  end.

(** What [(.*?)\s*] can match in full: no line feed before a tail of
    spaces. *)
Definition alias_name_ok (p : str) : bool :=
  match Py.partition "010" p with
  | Some (_, after) => forallb Py.isspace after
  | None => true
  end.

(** [re.match('^' + RE_ALIAS + '$', r)] with
    [RE_ALIAS = r'(.*?)\s*\<([0-9A-Za-z]{1,})\>']: group 2.  The [$] also
    matches before one final line feed. *)
Definition match_alias (r : str) : option str :=
  let body := match rev r with
              | "010"%char :: b => b
              | b => b
              end in
  match body with
  | ">"%char :: b =>
      match span Py.isalnum b with
      | ((_ :: _) as g, "<"%char :: p) =>
          if alias_name_ok (rev p) then Some (rev g) else None
      | _ => None
      end
  | _ => None
  end.

Definition email_local_char (c : ascii) : bool :=
  Py.isalnum c || Py.contains c "._%+-".
Definition email_domain_char (c : ascii) : bool :=
  Py.isalnum c || Py.contains c ".-".
Definition email_tld_char (c : ascii) : bool :=
  Py.isalpha c || Py.chr_eqb c "|".

(** [\b] between a character and what follows it. *)
Definition boundary (before : ascii) (after : str) : bool :=
  xorb (Py.isword before)
       (match after with c :: _ => Py.isword c | [] => false end).

(** [[A-Z|a-z]{2,7}\b] at the start of [s], [n] characters read so far,
    the last one being [last]. *)
Fixpoint email_tld (fuel : nat) (n : nat) (last : ascii) (s : str) : bool :=
  ((2 <=? n)%nat && boundary last s) ||
  match fuel, s with
  | S f, c :: r => email_tld_char c && email_tld f (S n) c r
  | _, _ => false
  end.

(** [[A-Za-z0-9.-]+\.[A-Z|a-z]{2,7}\b] at the start of [s]; [seen] says
    that the domain read so far is not empty. *)
Fixpoint email_domain (seen : bool) (s : str) : bool :=
  match s with
  | c :: r =>
      email_domain_char c &&
      ((seen && Py.chr_eqb c "." && email_tld 7 0 c r) || email_domain true r)
  | [] => false
  end.

(** [re.match(RE_EMAIL, text)] with
    [RE_EMAIL = r'\b[A-Za-z0-9._%+-]+@[A-Za-z0-9.-]+\.[A-Z|a-z]{2,7}\b']. *)
Definition match_email (text : str) : bool :=
  match text with
  | c :: _ =>
      Py.isword c &&
      match span email_local_char text with
      | (_ :: _, "@"%char :: r) => email_domain false r
      | _ => false
      end
  | [] => false
  end.

End Re.

(** ** The collaborators of the payment identifier *)

(** Python values found in a decoded URI and as the amount of an output:
    an [int] or a text. *)
Inductive pyval :=
| VInt (n : Z)
| VStr (s : str).

(** Truth value. *)
Definition truthy (v : pyval) : bool :=
  match v with
  | VInt n => negb (n =? 0)
  | VStr s => Py.nonempty s
  end.

Definition truthy_opt (o : option pyval) : bool :=
  match o with Some v => truthy v | None => false end.

(** [lnaddr.LnAddr], as far as the module looks at it. *)
Record LnAddr := {
  get_amount_sat : option Decimal.t;      (* sat, with msat resolution *)
  get_fallback_address : option str;
}.

(** [lnurl.LNURL6Data] *)
Record LNURL6Data := {
  callback_url : str;
  max_sendable_sat : Z;
  min_sendable_sat : Z;
  metadata_plaintext : str;
  comment_allowed : Z;
}.

(** [invoices.Invoice], as far as the module looks at it:
    [get_amount_sat()] is an [int], ['!'] or [None]. *)
Record Invoice := {
  Invoice_get_amount_sat : option pyval;
}.

(** Modelled from the spec: [transaction.PartialTxOutput] is not among the
    sources; the spec describes an output of a batch as a pair
    [(scriptOrAddress, amountOrMaxSentinel)].  The script is the result of
    [parse_output], which is [None] when it resolves nothing. *)
Record PartialTxOutput := {
  scriptpubkey : option bytes;
  value : pyval;
}.

(** The [bitcoin] module. *)
Class Bitcoin := {
  COIN : Z;
  TOTAL_COIN_SUPPLY_LIMIT_IN_BTC : Z;
  is_address : str -> bool;
  address_to_script : str -> outcome str;        (* hexadecimal *)
  base_decode : str -> Z -> outcome bytes;
}.

(** [lnaddr], [lnurl] and [invoices].  [callback_lnurl] is the network
    request of round 2: it answers with the entries of a JSON object. *)
Class Lightning := {
  lndecode : str -> outcome LnAddr;
  decode_lnurl : str -> outcome str;
  callback_lnurl : str -> Dict.t pyval -> outcome (Dict.t str);
  from_bech32 : option str -> outcome Invoice;
}.

(** [util] *)
Class Util := {
  parse_max_spend : pyval -> option Z;           (* never raises *)
  format_satoshis_plain : Z -> str;
}.

(** The configuration object. *)
Class Config := {
  get_decimal_point : nat;
}.

(** Two corners of the standard library that are left open: the validation
    of a bracketed host by [ipaddress], and the decoding of UTF-8 bytes
    with replacement, which is the identity on ASCII. *)
Class Runtime := {
  bracketed_host_ok : str -> bool;
  utf8_decode : bytes -> str;
  utf8_decode_ascii : forall b, forallb Py.isascii b = true -> utf8_decode b = b;
}.

(** [if parse_max_spend(x):] *)
Definition is_max_spend `{Util} (x : pyval) : bool :=
  match parse_max_spend x with
  | Some w => negb (w =? 0)
  | None => false
  end.

(** ** bip21 URIs *)
Section Bip21.
Context `{Bitcoin} `{Lightning} `{Util} `{Runtime}.

Definition BITCOIN_BIP21_URI_SCHEME : str := "bitcoin".
Definition LIGHTNING_URI_SCHEME : str := "lightning".

(** The body of the [try] that decodes the [amount] field. *)
Definition decode_amount (am : str) : outcome Z :=
  let* amount :=
    match Re.match_amount_X am with
    | Some (mantissa, d) =>
        let k := Decimal.digit_value d - 8 in
        let* x := Decimal.of_str mantissa in
        Decimal.mul x (Decimal.pow10 k)
    | None =>
        let* x := Decimal.of_str am in
        Decimal.mul x (Decimal.of_int COIN)
    end in
  let* over := Decimal.gt_int amount (TOTAL_COIN_SUPPLY_LIMIT_IN_BTC * COIN) in
  if over then Raise (InvalidBitcoinURI AmountOutOfBounds)
  else Decimal.to_int amount.

(** [try: body  except Exception as e: raise InvalidBitcoinURI(...) from e] *)
Definition field_try {A} (field : str) (body : outcome A) : outcome A :=
  try_except body (fun e => Raise (InvalidBitcoinURI (FailedToParseField field e))).

Definition not_a_text : exn := TypeError "expected string or bytes-like object".

(** The first key of [pq] that does not have exactly one value. *)
Fixpoint check_duplicate_keys (pq : Dict.t (list str)) : outcome unit :=
  match pq with
  | [] => Ret tt
  | (k, v) :: r =>
      if negb (length v =? 1)%nat then Raise (InvalidBitcoinURI (DuplicateKey k))
      else check_duplicate_keys r
  end.

(** The cross-checks of the [lightning] field against the rest of [out]. *)
Definition check_lightning (out : Dict.t pyval) (lightning : pyval)
  : outcome unit :=
  let* lnaddr :=
    match lightning with
    | VStr s =>
        match lndecode s with
        | Raise (LnDecodeException m) =>
            Raise (InvalidBitcoinURI (FailedToDecodeLightning (LnDecodeException m)))
        | r => r
        end
    | VInt _ => Raise not_a_text
    end in
  let amount_sat := Dict.get "amount" out in
  let* _ :=
    if truthy_opt amount_sat then
      (* allow small leeway due to msat precision *)
      let* ln_sat :=
        match get_amount_sat lnaddr with
        | Some d => Decimal.to_int d
        | None => Raise (TypeError "int() argument must be a string, a bytes-like object or a real number, not 'NoneType'")
        end in
      match amount_sat with
      | Some (VInt a) =>
          if 1 <? Z.abs (a - ln_sat)
          then Raise (InvalidBitcoinURI InconsistentAmount) else Ret tt
      | _ => Raise (TypeError "unsupported operand type(s) for -: 'str' and 'int'")
      end
    else Ret tt in
  let address := Dict.get "address" out in
  match address, get_fallback_address lnaddr with
  | Some a, Some ln_fallback_addr =>
      if truthy a && Py.nonempty ln_fallback_addr then
        if negb (match a with
                 | VStr s => Py.str_eqb ln_fallback_addr s
                 | VInt _ => false
                 end)
        then Raise (InvalidBitcoinURI InconsistentAddress) else Ret tt
      else Ret tt
  | _, _ => Ret tt
  end.

(** [parse_bip21_URI(uri)] up to and including the [sig] field: the
    fields of the URI, each decoded on its own. *)
Definition decode_fields (uri : str) : outcome (Dict.t pyval) :=
  if negb (Py.contains ":" uri) then
    if negb (is_address uri) then Raise (InvalidBitcoinURI NotAnAddress)
    else Ret [("address", VStr uri)]
  else
  let* u := Urllib.urlparse bracketed_host_ok uri in
  if negb (Py.str_eqb (Py.lower (Urllib.scheme u)) BITCOIN_BIP21_URI_SCHEME)
  then Raise (InvalidBitcoinURI NotABitcoinURI) else
  let address := Urllib.path u in
  (* python for android fails to parse query *)
  let* (address, pq) :=
    match Py.partition "?" address with
    | Some (_ :: _, _) =>
        match Py.split "?" (Urllib.path u) with
        | [a; q] => Ret (a, Urllib.parse_qs utf8_decode q)
        | _ => Raise (ValueError "too many values to unpack (expected 2)")
        end
    | _ => Ret (address, Urllib.parse_qs utf8_decode (Urllib.query u))
    end in
  let* _ := check_duplicate_keys pq in
  let out : Dict.t pyval := map (fun '(k, v) => (k, VStr (hd [] v))) pq in
  let* out :=
    if Py.nonempty address then
      if negb (is_address address)
      then Raise (InvalidBitcoinURI (InvalidAddress address))
      else Ret (Dict.set "address" (VStr address) out)
    else Ret out in
  let* out :=
    match Dict.get "amount" out with
    | Some am =>
        let* n := field_try "amount"
                    (match am with
                     | VStr s => decode_amount s
                     | VInt _ => Raise not_a_text
                     end) in
        Ret (Dict.set "amount" (VInt n) out)
    | None => Ret out
    end in
  let out :=
    match Dict.get "message" out with
    | Some m => Dict.set "memo" m (Dict.set "message" m out)
    | None => out
    end in
  let int_field (field : str) (out : Dict.t pyval) : outcome (Dict.t pyval) :=
    match Dict.get field out with
    | Some v =>
        let* n := field_try field
                    (match v with
                     | VStr s => Builtins.int_of_str s
                     | VInt n => Ret n
                     end) in
        Ret (Dict.set field (VInt n) out)
    | None => Ret out
    end in
  let* out := int_field "time" out in
  let* out := int_field "exp" out in
  let* out :=
    match Dict.get "sig" out with
    | Some v =>
        let* h := field_try "sig"
                    (match v with
                     | VStr s => let* b := base_decode s 58 in Ret (Builtins.bytes_hex b)
                     | VInt _ => Raise not_a_text
                     end) in
        Ret (Dict.set "sig" (VStr h) out)
    | None => Ret out
    end in
  Ret out.

(** [parse_bip21_URI(uri)]: the fields, then the [lightning] field checked
    against them.  Raises [InvalidBitcoinURI] on malformed URI, says its
    docstring. *)
Definition parse_bip21_URI (uri : str) : outcome (Dict.t pyval) :=
  let* out := decode_fields uri in
  let* _ :=
    match Dict.get "lightning" out with
    | Some l => check_lightning out l
    | None => Ret tt
    end in
  Ret out.

(** [create_bip21_uri(addr, amount_sat, message, extra_query_params=...)] *)
Definition create_bip21_uri (addr : str) (amount_sat : option Z)
    (message : option str) (extra_query_params : option (Dict.t str))
  : outcome str :=
  if negb (is_address addr) then Ret "" else
  let extra_query_params :=
    match extra_query_params with Some d => d | None => [] end in
  let query :=
    match amount_sat with
    | Some n => if negb (n =? 0) then ["amount=" ++ format_satoshis_plain n] else []
    | None => []
    end in
  let query :=
    match message with
    | Some m => if Py.nonempty m then query ++ ["message=" ++ Urllib.quote m] else query
    | None => query
    end in
  let* query :=
    fold_left (fun acc '(k, v) =>
      let* q := acc in
      if negb (Py.str_eqb k (Urllib.quote k))
      then Raise (Exception "illegal key for URI")
      else Ret (q ++ [k ++ "=" ++ Urllib.quote v]))
      extra_query_params (Ret query) in
  Ret (Urllib.urlunparse
         {| Urllib.scheme := BITCOIN_BIP21_URI_SCHEME;
            Urllib.netloc := "";
            Urllib.path := addr;
            Urllib.params := "";
            Urllib.query := Py.join "&" query;
            Urllib.fragment := "" |}).

(** [is_uri] *)
Definition is_uri (data : str) : bool :=
  let data := Py.lower data in
  Py.startswith data (LIGHTNING_URI_SCHEME ++ ":") ||
  Py.startswith data (BITCOIN_BIP21_URI_SCHEME ++ ":").

(** [maybe_extract_lightning_payment_identifier] *)
Definition maybe_extract_lightning_payment_identifier (data : str) : option str :=
  let data := Py.strip data in
  let data := Py.lower data in
  let data :=
    if Py.startswith data (LIGHTNING_URI_SCHEME ++ ":ln")
    then skipn (length (LIGHTNING_URI_SCHEME ++ ":")) data
    else data in
  if Py.startswith data "ln" then Some data else None.

End Bip21.

(** ** The payment identifier *)

(** [PayToLineError] *)
Record PayToLineError := {
  line_content : str;
  exc : exn;
  idx : nat;                      (* index of line *)
  is_multiline : bool;
}.

(** What the module stores in [self.error]. *)
Inductive error_value :=
| ErrorLines (errors : list PayToLineError)
    (* [str(errors)] *)
| ErrorLightning (e : exn)
    (* ["Error parsing Lightning invoice" + f":\n{e}"] *)
| ErrorUnknown (truncated_text : str)
    (* [FailedToParsePaymentIdentifier(f"Unknown payment identifier:\n{truncated_text}")] *)
| ErrorLnurlRequest (e : exn).
    (* [f"LNURL request encountered error: {e}"] *)

(** The attributes of a [PaymentIdentifier] object. *)
Record PaymentIdentifier := {
  text : str;
  _type : option str;
  error : option error_value;     (* if set, GUI should show error and stop *)
  warning : option str;
  multiline_outputs : option (list PartialTxOutput);
  bolt11 : option str;
  bip21 : option (Dict.t pyval);
  spk : option bytes;
  openalias : option str;
  openalias_data : option (Dict.t pyval);
  bip70 : option pyval;
  bip70_data : option str;        (* a payment request, set by round 1 *)
  lnurl : option str;
  lnurl_data : option LNURL6Data;
}.

Definition set__type (v : option str) (s : PaymentIdentifier) :=
  {| text := text s; _type := v; error := error s; warning := warning s;
     multiline_outputs := multiline_outputs s; bolt11 := bolt11 s;
     bip21 := bip21 s; spk := spk s; openalias := openalias s;
     openalias_data := openalias_data s; bip70 := bip70 s;
     bip70_data := bip70_data s; lnurl := lnurl s; lnurl_data := lnurl_data s |}.

Definition set_error (v : option error_value) (s : PaymentIdentifier) :=
  {| text := text s; _type := _type s; error := v; warning := warning s;
     multiline_outputs := multiline_outputs s; bolt11 := bolt11 s;
     bip21 := bip21 s; spk := spk s; openalias := openalias s;
     openalias_data := openalias_data s; bip70 := bip70 s;
     bip70_data := bip70_data s; lnurl := lnurl s; lnurl_data := lnurl_data s |}.

Definition set_multiline_outputs (v : option (list PartialTxOutput))
    (s : PaymentIdentifier) :=
  {| text := text s; _type := _type s; error := error s; warning := warning s;
     multiline_outputs := v; bolt11 := bolt11 s;
     bip21 := bip21 s; spk := spk s; openalias := openalias s;
     openalias_data := openalias_data s; bip70 := bip70 s;
     bip70_data := bip70_data s; lnurl := lnurl s; lnurl_data := lnurl_data s |}.

Definition set_bolt11 (v : option str) (s : PaymentIdentifier) :=
  {| text := text s; _type := _type s; error := error s; warning := warning s;
     multiline_outputs := multiline_outputs s; bolt11 := v;
     bip21 := bip21 s; spk := spk s; openalias := openalias s;
     openalias_data := openalias_data s; bip70 := bip70 s;
     bip70_data := bip70_data s; lnurl := lnurl s; lnurl_data := lnurl_data s |}.

Definition set_bip21 (v : option (Dict.t pyval)) (s : PaymentIdentifier) :=
  {| text := text s; _type := _type s; error := error s; warning := warning s;
     multiline_outputs := multiline_outputs s; bolt11 := bolt11 s;
     bip21 := v; spk := spk s; openalias := openalias s;
     openalias_data := openalias_data s; bip70 := bip70 s;
     bip70_data := bip70_data s; lnurl := lnurl s; lnurl_data := lnurl_data s |}.

Definition set_spk (v : option bytes) (s : PaymentIdentifier) :=
  {| text := text s; _type := _type s; error := error s; warning := warning s;
     multiline_outputs := multiline_outputs s; bolt11 := bolt11 s;
     bip21 := bip21 s; spk := v; openalias := openalias s;
     openalias_data := openalias_data s; bip70 := bip70 s;
     bip70_data := bip70_data s; lnurl := lnurl s; lnurl_data := lnurl_data s |}.

Definition set_openalias (v : option str) (s : PaymentIdentifier) :=
  {| text := text s; _type := _type s; error := error s; warning := warning s;
     multiline_outputs := multiline_outputs s; bolt11 := bolt11 s;
     bip21 := bip21 s; spk := spk s; openalias := v;
     openalias_data := openalias_data s; bip70 := bip70 s;
     bip70_data := bip70_data s; lnurl := lnurl s; lnurl_data := lnurl_data s |}.

Definition set_bip70 (v : option pyval) (s : PaymentIdentifier) :=
  {| text := text s; _type := _type s; error := error s; warning := warning s;
     multiline_outputs := multiline_outputs s; bolt11 := bolt11 s;
     bip21 := bip21 s; spk := spk s; openalias := openalias s;
     openalias_data := openalias_data s; bip70 := v;
     bip70_data := bip70_data s; lnurl := lnurl s; lnurl_data := lnurl_data s |}.

Definition set_lnurl (v : option str) (s : PaymentIdentifier) :=
  {| text := text s; _type := _type s; error := error s; warning := warning s;
     multiline_outputs := multiline_outputs s; bolt11 := bolt11 s;
     bip21 := bip21 s; spk := spk s; openalias := openalias s;
     openalias_data := openalias_data s; bip70 := bip70 s;
     bip70_data := bip70_data s; lnurl := v; lnurl_data := lnurl_data s |}.

Definition set_lnurl_data (v : option LNURL6Data) (s : PaymentIdentifier) :=
  {| text := text s; _type := _type s; error := error s; warning := warning s;
     multiline_outputs := multiline_outputs s; bolt11 := bolt11 s;
     bip21 := bip21 s; spk := spk s; openalias := openalias s;
     openalias_data := openalias_data s; bip70 := bip70 s;
     bip70_data := bip70_data s; lnurl := lnurl s; lnurl_data := v |}.

(** Truth value of an attribute that holds a text. *)
Definition truthy_str (o : option str) : bool :=
  match o with Some s => Py.nonempty s | None => false end.

(** A method: it runs on the object and leaves the object it was run on,
    changed in place, whether it returns or raises. *)
Definition method (A : Type) := PaymentIdentifier -> outcome A * PaymentIdentifier.

Section Methods.
Context `{Bitcoin} `{Lightning} `{Util} `{Config} `{Runtime}.

Definition is_valid (self : PaymentIdentifier) : bool := truthy_str (_type self).

Definition is_lightning (self : PaymentIdentifier) : bool :=
  truthy_str (lnurl self) || truthy_str (bolt11 self).

(** The method [is_multiline]; the name without the underscore is the
    field of [PayToLineError]. *)
Definition is_multiline_ (self : PaymentIdentifier) : bool :=
  match multiline_outputs self with Some (_ :: _) => true | _ => false end.

Definition get_error (self : PaymentIdentifier) : option error_value := error self.

Definition needs_round_1 (self : PaymentIdentifier) : bool :=
  truthy_opt (bip70 self) || truthy_str (openalias self) || truthy_str (lnurl self).

Definition needs_round_2 (self : PaymentIdentifier) : bool :=
  truthy_str (lnurl self) && match lnurl_data self with Some _ => true | None => false end.

Definition needs_round_3 (self : PaymentIdentifier) : bool := truthy_opt (bip70 self).

(** [parse_address]: the [assert] fails on what is not an address. *)
Definition parse_address (line : str) : outcome str :=
  let r := Py.strip line in
  let address := match Re.match_alias r with Some g => g | None => r end in
  if is_address address then Ret address else Raise AssertionError.

(** The loop of [parse_script].  The module binds neither [opcodes] nor
    [construct_script]: it imports [COIN] and [TOTAL_COIN_SUPPLY_LIMIT_IN_BTC]
    from [bitcoin] and nothing else, so the first word ends the loop with a
    [NameError], after [bytes.fromhex] has had its say on a word that is
    not an opcode. *)
Definition parse_script_words (script : str) (words : list str) : outcome str :=
  match words with
  | [] => Ret script
  | word :: _ =>
      if Py.str_eqb (firstn 3 word) "OP_" then Raise (NameError "opcodes")
      else
        let* _ := Builtins.bytes_fromhex word in  (* to test it is hex data *)
        Raise (NameError "construct_script")
  end.

Definition parse_script (x : str) : outcome str :=
  parse_script_words "" (Py.split_ws x).

(** [parse_output]: both attempts swallow their exception, and the method
    falls off its end, returning [None]. *)
Definition parse_output (x : str) : option bytes :=
  match (let* address := parse_address x in
         let* script := address_to_script address in
         Builtins.bytes_fromhex script) with
  | Ret b => Some b
  | Raise _ =>
      match (let* script := parse_script x in Builtins.bytes_fromhex script) with
      | Ret b => Some b
      | Raise _ => None
      end
  end.

(** [parse_amount].  The handler names [decimal.InvalidOperation], and the
    module imports [Decimal] from [decimal], not [decimal]: whatever the
    [try] raises, looking the handler up raises [NameError]. *)
Definition parse_amount (x : str) : outcome pyval :=
  let x := Py.strip x in
  if negb (Py.nonempty x) then Raise (Exception "Amount is empty")
  else if is_max_spend (VStr x) then Ret (VStr x)
  else
    let p := 10 ^ Z.of_nat get_decimal_point in
    try_except
      (let* d := Decimal.of_str x in
       let* a := Decimal.mul (Decimal.of_int p) d in
       let* n := Decimal.to_int a in
       Ret (VInt n))
      (fun _ => Raise (NameError "decimal")).

Definition parse_address_and_amount (line : str) : outcome PartialTxOutput :=
  match Py.split "," line with
  | [x; y] =>
      let scriptpubkey := parse_output x in
      let* amount := parse_amount y in
      Ret {| scriptpubkey := scriptpubkey; value := amount |}
  | _ => Raise (Exception "expected two comma-separated values: (address, amount)")
  end.

(** The local variables of [_parse_as_multiline]. *)
Record batch := {
  outputs : list PartialTxOutput;
  errors : list PayToLineError;
  total : Z;
  is_max : bool;
}.

Definition empty_batch : batch :=
  {| outputs := []; errors := []; total := 0; is_max := false |}.

(** [for i, line in enumerate(lines): ...], from index [i] on. *)
Fixpoint multiline_loop (i : nat) (lines : list str) (b : batch) : outcome batch :=
  match lines with
  | [] => Ret b
  | line :: rest =>
      match parse_address_and_amount line with
      | Raise e =>
          multiline_loop (S i) rest
            {| outputs := outputs b;
               errors := errors b ++
                 [{| idx := i; line_content := Py.strip line; exc := e;
                     is_multiline := true |}];
               total := total b; is_max := is_max b |}
      | Ret output =>
          let outs := outputs b ++ [output] in
          if is_max_spend (value output) then
            multiline_loop (S i) rest
              {| outputs := outs; errors := errors b; total := total b;
                 is_max := true |}
          else
            match value output with
            | VInt n =>
                multiline_loop (S i) rest
                  {| outputs := outs; errors := errors b; total := total b + n;
                     is_max := is_max b |}
            | VStr _ =>
                Raise (TypeError "unsupported operand type(s) for +=: 'int' and 'str'")
            end
      end
  end.

(** [lines = text.split('\n')], empty lines filtered out. *)
Definition batch_lines (text : str) : list str :=
  filter Py.nonempty (Py.split "010" text).

(** [_parse_as_multiline]: only [outputs] is returned. *)
Definition _parse_as_multiline (text : str) : method (list PartialTxOutput) :=
  fun self =>
    let lines := batch_lines text in
    let is_multiline := (1 <? length lines)%nat in
    match multiline_loop 0 lines empty_batch with
    | Raise e => (Raise e, self)
    | Ret b =>
        let self :=
          if is_multiline || (match outputs b with [] => false | _ => true end)
          then set_error (match errors b with
                          | [] => None
                          | es => Some (ErrorLines es)
                          end) self
          else self in
        (Ret (outputs b), self)
    end.

(** [parse]: parse text, set [self._type] and [self.error]. *)
Definition parse (text : str) : method unit :=
  fun self =>
    let text := Py.strip text in
    if negb (Py.nonempty text) then (Ret tt, self) else
    match _parse_as_multiline text self with
    | (Raise e, self) => (Raise e, self)
    | (Ret ((_ :: _) as outputs), self) =>
        (Ret tt, set_multiline_outputs (Some outputs) (set__type (Some "multiline") self))
    | (Ret [], self) =>
        match maybe_extract_lightning_payment_identifier text with
        | Some invoice_or_lnurl =>
            if Py.startswith invoice_or_lnurl "lnurl" then
              let self := set__type (Some "lnurl") self in
              match decode_lnurl invoice_or_lnurl with
              | Ret u => (Ret tt, set_lnurl (Some u) self)
              | Raise e => (Ret tt, set_error (Some (ErrorLightning e)) self)
              end
            else
              (Ret tt, set_bolt11 (Some invoice_or_lnurl) (set__type (Some "bolt11") self))
        | None =>
            if Py.startswith (Py.lower text) (BITCOIN_BIP21_URI_SCHEME ++ ":") then
              match parse_bip21_URI text with
              | Raise (InvalidBitcoinURI _) =>
                  (* [self.error = _("Error parsing URI") + f":\n{e}"]: the
                     module does not bind [_] *)
                  (Raise (NameError "_"), self)
              | Raise e => (Raise e, self)
              | Ret out =>
                  (Ret tt,
                   set_bip70 (Dict.get "r" out)
                     (set_bip21 (Some out) (set__type (Some "bip21") self)))
              end
            else
              match parse_output text with
              | Some ((_ :: _) as scriptpubkey) =>
                  (Ret tt, set_spk (Some scriptpubkey) (set__type (Some "spk") self))
              | _ =>
                  if Re.match_email text then
                    (Ret tt, set_openalias (Some text) (set__type (Some "alias") self))
                  else
                    let truncated_text :=
                      if (100 <? length text)%nat then firstn 100 text ++ "..."
                      else text in
                    (Ret tt, set_error (Some (ErrorUnknown truncated_text)) self)
              end
        end
    end.

(** [PaymentIdentifier(config, contacts, text)]: the object [__init__]
    builds before it calls [parse]. *)
Definition fresh (text : str) : PaymentIdentifier :=
  {| text := text; _type := None; error := None; warning := None;
     multiline_outputs := None; bolt11 := None; bip21 := None; spk := None;
     openalias := None; openalias_data := None; bip70 := None;
     bip70_data := None; lnurl := None; lnurl_data := None |}.

(** [__init__] *)
Definition init (text : str) : outcome unit * PaymentIdentifier :=
  parse text (fresh text).

(** *** Round 2

    The coroutine is run to its end.  What it does to the world besides
    changing the object is recorded: the requests sent to the callback
    endpoint, and whether [on_success] was called.  [log_exceptions] logs an
    exception and raises it again. *)
Record round := {
  result : outcome unit;
  object : PaymentIdentifier;
  requests : list (str * Dict.t pyval);
  on_success_called : bool;
}.

Definition none_has_no_attribute (a : str) : exn := AttributeError a.

(** [round_2(on_success, amount_sat)] *)
Definition round_2 (amount_sat : option Z) (self : PaymentIdentifier) : round :=
  let stop (r : outcome unit) (self : PaymentIdentifier)
           (reqs : list (str * Dict.t pyval)) :=
    {| result := r; object := self; requests := reqs; on_success_called := false |} in
  if truthy_str (lnurl self) then
    match lnurl_data self, amount_sat with
    | None, _ => stop (Raise (none_has_no_attribute "min_sendable_sat")) self []
    | Some _, None =>
        stop (Raise (TypeError "'<=' not supported between instances of 'int' and 'NoneType'")) self []
    | Some data, Some amount =>
        if negb ((min_sendable_sat data <=? amount) && (amount <=? max_sendable_sat data))
        then
          (* [self.error = f'Amount must be between {self._lnurl_data.min_sendable_sat} ...']:
             the object has [lnurl_data], it has no [_lnurl_data] *)
          stop (Raise (AttributeError "_lnurl_data")) self []
        else
          let request := (callback_url data, [("amount", VInt (amount * 1000))]) in
          match callback_lnurl (fst request) (snd request) with
          | Raise (LNURLError m) =>
              stop (Ret tt) (set_error (Some (ErrorLnurlRequest (LNURLError m))) self) [request]
          | Raise e => stop (Raise e) self [request]
          | Ret invoice_data =>
              let bolt11_invoice := Dict.get "pr" invoice_data in
              match from_bech32 bolt11_invoice with
              | Raise e => stop (Raise e) self [request]
              | Ret invoice =>
                  if negb (match Invoice_get_amount_sat invoice with
                           | Some (VInt n) => n =? amount
                           | _ => false
                           end)
                  then stop (Raise (Exception "lnurl returned invoice with wrong amount"))
                            self [request]
                  else
                    (* this will change what is returned by get_fields_for_GUI *)
                    {| result := Ret tt; object := set_bolt11 bolt11_invoice self;
                       requests := [request]; on_success_called := true |}
              end
          end
    end
  else
    {| result := Ret tt; object := self; requests := []; on_success_called := true |}.

End Methods.

(** ** Sample collaborators

    Small implementations of the interfaces, to run the embedding on
    concrete inputs.  The address and invoice codecs are stand-ins that know
    a handful of texts; the formatter and the max-spend test follow
    [util]. *)
Module Sample.

Definition ADDR1 : str := "1A1zP1eP5QGefi2DMPTfTL5SLmv7DivfNa".
Definition ADDR2 : str := "bc1qw508d6qejxtdg4y5r3zarvary0c5xw7kv8f3t4".

Definition bitcoin : Bitcoin := {|
  COIN := 100000000;
  TOTAL_COIN_SUPPLY_LIMIT_IN_BTC := 21000000;
  is_address := fun a => Py.str_eqb a ADDR1 || Py.str_eqb a ADDR2;
  address_to_script := fun a =>
    if Py.str_eqb a ADDR1
    then Ret "76a91462e907b15cbf27d5425399ebf6f0fb50ebb88f1888ac"
    else if Py.str_eqb a ADDR2
    then Ret "0014751e76e8199196d454941c45d1b3a323f1433bd6"
    else Raise (OtherException "BitcoinException" "invalid address");
  base_decode := fun s _ => Ret s;
|}.

(** Three invoices: 1000 sat; 1001.999 sat; 5000 sat with [ADDR2] as its
    fallback address. *)
Definition INVOICE_1000 : str := "lnbc10u1sample".
Definition INVOICE_1001_999 : str := "lnbc10019990p1sample".
Definition INVOICE_5000_FALLBACK : str := "lnbc50u1fallback".

Definition lightning : Lightning := {|
  lndecode := fun s =>
    if Py.str_eqb s INVOICE_1000
    then Ret {| get_amount_sat := Some (Decimal.Finite 1000 0);
                get_fallback_address := None |}
    else if Py.str_eqb s INVOICE_1001_999
    then Ret {| get_amount_sat := Some (Decimal.Finite 1001999 (-3));
                get_fallback_address := None |}
    else if Py.str_eqb s INVOICE_5000_FALLBACK
    then Ret {| get_amount_sat := Some (Decimal.Finite 5000 0);
                get_fallback_address := Some ADDR2 |}
    else Raise (LnDecodeException "Bad bech32 checksum");
  decode_lnurl := fun _ => Ret "https://example.com/lnurlp";
  callback_lnurl := fun _ _ => Ret [("pr", INVOICE_1000)];
  from_bech32 := fun o =>
    match o with
    | Some s =>
        if Py.str_eqb s INVOICE_1000
        then Ret {| Invoice_get_amount_sat := Some (VInt 1000) |}
        else if Py.str_eqb s INVOICE_5000_FALLBACK
        then Ret {| Invoice_get_amount_sat := Some (VInt 5000) |}
        else Raise (OtherException "InvoiceError" "cannot decode")
    | None => Raise (TypeError "not a text")
    end;
|}.

(** The decimal digits of a natural number, most significant first. *)
Fixpoint digits_aux (fuel : nat) (n : Z) (acc : str) : str :=
  match fuel with
  | O => acc
  | S f =>
      let acc := ascii_of_N (Z.to_N (48 + n mod 10)) :: acc in
      if n <? 10 then acc else digits_aux f (n / 10) acc
  end.

Definition digits (n : Z) : str := digits_aux (S (Z.to_nat (Z.log2 n))) n [].

(** [n] written with exactly [width] digits, [n < 10 ^ width]. *)
Fixpoint padded (width : nat) (n : Z) : str :=
  match width with
  | O => []
  | S w => padded w (n / 10) ++ [ascii_of_N (Z.to_N (48 + n mod 10))]
  end.

(** ["{:.8f}".format(Decimal(x) / 10 ** 8).rstrip('0').rstrip('.')] *)
Definition format_sat (x : Z) : str :=
  let a := Z.abs x in
  let whole := digits (a / 100000000) in
  let fraction := Py.rstrip_by (Py.chr_eqb "0") (padded 8 (a mod 100000000)) in
  (if x <? 0 then "-" else "") ++
  whole ++ (match fraction with [] => [] | _ => "." ++ fraction end).

(** ['!'], or a positive weight followed by ['!']. *)
Definition max_spend (x : pyval) : option Z :=
  match x with
  | VInt _ => None
  | VStr s =>
      match rev s with
      | "!"%char :: w =>
          match w with
          | [] => Some 1
          | _ =>
              match Builtins.int_of_str (rev w) with
              | Ret n => if 0 <? n then Some n else None
              | Raise _ => None
              end
          end
      | _ => None
      end
  end.

Definition util : Util := {|
  parse_max_spend := max_spend;
  format_satoshis_plain := format_sat;
|}.

Definition config : Config := {| get_decimal_point := 8 |}.

Definition runtime : Runtime := {|
  bracketed_host_ok := fun _ => false;
  utf8_decode := fun b => b;
  utf8_decode_ascii := fun b _ => eq_refl;
|}.

(** A Lightning pointer after round 1, with the bounds [100] and [5000]. *)
Definition pointer_data : LNURL6Data :=
  {| callback_url := "https://example.com/lnurlp/callback";
     max_sendable_sat := 5000; min_sendable_sat := 100;
     metadata_plaintext := "sample"; comment_allowed := 0 |}.

Definition pointer : PaymentIdentifier :=
  set_lnurl_data (Some pointer_data)
    (set_lnurl (Some "https://example.com/lnurlp")
       (set__type (Some "lnurl") (fresh "lnurl1sample"))).

End Sample.

(** ** Vocabulary of the statements *)

(** A line feed. *)
Definition LF : str := ["010"%char].

(** How often the name [k] occurs among the decoded fields of a query. *)
Definition occurrences (k : str) (pairs : list (str * str)) : nat :=
  length (filter (fun p => Py.str_eqb (fst p) k) pairs).

(** One step of [parse_qs]: a field joins the values of its name. *)
Definition qs_step (parsed_result : Dict.t (list str)) (nv : str * str) :=
  let '(name, value) := nv in
  match Dict.get name parsed_result with
  | Some vs => Dict.set name (vs ++ [value]) parsed_result
  | None => Dict.set name [value] parsed_result
  end.

(** What [parse_qs] has built after the fields [p]: no name twice, and
    for every name of [p] as many values as the name has fields. *)
Definition collected (p : list (str * str)) (d : Dict.t (list str)) : Prop :=
  NoDup (map fst d) /\
  forall k, match Dict.get k d with
            | Some vs => length vs = occurrences k p /\ vs <> []
            | None => occurrences k p = 0%nat
            end.

(** The plain address of a decoded URI and the fallback address of its
    invoice are both there and differ. *)
Definition address_conflict (out : Dict.t pyval) (lnaddr : LnAddr) : bool :=
  match Dict.get "address" out, get_fallback_address lnaddr with
  | Some a, Some f =>
      truthy a && Py.nonempty f &&
      negb (match a with VStr s => Py.str_eqb f s | VInt _ => false end)
  | _, _ => false
  end.

(** What [quote] writes for one character. *)
Definition quote_char (c : ascii) : str :=
  if Urllib.always_safe c || Py.chr_eqb c "/" then [c]
  else ["%"%char; Urllib.upper_hex_digit (Py.ord c / 16);
        Urllib.upper_hex_digit (Py.ord c mod 16)].

(** The characters [quote] writes. *)
Definition quoted_char (c : ascii) : bool :=
  Py.isalnum c || Py.contains c "_.-~/%".

(** Printable ASCII. *)
Definition printable (c : ascii) : bool := Py.between 32 126 c.

(** [s] is the plain decimal numeral of [n / 10^8]: digits, and after a
    point at most eight more digits. *)
Definition renders (s : str) (n : Z) : Prop :=
  exists whole fraction : str,
    s = whole ++ match fraction with [] => [] | _ => "." ++ fraction end /\
    whole <> [] /\
    forallb Py.isdigit whole = true /\ forallb Py.isdigit fraction = true /\
    (length fraction <= 8)%nat /\
    Decimal.digits_value (whole ++ fraction) * 10 ^ (8 - Z.of_nat (length fraction)) = n.

Section Vocabulary.
Context `{Bitcoin} `{Lightning} `{Util} `{Config} `{Runtime}.

(** The outputs of the lines that parse, in order. *)
Fixpoint successes (lines : list str) : list PartialTxOutput :=
  match lines with
  | [] => []
  | line :: rest =>
      match parse_address_and_amount line with
      | Ret o => o :: successes rest
      | Raise _ => successes rest
      end
  end.

(** The error records of the lines that do not parse, the first line
    having index [i]. *)
Fixpoint failures (i : nat) (lines : list str) : list PayToLineError :=
  match lines with
  | [] => []
  | line :: rest =>
      match parse_address_and_amount line with
      | Ret _ => failures (S i) rest
      | Raise e =>
          {| idx := i; line_content := Py.strip line; exc := e;
             is_multiline := true |} :: failures (S i) rest
      end
  end.

(** The sum of the amounts that are not max-spend amounts. *)
Fixpoint sum_amounts (outs : list PartialTxOutput) : Z :=
  match outs with
  | [] => 0
  | o :: rest =>
      match value o with
      | VInt n => if is_max_spend (value o) then sum_amounts rest
                  else n + sum_amounts rest
      | VStr _ => sum_amounts rest
      end
  end.

(** Some output asks for the whole balance. *)
Definition some_max (outs : list PartialTxOutput) : bool :=
  existsb (fun o => is_max_spend (value o)) outs.

End Vocabulary.

(** ** Vocabulary of the further statements *)

(** A text with no space at either end. *)
Definition stripped (s : str) : Prop :=
  match s with c :: _ => Py.isspace c = false | [] => True end /\
  match rev s with c :: _ => Py.isspace c = false | [] => True end.

(** The attributes that hold what a family of payment identifiers is made
    of, each with the type that goes with it, and whether it is set. *)
Definition family_fields (p : PaymentIdentifier) : list (str * bool) :=
  let is_set {A} (o : option A) := match o with Some _ => true | None => false end in
  [("multiline", is_set (multiline_outputs p)); ("bolt11", is_set (bolt11 p));
   ("lnurl", is_set (lnurl p)); ("bip21", is_set (bip21 p));
   ("spk", is_set (spk p)); ("alias", is_set (openalias p))].

(** ** The methods around the rounds

    More collaborators: [paymentrequest], the [amount_msat] attribute of an
    invoice and the wallet that creates on-chain invoices, the request of
    round 1 to an LNURL endpoint, and the contact list the object is built
    with, which resolves aliases and may be [None]. *)

Definition set_openalias_data (v : option (Dict.t pyval)) (s : PaymentIdentifier) :=
  {| text := text s; _type := _type s; error := error s; warning := warning s;
     multiline_outputs := multiline_outputs s; bolt11 := bolt11 s;
     bip21 := bip21 s; spk := spk s; openalias := openalias s;
     openalias_data := v; bip70 := bip70 s;
     bip70_data := bip70_data s; lnurl := lnurl s; lnurl_data := lnurl_data s |}.

Definition set_bip70_data (v : option str) (s : PaymentIdentifier) :=
  {| text := text s; _type := _type s; error := error s; warning := warning s;
     multiline_outputs := multiline_outputs s; bolt11 := bolt11 s;
     bip21 := bip21 s; spk := spk s; openalias := openalias s;
     openalias_data := openalias_data s; bip70 := bip70 s;
     bip70_data := v; lnurl := lnurl s; lnurl_data := lnurl_data s |}.

(** [paymentrequest]: a payment request is known by its handle. *)
Class PaymentRequests := {
  get_payment_request : pyval -> outcome str;
  pr_get_outputs : str -> outcome (list PartialTxOutput);
  pr_has_expired : str -> outcome bool;
}.

(** [Invoice.amount_msat], read and assigned, and [wallet.create_invoice]. *)
Class Invoices := {
  amount_msat : Invoice -> option pyval;
  with_amount_msat : Z -> Invoice -> Invoice;
  create_invoice : list PartialTxOutput -> option pyval -> option str ->
                   option (Dict.t pyval) -> outcome Invoice;
}.

(** [lnurl.request_lnurl], the network request of round 1. *)
Class Lnurl := {
  request_lnurl : str -> outcome LNURL6Data;
}.

(** [self.contacts]: [None], or a contact list that resolves a key to a
    dictionary with the entries [address], [name] and [validated], or to
    nothing. *)
Class Contacts := {
  contacts : option (str -> outcome (option (Dict.t pyval)));
}.

Section Rounds.
Context `{Bitcoin} `{Lightning} `{Util} `{Config} `{Runtime}
        `{PaymentRequests} `{Invoices} `{Lnurl} `{Contacts}.

(** [has_expired] *)
Definition has_expired (self : PaymentIdentifier) : outcome bool :=
  if truthy_opt (bip70 self) then
    match bip70_data self with
    | Some pr => pr_has_expired pr
    | None => Raise (none_has_no_attribute "has_expired")
    end
  else Ret false.

(** [get_onchain_outputs(amount)], for an amount that is an [int].
    [parse_output] of what is not a text ([None], when the URI has no
    address) swallows two [AttributeError]s and returns [None]. *)
Definition get_onchain_outputs (amount : Z) (self : PaymentIdentifier)
  : outcome (list PartialTxOutput) :=
  if truthy_opt (bip70 self) then
    match bip70_data self with
    | Some pr => pr_get_outputs pr
    | None => Raise (none_has_no_attribute "get_outputs")
    end
  else
    match multiline_outputs self with
    | Some ((_ :: _) as outputs) => Ret outputs
    | _ =>
        match spk self with
        | Some ((_ :: _) as script) =>
            Ret [{| scriptpubkey := Some script; value := VInt amount |}]
        | _ =>
            match bip21 self with
            | Some ((_ :: _) as uri) =>
                let address := Dict.get "address" uri in
                let scriptpubkey :=
                  match address with
                  | Some (VStr a) => parse_output a
                  | _ => None
                  end in
                Ret [{| scriptpubkey := scriptpubkey; value := VInt amount |}]
            | _ => Raise (Exception "not onchain")
            end
        end
    end.

(** [get_invoice(wallet, amount_sat)]: [None] when a Lightning identifier
    has no invoice yet. *)
Definition get_invoice (amount_sat : Z) (self : PaymentIdentifier)
  : outcome (option Invoice) :=
  if is_lightning self then
    let invoice_str := bolt11 self in
    if negb (truthy_str invoice_str) then Ret None
    else
      let* invoice := from_bech32 invoice_str in
      match amount_msat invoice with
      | None => Ret (Some (with_amount_msat (amount_sat * 1000) invoice))
      | Some _ => Ret (Some invoice)
      end
  else
    let* outputs := get_onchain_outputs amount_sat self in
    match bip21 self with
    | None => Raise (none_has_no_attribute "get")
    | Some uri =>
        let message := Dict.get "message" uri in
        let bip70_data := if truthy_opt (bip70 self) then bip70_data self else None in
        let* invoice := create_invoice outputs message bip70_data (Some uri) in
        Ret (Some invoice)
    end.

(** What [resolve_openalias] leaves: its result, the object, and the entry
    it has written to the contact list, [contacts[key] = ('openalias',
    name)]. *)
Record resolution := {
  resolved : outcome (option (Dict.t pyval));
  resolved_object : PaymentIdentifier;
  contact_written : option (str * option pyval);
}.

(** [resolve_openalias].  An exception of [self.contacts.resolve], or of
    looking [resolve] up on [None], is logged and answered with [None]. *)
Definition resolve_openalias (self : PaymentIdentifier) : resolution :=
  let answer r := {| resolved := r; resolved_object := self;
                     contact_written := None |} in
  match openalias self with
  | None => answer (Raise (TypeError "argument of type 'NoneType' is not iterable"))
  | Some key =>
      if negb (Py.contains "." key && negb (Py.contains "<" key) &&
               negb (Py.contains " " key))
      then answer (Ret None)
      else
        let parts := Py.split "," key in  (* assuming single line *)
        if match parts with p :: _ => is_address p | [] => false end
        then answer (Ret None)
        else
          match contacts with
          | None => answer (Ret None)
          | Some resolve =>
              match resolve key with
              | Raise _ => answer (Ret None)
              | Ret (Some ((_ :: _) as data)) =>
                  let name := Dict.get "name" data in
                  let address := Dict.get "address" data in
                  (* this will set self.spk *)
                  match address with
                  | Some (VStr a) =>
                      let (r, self') := parse a self in
                      {| resolved := let* _ := r in Ret (Some data);
                         resolved_object := self';
                         contact_written := Some (key, name) |}
                  | _ =>
                      {| resolved := Raise (none_has_no_attribute "strip");
                         resolved_object := self;
                         contact_written := Some (key, name) |}
                  end
              | Ret _ => answer (Ret None)
              end
          end
  end.

(** What round 1 leaves. *)
Record first_round := {
  first_result : outcome unit;
  first_object : PaymentIdentifier;
  first_contact_written : option (str * option pyval);
  first_on_success_called : bool;
}.

(** [round_1(on_success)], run to its end.  The warning for an alias that
    is not validated is built with [_], which the module does not bind. *)
Definition round_1 (self : PaymentIdentifier) : first_round :=
  if truthy_str (openalias self) then
    let res := resolve_openalias self in
    let stop r self :=
      {| first_result := r; first_object := self;
         first_contact_written := contact_written res;
         first_on_success_called := false |} in
    match resolved res with
    | Raise e => stop (Raise e) (resolved_object res)
    | Ret data =>
        let self := set_openalias_data data (resolved_object res) in
        match data with
        | None => stop (Raise (none_has_no_attribute "get")) self
        | Some d =>
            if negb (truthy_opt (Dict.get "validated" d))
            then stop (Raise (NameError "_")) self
            else {| first_result := Ret tt; first_object := self;
                    first_contact_written := contact_written res;
                    first_on_success_called := true |}
        end
    end
  else
    let finish r self called :=
      {| first_result := r; first_object := self;
         first_contact_written := None; first_on_success_called := called |} in
    let lnurl_round :=
      match lnurl self with
      | Some ((_ :: _) as url) =>
          match request_lnurl url with
          | Ret data => finish (Ret tt) (set_lnurl_data (Some data) self) true
          | Raise e => finish (Raise e) self false
          end
      | _ => finish (Ret tt) self false
      end in
    match bip70 self with
    | Some url =>
        if truthy url then
          match get_payment_request url with
          | Ret data => finish (Ret tt) (set_bip70_data (Some data) self) true
          | Raise e => finish (Raise e) self false
          end
        else lnurl_round
    | None => lnurl_round
    end.

End Rounds.

(** ** The payment a user enters, in the QML front end

    [QEUserEnteredPayment] of [gui/qml/qeinvoice.py].  The object is a Qt
    object: assigning to one of its properties emits the change signal of
    the property when the value changes.  What an operation emits, and
    what it stores in the wallet, is collected in order. *)

(** [qetypes.QEAmount], as far as the object looks at it. *)
Record QEAmount := {
  isEmpty : bool;
  isMax : bool;
  satsInt : Z;
}.

Inductive event :=
| canPayChanged
| canSaveChanged
| keyChanged
| validationError (code message : str)
| invoiceCreateError (code message : str)
| invoiceSaved
| wallet_save_invoice (key : str).     (* [self._wallet.wallet.save_invoice(invoice)] *)

(** [i18n._]; the balances of the wallet and its setting
    [confirmed_only]; and [PartialTxOutput.from_address_and_value] followed
    by [wallet.create_invoice], for a recipient, an amount and a message:
    the invoice is known by its id; the two can raise, an [InvoiceError]
    with its text or something else. *)
Class FrontEnd := {
  gettext : str -> str;
  confirmedBalance : Z;
  unconfirmedBalance : Z;
  confirmed_only : bool;
  create_onchain_invoice : option str -> Z -> option str -> outcome str;
}.

Definition InvoiceError (message : str) : exn := OtherException "InvoiceError" message.

Section QML.
Context `{Bitcoin} `{FrontEnd}.

(** [QEInvoice.get_max_spendable_onchain] *)
Definition get_max_spendable_onchain : Z :=
  let spendable := confirmedBalance in
  if negb confirmed_only then spendable + unconfirmedBalance else spendable.

(** The attributes of a [QEUserEnteredPayment]. *)
Record QEUserEnteredPayment := {
  _recipient : option str;
  _amount : QEAmount;
  _message : option str;
  _canSave : bool;
  _canPay : bool;
  _key : option str;
}.

(** The object an operation leaves and the events it has caused. *)
Definition effect : Type := QEUserEnteredPayment * list event.

(** [self.canPay = v] *)
Definition set_canPay (v : bool) (e : effect) : effect :=
  let (self, events) := e in
  if Bool.eqb (_canPay self) v then e
  else ({| _recipient := _recipient self; _amount := _amount self;
           _message := _message self; _canSave := _canSave self;
           _canPay := v; _key := _key self |},
        events ++ [canPayChanged]).

(** [self.canSave = v] *)
Definition set_canSave (v : bool) (e : effect) : effect :=
  let (self, events) := e in
  if Bool.eqb (_canSave self) v then e
  else ({| _recipient := _recipient self; _amount := _amount self;
           _message := _message self; _canSave := v;
           _canPay := _canPay self; _key := _key self |},
        events ++ [canSaveChanged]).

(** [self.key = v] *)
Definition set_key (v : str) (e : effect) : effect :=
  let (self, events) := e in
  if match _key self with Some k => Py.str_eqb k v | None => false end then e
  else ({| _recipient := _recipient self; _amount := _amount self;
           _message := _message self; _canSave := _canSave self;
           _canPay := _canPay self; _key := Some v |},
        events ++ [keyChanged]).

Definition emit (s : event) (e : effect) : effect :=
  let (self, events) := e in (self, events ++ [s]).

(** [QEUserEnteredPayment.validate] *)
Definition validate (self : QEUserEnteredPayment) : effect :=
  let e := set_canSave false (set_canPay false (self, [])) in
  match _recipient self with
  | Some ((_ :: _) as recipient) =>
      if negb (is_address recipient) then
        emit (validationError "recipient" (gettext "Invalid Bitcoin address")) e
      else
        let e := set_canSave true e in
        if isEmpty (_amount self) then
          emit (validationError "amount" (gettext "Invalid amount")) e
        else if isMax (_amount self) then set_canPay true e
        else if satsInt (_amount self) <=? get_max_spendable_onchain
        then set_canPay true e
        else e
  | _ => emit (validationError "recipient" (gettext "Recipient not specified.")) e
  end.

(** [QEUserEnteredPayment.save_invoice]: the two [assert]s, then the
    invoice. *)
Definition save_invoice (self : QEUserEnteredPayment) : outcome unit * effect :=
  if negb (_canSave self) then (Raise AssertionError, (self, []))
  else if isMax (_amount self) then (Raise AssertionError, (self, []))
  else
    let inv_amt := satsInt (_amount self) in
    match create_onchain_invoice (_recipient self) inv_amt (_message self) with
    | Raise (OtherException cls m) =>
        if Py.str_eqb cls "InvoiceError" then
          (Ret tt,
           emit (invoiceCreateError "fatal"
                   (gettext "Error creating payment" ++ ":" ++ ["010"%char] ++ m))
                (self, []))
        else (Raise (OtherException cls m), (self, []))
    | Raise e => (Raise e, (self, []))
    | Ret key =>
        (Ret tt,
         emit invoiceSaved
           (emit (wallet_save_invoice key) (set_key key (self, []))))
    end.

End QML.

(** ** More sample collaborators *)
Module Demo.

Definition payment_requests : PaymentRequests := {|
  get_payment_request := fun _ => Ret "request-1";
  pr_get_outputs := fun _ => Ret [];
  pr_has_expired := fun _ => Ret false;
|}.

(** An invoice keeps its amount in msat; a created invoice has none. *)
Definition invoices : Invoices := {|
  amount_msat := fun invoice =>
    match Invoice_get_amount_sat invoice with
    | Some (VInt n) => Some (VInt (n * 1000))
    | other => other
    end;
  with_amount_msat := fun msat _ =>
    {| Invoice_get_amount_sat := Some (VInt (msat / 1000)) |};
  create_invoice := fun _ _ _ _ => Ret {| Invoice_get_amount_sat := None |};
|}.

(** An endpoint that answers round 1 with the bounds [100] and [5000]. *)
Definition lnurl_endpoint : Lnurl := {|
  request_lnurl := fun _ => Ret Sample.pointer_data;
|}.

(** No contact list, as the QML front end has it, and one that knows one
    alias. *)
Definition no_contacts : Contacts := {| contacts := None |}.

Definition contact_list : Contacts := {|
  contacts := Some (fun key =>
    if Py.str_eqb key "alice@example.com"
    then Ret (Some [("address", VStr Sample.ADDR1); ("name", VStr "alice");
                    ("validated", VInt 1)])
    else Ret None);
|}.

(** Amounts in mBTC. *)
Definition config_mBTC : Config := {| get_decimal_point := 5 |}.

Definition front_end : FrontEnd := {|
  gettext := fun s => s;
  confirmedBalance := 1000;
  unconfirmedBalance := 500;
  confirmed_only := false;
  create_onchain_invoice := fun _ _ _ => Ret "invoice-1";
|}.

(** The object of an alias, and of an LNURL before round 1. *)
Definition alias : PaymentIdentifier :=
  set_openalias (Some "alice@example.com")
    (set__type (Some "alias") (fresh "alice@example.com")).

Definition lnurl_before_round_1 : PaymentIdentifier :=
  set_lnurl (Some "https://example.com/lnurlp")
    (set__type (Some "lnurl") (fresh "lnurl1sample")).

(** A payment of the whole balance. *)
Definition whole_balance : QEUserEnteredPayment :=
  {| _recipient := Some Sample.ADDR1;
     _amount := {| isEmpty := false; isMax := true; satsInt := 0 |};
     _message := None; _canSave := false; _canPay := false; _key := None |}.

End Demo.

(** * Properties *)

(** ** Text *)

Lemma chr_eqb_eq (a b : ascii) : Py.chr_eqb a b = true <-> a = b.
Proof. apply Ascii.eqb_eq. Qed.

Lemma chr_eqb_refl (a : ascii) : Py.chr_eqb a a = true.
Proof. apply Ascii.eqb_refl. Qed.

Lemma str_eqb_eq (a b : str) : Py.str_eqb a b = true <-> a = b.
Proof.
  revert b; induction a as [|x a IH]; intros [|y b]; simpl; split;
    try congruence; try reflexivity.
  - rewrite andb_true_iff, chr_eqb_eq, IH. intros [-> ->]; reflexivity.
  - intros E; injection E as -> ->. now rewrite chr_eqb_refl, (proj2 (IH b)).
Qed.

Lemma str_eqb_refl (a : str) : Py.str_eqb a a = true.
Proof. now apply str_eqb_eq. Qed.

Lemma lstrip_by_all (p : ascii -> bool) (s : str) :
  forallb p s = true -> Py.lstrip_by p s = [].
Proof.
  induction s as [|c s IH]; simpl; [reflexivity|].
  rewrite andb_true_iff; intros [-> Hs]; auto.
Qed.

Lemma strip_blank (s : str) : forallb Py.isspace s = true -> Py.strip s = [].
Proof.
  intros Hs; unfold Py.strip, Py.rstrip_by.
  now rewrite (lstrip_by_all _ _ Hs).
Qed.

Lemma lstrip_by_keep (p : ascii -> bool) (c : ascii) (s : str) :
  p c = false -> Py.lstrip_by p (c :: s) = c :: s.
Proof. intros Hc; simpl; now rewrite Hc. Qed.

Section Properties.
Context `{Bitcoin} `{Lightning} `{Util} `{Config} `{Runtime}.

(** ** Classification of blank input *)

(** C9. Classifying an empty or whitespace-only text returns normally and
    leaves the object as [__init__] made it: no family type, so that
    [is_valid()] is false, and no error. *)
Theorem classify_blank (text : str) :
  forallb Py.isspace text = true ->
  let r := init text in
  fst r = Ret tt /\ snd r = fresh text /\
  _type (snd r) = None /\ is_valid (snd r) = false /\ error (snd r) = None.
Proof.
  intros Hs; unfold init, parse; rewrite (strip_blank _ Hs); simpl.
  repeat split.
Qed.

(** ** Classification can raise *)

(** C1. [parse] does not always return: on a [bitcoin:] URI that
    [parse_bip21_URI] rejects — here for a duplicate key — the handler looks
    up [_], which the module never binds, and [NameError] leaves [parse]
    with no error recorded; and an exception of [urlparse] is not an
    [InvalidBitcoinURI] and passes through, here for an unmatched
    bracket. *)
Theorem parse_raises_on_malformed_uri :
  init "bitcoin:?a=1&a=2" = (Raise (NameError "_"), fresh "bitcoin:?a=1&a=2") /\
  init "bitcoin://[" = (Raise (ValueError "Invalid IPv6 URL"), fresh "bitcoin://[").
Proof. split; vm_compute; reflexivity. Qed.

(** Whatever [parse_bip21_URI] raises leaves [parse]: its
    [InvalidBitcoinURI] as the [NameError] of the handler, anything else as
    it is.  The object is as [_parse_as_multiline] left it. *)
Lemma rejected_uri_leaves_parse (text : str) (e : exn) (self self' : PaymentIdentifier) :
  Py.strip text <> [] ->
  _parse_as_multiline (Py.strip text) self = (Ret [], self') ->
  maybe_extract_lightning_payment_identifier (Py.strip text) = None ->
  Py.startswith (Py.lower (Py.strip text)) "bitcoin:" = true ->
  parse_bip21_URI (Py.strip text) = Raise e ->
  parse text self =
    (Raise (match e with InvalidBitcoinURI _ => NameError "_" | _ => e end), self').
Proof.
  intros Hne Hm Hl Hs He. unfold parse.
  replace (Py.nonempty (Py.strip text)) with true
    by (destruct (Py.strip text); [congruence|reflexivity]).
  cbn [negb]. rewrite Hm, Hl.
  replace (BITCOIN_BIP21_URI_SCHEME ++ ":") with ("bitcoin:" : str) by reflexivity.
  rewrite Hs, He. now destruct e.
Qed.

(** ** Round 2 *)

(** C4. Round 2 with an amount outside [[min, max]]: no request is sent
    and [on_success] is not called, but the error is not recorded either;
    building its message reads [self._lnurl_data], and the round ends with
    [AttributeError], the object unchanged.  With an amount inside the
    bounds, bounds included, exactly one request is sent, for a thousand
    times the amount. *)
Theorem round_2_amount_bounds (self : PaymentIdentifier) (data : LNURL6Data)
    (amount : Z) :
  truthy_str (lnurl self) = true ->
  lnurl_data self = Some data ->
  (amount < min_sendable_sat data \/ max_sendable_sat data < amount ->
   round_2 (Some amount) self =
     {| result := Raise (AttributeError "_lnurl_data"); object := self;
        requests := []; on_success_called := false |}) /\
  (min_sendable_sat data <= amount <= max_sendable_sat data ->
   requests (round_2 (Some amount) self) =
     [(callback_url data, [("amount", VInt (amount * 1000))])]).
Proof.
  intros Hl Hd; unfold round_2; rewrite Hl, Hd; split; intros Hr.
  - replace ((min_sendable_sat data <=? amount) && (amount <=? max_sendable_sat data))
      with false; [reflexivity|].
    symmetry; apply andb_false_iff; rewrite !Z.leb_gt; lia.
  - replace ((min_sendable_sat data <=? amount) && (amount <=? max_sendable_sat data))
      with true by (symmetry; apply andb_true_iff; rewrite !Z.leb_le; lia).
    cbn [negb fst snd].
    destruct (callback_lnurl _ _) as [d|[]]; try reflexivity.
    destruct (from_bech32 _) as [i|e]; try reflexivity.
    now destruct (negb _).
Qed.

(** C3. Round 2 when the callback request succeeds and the invoice it
    returns decodes, but to an amount other than the requested one: the
    round raises, after its single request; the invoice is not adopted, the
    object stays as it was, and [on_success] is not called. *)
Theorem round_2_wrong_amount (self : PaymentIdentifier) (data : LNURL6Data)
    (amount : Z) (invoice_data : Dict.t str) (invoice : Invoice) :
  truthy_str (lnurl self) = true ->
  lnurl_data self = Some data ->
  min_sendable_sat data <= amount <= max_sendable_sat data ->
  callback_lnurl (callback_url data) [("amount", VInt (amount * 1000))]
    = Ret invoice_data ->
  from_bech32 (Dict.get "pr" invoice_data) = Ret invoice ->
  Invoice_get_amount_sat invoice <> Some (VInt amount) ->
  round_2 (Some amount) self =
    {| result := Raise (Exception "lnurl returned invoice with wrong amount");
       object := self;
       requests := [(callback_url data, [("amount", VInt (amount * 1000))])];
       on_success_called := false |}.
Proof.
  intros Hl Hd Hr Hc Hi Ha; unfold round_2; rewrite Hl, Hd.
  replace ((min_sendable_sat data <=? amount) && (amount <=? max_sendable_sat data))
    with true by (symmetry; apply andb_true_iff; rewrite !Z.leb_le; lia).
  cbn [negb fst snd]; rewrite Hc, Hi.
  destruct (Invoice_get_amount_sat invoice) as [[n|s]|]; try reflexivity.
  destruct (Z.eqb_spec n amount) as [->|]; [now elim Ha | reflexivity].
Qed.

End Properties.

(** ** Splitting text *)

Lemma contains_false_of (p : ascii -> bool) (c : ascii) (s : str) :
  forallb p s = true -> p c = false -> Py.contains c s = false.
Proof.
  intros Hs Hc; induction s as [|x s IH]; simpl in *; [reflexivity|].
  apply andb_true_iff in Hs as [Hx Hs].
  rewrite (IH Hs), orb_false_r.
  destruct (Py.chr_eqb c x) eqn:E; [|reflexivity].
  apply chr_eqb_eq in E; subst; congruence.
Qed.

Lemma contains_app (c : ascii) (a b : str) :
  Py.contains c (a ++ b) = Py.contains c a || Py.contains c b.
Proof. apply existsb_app. Qed.

Lemma chr_eqb_sym (a b : ascii) : Py.chr_eqb a b = Py.chr_eqb b a.
Proof. apply Ascii.eqb_sym. Qed.

Lemma split_no_sep (sep : ascii) (a : str) :
  Py.contains sep a = false -> Py.split sep a = [a].
Proof.
  induction a as [|c a IH]; simpl; [reflexivity|].
  rewrite orb_false_iff; intros [Hc Ha].
  rewrite chr_eqb_sym, Hc, (IH Ha); reflexivity.
Qed.

Lemma split_app_sep (sep : ascii) (a r : str) :
  Py.contains sep a = false ->
  Py.split sep (a ++ sep :: r) = a :: Py.split sep r.
Proof.
  induction a as [|c a IH]; simpl.
  - now rewrite chr_eqb_refl.
  - rewrite orb_false_iff; intros [Hc Ha].
    rewrite chr_eqb_sym, Hc, (IH Ha); reflexivity.
Qed.

Lemma partition_no_sep (sep : ascii) (a : str) :
  Py.contains sep a = false -> Py.partition sep a = None.
Proof.
  induction a as [|c a IH]; simpl; [reflexivity|].
  rewrite orb_false_iff; intros [Hc Ha].
  rewrite chr_eqb_sym, Hc, (IH Ha); reflexivity.
Qed.

Lemma partition_app_sep (sep : ascii) (a r : str) :
  Py.contains sep a = false ->
  Py.partition sep (a ++ sep :: r) = Some (a, r).
Proof.
  induction a as [|c a IH]; simpl.
  - now rewrite chr_eqb_refl.
  - rewrite orb_false_iff; intros [Hc Ha].
    rewrite chr_eqb_sym, Hc, (IH Ha); reflexivity.
Qed.

Lemma rstrip_by_keep (p : ascii -> bool) (s : str) (z : ascii) :
  p z = false -> Py.rstrip_by p (s ++ [z]) = s ++ [z].
Proof.
  intros Hz; unfold Py.rstrip_by.
  rewrite rev_app_distr; simpl; rewrite Hz.
  change (z :: rev s) with ([z] ++ rev s).
  now rewrite rev_app_distr, rev_involutive.
Qed.

Section Batch.
Context `{Bitcoin} `{Lightning} `{Util} `{Config} `{Runtime}.

(** An amount that is a text is a max-spend amount. *)
Lemma parse_amount_value (y : str) (v : pyval) :
  parse_amount y = Ret v ->
  is_max_spend v = true \/ exists n, v = VInt n.
Proof.
  unfold parse_amount.
  destruct (negb (Py.nonempty (Py.strip y))); [discriminate|].
  destruct (is_max_spend (VStr (Py.strip y))) eqn:E.
  - intros [= <-]; now left.
  - unfold try_except, bind.
    destruct (Decimal.of_str _) as [d|]; [|discriminate].
    destruct (Decimal.mul _ _) as [a|]; [|discriminate].
    destruct (Decimal.to_int _) as [n|]; [|discriminate].
    intros [= <-]; right; eauto.
Qed.

Lemma parse_line_value (line : str) (o : PartialTxOutput) :
  parse_address_and_amount line = Ret o ->
  is_max_spend (value o) = true \/ exists n, value o = VInt n.
Proof.
  unfold parse_address_and_amount.
  destruct (Py.split "," line) as [|x [|y [|]]]; try discriminate.
  destruct (parse_amount y) as [v|] eqn:E; simpl; [|discriminate].
  intros [= <-]; simpl; eauto using parse_amount_value.
Qed.

Lemma sum_amounts_app (a b : list PartialTxOutput) :
  sum_amounts (a ++ b) = sum_amounts a + sum_amounts b.
Proof.
  induction a as [|o a IH]; simpl; [reflexivity|].
  destruct (value o); [destruct (is_max_spend _)|]; lia.
Qed.

(** The loop never raises: a line that does not parse is recorded with its
    index, and the loop goes on with the next line. *)
Lemma multiline_loop_spec (lines : list str) (i : nat) (b : batch) :
  multiline_loop i lines b =
    Ret {| outputs := outputs b ++ successes lines;
           errors := errors b ++ failures i lines;
           total := total b + sum_amounts (successes lines);
           is_max := is_max b || some_max (successes lines) |}.
Proof.
  revert i b; induction lines as [|line rest IH]; intros i b.
  - simpl. rewrite !app_nil_r, Z.add_0_r, orb_false_r. now destruct b.
  - cbn [multiline_loop successes failures].
    destruct (parse_address_and_amount line) as [o|e] eqn:E.
    + assert (Hsum : sum_amounts (o :: successes rest) =
                     (if is_max_spend (value o) then 0
                      else match value o with VInt n => n | VStr _ => 0 end)
                     + sum_amounts (successes rest)).
      { simpl. destruct (value o); destruct (is_max_spend _); lia. }
      assert (Hmax : some_max (o :: successes rest) =
                     is_max_spend (value o) || some_max (successes rest))
        by reflexivity.
      rewrite Hsum, Hmax.
      destruct (parse_line_value _ E) as [Hm|[n Hn]].
      * rewrite Hm, IH; cbn [outputs errors total is_max].
        rewrite <- app_assoc, orb_true_r, Z.add_0_l. reflexivity.
      * destruct (is_max_spend (value o)) eqn:Hm.
        -- rewrite IH; cbn [outputs errors total is_max].
           rewrite <- app_assoc, orb_true_r, Z.add_0_l. reflexivity.
        -- rewrite Hn, IH; cbn [outputs errors total is_max].
           rewrite <- app_assoc, Z.add_assoc. reflexivity.
    + rewrite IH; cbn [outputs errors total is_max].
      now rewrite <- app_assoc.
Qed.

Lemma successes_failures_length (lines : list str) (i : nat) :
  (length (successes lines) + length (failures i lines) = length lines)%nat.
Proof.
  revert i; induction lines as [|line rest IH]; intros i; simpl; [reflexivity|].
  destruct (parse_address_and_amount line); simpl; rewrite <- (IH (S i)); lia.
Qed.

(** [_parse_as_multiline] always returns; it returns the outputs, and the
    error attribute is the only one it can change. *)
Lemma parse_as_multiline_spec (text : str) (self : PaymentIdentifier) :
  _parse_as_multiline text self =
    (Ret (successes (batch_lines text)),
     if (1 <? length (batch_lines text))%nat ||
        match successes (batch_lines text) with [] => false | _ => true end
     then set_error (match failures 0 (batch_lines text) with
                     | [] => None
                     | es => Some (ErrorLines es)
                     end) self
     else self).
Proof.
  unfold _parse_as_multiline; rewrite multiline_loop_spec; reflexivity.
Qed.

End Batch.

(** ** Character classes *)

Ltac by_cases_on_char c :=
  destruct c as [[] [] [] [] [] [] [] []]; vm_compute; try reflexivity;
  try discriminate; auto; try (intros _; repeat split; reflexivity).

Lemma alnum_not_space (c : ascii) : Py.isalnum c = true -> Py.isspace c = false.
Proof. by_cases_on_char c. Qed.

Lemma strip_keeps (s : str) :
  match s with c :: _ => Py.isspace c = false | [] => True end ->
  match rev s with c :: _ => Py.isspace c = false | [] => True end ->
  Py.strip s = s.
Proof.
  intros Hl Hr; unfold Py.strip, Py.rstrip_by.
  assert (E : Py.lstrip_by Py.isspace s = s).
  { destruct s; [reflexivity|]. now apply lstrip_by_keep. }
  rewrite E. destruct (rev s) as [|z r] eqn:Er.
  - apply (f_equal (@rev ascii)) in Er; rewrite rev_involutive in Er.
    now subst.
  - rewrite lstrip_by_keep by assumption. now rewrite <- Er, rev_involutive.
Qed.

Section BatchExample.
Context `{Bitcoin} `{Lightning} `{Util} `{Config} `{Runtime}.

(** With one of the units the wallet offers, a short amount parses. *)
Lemma parse_amount_units (whole : ascii) :
  Py.isdigit whole = true ->
  (get_decimal_point <= 8)%nat ->
  exists v, parse_amount [whole; "."%char; "0"%char] = Ret v.
Proof.
  intros Hw Hdp; unfold parse_amount.
  assert (E : Py.strip [whole; "."%char; "0"%char] = [whole; "."%char; "0"%char]).
  { apply strip_keeps; simpl; [|reflexivity].
    revert Hw; by_cases_on_char whole. }
  rewrite E; cbn [Py.nonempty negb].
  destruct (is_max_spend _); [eauto|].
  destruct get_decimal_point as [|[|[|[|[|[|[|[|[|n]]]]]]]]]; try lia;
    clear Hdp E; revert Hw; by_cases_on_char whole; intros _; eexists; reflexivity.
Qed.

Lemma parse_line_of_address (addr y : str) (v : pyval) :
  forallb Py.isalnum addr = true ->
  Py.contains "," y = false ->
  parse_amount y = Ret v ->
  parse_address_and_amount (addr ++ "," ++ y) =
    Ret {| scriptpubkey := parse_output addr; value := v |}.
Proof.
  intros Ha Hy Hv; unfold parse_address_and_amount.
  change (addr ++ "," ++ y) with (addr ++ ","%char :: y).
  rewrite split_app_sep by (apply (contains_false_of Py.isalnum); auto).
  now rewrite (split_no_sep _ _ Hy), Hv.
Qed.

(** The lines of the example batch. *)
Lemma example_batch_lines (addr1 addr2 : str) :
  forallb Py.isalnum addr1 = true ->
  forallb Py.isalnum addr2 = true ->
  batch_lines (addr1 ++ ",1.0" ++ LF ++ "badline" ++ LF ++ addr2 ++ ",2.0") =
    [addr1 ++ ",1.0"; "badline"; addr2 ++ ",2.0"].
Proof.
  intros H1' H2'; unfold batch_lines.
  assert (E : addr1 ++ ",1.0" ++ LF ++ "badline" ++ LF ++ addr2 ++ ",2.0" =
              (addr1 ++ ",1.0") ++ "010"%char ::
                ("badline" ++ "010"%char :: (addr2 ++ ",2.0"))).
  { unfold LF. now rewrite <- app_assoc. }
  rewrite E, split_app_sep, split_app_sep, split_no_sep; try reflexivity.
  - cbn [filter]. destruct addr1, addr2; reflexivity.
  - rewrite contains_app, (contains_false_of Py.isalnum); auto.
  - rewrite contains_app, (contains_false_of Py.isalnum); auto.
Qed.

Lemma example_batch_stripped (addr1 addr2 : str) :
  forallb Py.isalnum addr1 = true ->
  Py.strip (addr1 ++ ",1.0" ++ LF ++ "badline" ++ LF ++ addr2 ++ ",2.0") =
    addr1 ++ ",1.0" ++ LF ++ "badline" ++ LF ++ addr2 ++ ",2.0".
Proof.
  intros H1'; apply strip_keeps.
  - destruct addr1 as [|c a]; [reflexivity|]. simpl in *.
    apply andb_true_iff in H1' as [Hc _]. now apply alnum_not_space.
  - rewrite !rev_app_distr. reflexivity.
Qed.

End BatchExample.

Section BatchClaims.
Context `{Bitcoin} `{Lightning} `{Util} `{Config} `{Runtime}.

(** C5. The batch ["addr1,1.0\nbadline\naddr2,2.0"], for valid addresses
    (which are alphanumeric) and one of the wallet's units: the identifier
    is a multiline batch with exactly two outputs, and exactly one line
    error, of index 1.  In general the loop over the lines never stops
    early: each line yields an output or an error record that carries the
    index of the line, in order. *)
Theorem batch_with_bad_line (addr1 addr2 : str) :
  is_address addr1 = true -> is_address addr2 = true ->
  forallb Py.isalnum addr1 = true -> forallb Py.isalnum addr2 = true ->
  (get_decimal_point <= 8)%nat ->
  (let text := addr1 ++ ",1.0" ++ LF ++ "badline" ++ LF ++ addr2 ++ ",2.0" in
   exists v1 v2 e,
     parse_amount "1.0" = Ret v1 /\ parse_amount "2.0" = Ret v2 /\
     idx e = 1%nat /\ line_content e = "badline" /\ is_multiline e = true /\
     init text =
       (Ret tt,
        set_multiline_outputs
          (Some [{| scriptpubkey := parse_output addr1; value := v1 |};
                 {| scriptpubkey := parse_output addr2; value := v2 |}])
          (set__type (Some "multiline")
             (set_error (Some (ErrorLines [e])) (fresh text))))) /\
  (forall (lines : list str) (i : nat) (b : batch),
   exists b',
     multiline_loop i lines b = Ret b' /\
     outputs b' = outputs b ++ successes lines /\
     errors b' = errors b ++ failures i lines /\
     (length (successes lines) + length (failures i lines) = length lines)%nat).
Proof.
  intros _ _ Ha1 Ha2 Hdp; split.
  - destruct (@parse_amount_units _ _ "1" eq_refl Hdp) as [v1 Hv1].
    destruct (@parse_amount_units _ _ "2" eq_refl Hdp) as [v2 Hv2].
    exists v1, v2.
    eexists {| idx := 1; line_content := "badline"; exc := _; is_multiline := true |}.
    repeat (split; [eassumption || reflexivity|]).
    unfold init, parse.
    rewrite (example_batch_stripped _ addr2 Ha1).
    replace (Py.nonempty _) with true by (destruct addr1; reflexivity).
    cbn [negb]. rewrite parse_as_multiline_spec.
    rewrite (example_batch_lines _ _ Ha1 Ha2).
    cbn [successes failures].
    change (addr1 ++ ",1.0") with (addr1 ++ "," ++ "1.0").
    change (addr2 ++ ",2.0") with (addr2 ++ "," ++ "2.0").
    erewrite !parse_line_of_address by (eassumption || reflexivity).
    reflexivity.
  - intros lines i b; eexists; split; [apply multiline_loop_spec|].
    cbn [outputs errors]; auto using successes_failures_length.
Qed.

(** C8. [_parse_as_multiline] computes, in its local [is_max], whether some
    line that parsed asks for the whole balance; but it hands back the list
    of outputs and nothing else.  The flag is dropped, and the line errors
    reach the object, as one text, only when the text has several lines or
    some line parsed. *)
Theorem batch_flag_is_local (text : str) (self : PaymentIdentifier) :
  exists b,
    multiline_loop 0 (batch_lines text) empty_batch = Ret b /\
    (is_max b = true <->
     exists o, In o (outputs b) /\ is_max_spend (value o) = true) /\
    outputs b = successes (batch_lines text) /\
    errors b = failures 0 (batch_lines text) /\
    _parse_as_multiline text self =
      (Ret (outputs b),
       if (1 <? length (batch_lines text))%nat ||
          match outputs b with [] => false | _ => true end
       then set_error (match errors b with
                       | [] => None
                       | es => Some (ErrorLines es)
                       end) self
       else self).
Proof.
  eexists; split; [apply multiline_loop_spec|].
  cbn [outputs errors is_max empty_batch app orb].
  split; [|split; [reflexivity|split; [reflexivity|apply parse_as_multiline_spec]]].
  unfold some_max; rewrite existsb_exists. reflexivity.
Qed.

End BatchClaims.

Section BatchWitnesses.
#[local] Existing Instances Sample.bitcoin Sample.lightning Sample.util
  Sample.config Sample.runtime.

Lemma batch_with_bad_line_witness :
  exists v1 v2 e,
    parse_amount "1.0" = Ret v1 /\ parse_amount "2.0" = Ret v2 /\
    idx e = 1%nat /\ line_content e = "badline" /\ is_multiline e = true /\
    init (Sample.ADDR1 ++ ",1.0" ++ LF ++ "badline" ++ LF ++ Sample.ADDR2 ++ ",2.0") =
      (Ret tt,
       set_multiline_outputs
         (Some [{| scriptpubkey := parse_output Sample.ADDR1; value := v1 |};
                {| scriptpubkey := parse_output Sample.ADDR2; value := v2 |}])
         (set__type (Some "multiline")
            (set_error (Some (ErrorLines [e]))
               (fresh (Sample.ADDR1 ++ ",1.0" ++ LF ++ "badline" ++ LF ++
                       Sample.ADDR2 ++ ",2.0"))))).
Proof.
  apply (@batch_with_bad_line _ _ _ _ _ Sample.ADDR1 Sample.ADDR2);
    reflexivity.
Defined.

(** C8, as the specification has it, fails: two batches whose line errors
    differ hand back the same thing, an empty list and an untouched object;
    and the batch ["x,!"], whose flag is set, hands back its one output and
    the object it was given. *)
Lemma batch_returns_outputs_only :
  let s0 := fresh "" in
  _parse_as_multiline "x" s0 = (Ret [], s0) /\
  _parse_as_multiline "y" s0 = (Ret [], s0) /\
  failures 0 (batch_lines "x") <> failures 0 (batch_lines "y") /\
  (exists b, multiline_loop 0 (batch_lines "x,!") empty_batch = Ret b /\
             is_max b = true) /\
  _parse_as_multiline "x,!" s0 =
    (Ret [{| scriptpubkey := None; value := VStr "!" |}], s0).
Proof.
  cbv zeta. repeat split; try (vm_compute; reflexivity).
  - vm_compute. discriminate.
  - eexists; split; vm_compute; reflexivity.
Qed.

End BatchWitnesses.

Section FirstWitnesses.
#[local] Existing Instances Sample.bitcoin Sample.lightning Sample.util
  Sample.config Sample.runtime.

(** A space, a tab and a line feed. *)
Lemma classify_blank_witness :
  let r := init [" "%char; "009"%char; "010"%char] in
  fst r = Ret tt /\ snd r = fresh [" "%char; "009"%char; "010"%char] /\
  _type (snd r) = None /\ is_valid (snd r) = false /\ error (snd r) = None.
Proof.
  apply (@classify_blank _ _ _ _ _ [" "%char; "009"%char; "010"%char]).
  reflexivity.
Defined.

Lemma round_2_amount_bounds_witness :
  round_2 (Some 50) Sample.pointer =
    {| result := Raise (AttributeError "_lnurl_data"); object := Sample.pointer;
       requests := []; on_success_called := false |} /\
  round_2 (Some 6000) Sample.pointer =
    {| result := Raise (AttributeError "_lnurl_data"); object := Sample.pointer;
       requests := []; on_success_called := false |} /\
  requests (round_2 (Some 100) Sample.pointer) =
    [("https://example.com/lnurlp/callback", [("amount", VInt 100000)])] /\
  requests (round_2 (Some 5000) Sample.pointer) =
    [("https://example.com/lnurlp/callback", [("amount", VInt 5000000)])].
Proof.
  split; [|split; [|split]].
  - apply (@round_2_amount_bounds _ Sample.pointer Sample.pointer_data 50 eq_refl eq_refl).
    left; reflexivity.
  - apply (@round_2_amount_bounds _ Sample.pointer Sample.pointer_data 6000 eq_refl eq_refl).
    right; reflexivity.
  - apply (@round_2_amount_bounds _ Sample.pointer Sample.pointer_data 100 eq_refl eq_refl).
    split; discriminate.
  - apply (@round_2_amount_bounds _ Sample.pointer Sample.pointer_data 5000 eq_refl eq_refl).
    split; discriminate.
Defined.

(** The sample endpoint answers every request with an invoice for 1000 sat;
    asked for 2000 sat, round 2 raises. *)
Lemma round_2_wrong_amount_witness :
  round_2 (Some 2000) Sample.pointer =
    {| result := Raise (Exception "lnurl returned invoice with wrong amount");
       object := Sample.pointer;
       requests := [("https://example.com/lnurlp/callback", [("amount", VInt 2000000)])];
       on_success_called := false |}.
Proof.
  apply (@round_2_wrong_amount _ Sample.pointer Sample.pointer_data 2000
           [("pr", Sample.INVOICE_1000)]
           {| Invoice_get_amount_sat := Some (VInt 1000) |});
    try reflexivity.
  - split; discriminate.
  - discriminate.
Defined.

End FirstWitnesses.

(** ** Dictionaries *)

Lemma str_eqb_neq (a b : str) : a <> b -> Py.str_eqb a b = false.
Proof.
  intros Hn; destruct (Py.str_eqb a b) eqn:E; [|reflexivity].
  now apply str_eqb_eq in E.
Qed.

Lemma str_eqb_sym (a b : str) : Py.str_eqb a b = Py.str_eqb b a.
Proof.
  destruct (Py.str_eqb b a) eqn:E.
  - apply str_eqb_eq in E; subst; apply str_eqb_refl.
  - apply str_eqb_neq; intros ->; now rewrite str_eqb_refl in E.
Qed.

Section DictFacts.
Variable V : Type.
Implicit Types (d : Dict.t V) (k : str) (v : V).

Lemma get_set_same d k v : Dict.get k (Dict.set k v d) = Some v.
Proof.
  induction d as [|[k' v'] d IH]; simpl.
  - now rewrite str_eqb_refl.
  - destruct (Py.str_eqb k' k) eqn:E; simpl; now rewrite E.
Qed.

Lemma get_set_other d k k' v :
  k <> k' -> Dict.get k (Dict.set k' v d) = Dict.get k d.
Proof.
  intros Hn; induction d as [|[k0 v0] d IH]; simpl.
  - now rewrite str_eqb_neq by congruence.
  - destruct (Py.str_eqb k0 k') eqn:E; simpl.
    + apply str_eqb_eq in E; subst k0.
      now rewrite (@str_eqb_neq k' k) by congruence.
    + now rewrite IH.
Qed.

Lemma get_In d k v : Dict.get k d = Some v -> In (k, v) d.
Proof.
  induction d as [|[k' v'] d IH]; simpl; [discriminate|].
  destruct (Py.str_eqb k' k) eqn:E.
  - apply str_eqb_eq in E; subst. intros [= ->]; now left.
  - auto.
Qed.

Lemma keys_set d k v :
  map fst (Dict.set k v d) =
    if Dict.mem k d then map fst d else map fst d ++ [k].
Proof.
  unfold Dict.mem; induction d as [|[k' v'] d IH]; simpl; [reflexivity|].
  destruct (Py.str_eqb k' k) eqn:E; simpl; [reflexivity|].
  rewrite IH. now destruct (Dict.get k d).
Qed.

Lemma get_None_keys d k : Dict.get k d = None -> ~ In k (map fst d).
Proof.
  induction d as [|[k' v'] d IH]; simpl; [tauto|].
  destruct (Py.str_eqb k' k) eqn:E; [discriminate|].
  intros Hg [->|Hi]; [now rewrite str_eqb_refl in E | now apply IH].
Qed.

Lemma In_get d k v : NoDup (map fst d) -> In (k, v) d -> Dict.get k d = Some v.
Proof.
  induction d as [|[k' v'] d IH]; simpl; [tauto|].
  intros Hn [[= -> ->]|Hi]; inversion_clear Hn.
  - now rewrite str_eqb_refl.
  - destruct (Py.str_eqb k' k) eqn:E; [|auto].
    apply str_eqb_eq in E; subst k'.
    exfalso; apply H. apply (in_map fst) in Hi. exact Hi.
Qed.

End DictFacts.

(** ** The fields of a query *)

(** The values of the name [k], in order. *)
Lemma occurrences_app (k : str) (p q : list (str * str)) :
  occurrences k (p ++ q) = (occurrences k p + occurrences k q)%nat.
Proof. unfold occurrences. now rewrite filter_app, length_app. Qed.

Section QueryFacts.
Variable decode : bytes -> str.

Lemma collected_step p d nv :
  collected p d -> collected (p ++ [nv]) (qs_step d nv).
Proof.
  destruct nv as [n v]; intros [Hnd Hc]; split.
  - unfold qs_step. pose proof (Hc n) as Hn.
    destruct (Dict.get n d) as [vs|] eqn:E; rewrite keys_set; unfold Dict.mem;
      rewrite E; [assumption|].
    apply NoDup_app; [assumption| |].
    + constructor; [simpl; tauto|constructor].
    + intros k Hk [<-|[]]. now apply (get_None_keys _ _ E).
  - intros k. rewrite occurrences_app.
    assert (E1 : occurrences k [(n, v)] = if Py.str_eqb n k then 1%nat else 0%nat).
    { unfold occurrences; simpl. now destruct (Py.str_eqb n k). }
    rewrite E1; clear E1.
    destruct (Py.str_eqb n k) eqn:Ek.
    + apply str_eqb_eq in Ek; subst k. pose proof (Hc n) as Hn.
      unfold qs_step. destruct (Dict.get n d) as [vs|]; rewrite get_set_same.
      * rewrite length_app; simpl. split; [lia|]. now destruct vs.
      * rewrite Hn. split; [reflexivity|discriminate].
    + assert (Hne : k <> n) by (intros ->; now rewrite str_eqb_refl in Ek).
      specialize (Hc k). rewrite Nat.add_0_r.
      unfold qs_step. destruct (Dict.get n d); now rewrite get_set_other.
Qed.

Lemma collected_fold (q p : list (str * str)) (d : Dict.t (list str)) :
  collected p d -> collected (p ++ q) (fold_left qs_step q d).
Proof.
  revert p d; induction q as [|nv q IH]; intros p d Hc; simpl.
  - now rewrite app_nil_r.
  - replace (p ++ nv :: q) with ((p ++ [nv]) ++ q) by now rewrite <- app_assoc.
    apply IH, collected_step, Hc.
Qed.

Lemma parse_qs_collected (qs : str) :
  collected (Urllib.parse_qsl decode qs) (Urllib.parse_qs decode qs).
Proof.
  unfold Urllib.parse_qs.
  change (fun parsed_result '(name, value) => _) with qs_step.
  apply (@collected_fold _ [] []). split; [constructor|]. intros k; reflexivity.
Qed.

End QueryFacts.

(** The check names the first name with several values, if there is one. *)
Lemma check_duplicate_keys_raises (pq : Dict.t (list str)) :
  (exists k v, In (k, v) pq /\ length v <> 1%nat) ->
  exists k v, In (k, v) pq /\ length v <> 1%nat /\
    check_duplicate_keys pq = Raise (InvalidBitcoinURI (DuplicateKey k)).
Proof.
  induction pq as [|[k0 v0] pq IH]; intros (k & v & Hi & Hl); [destruct Hi|].
  simpl. destruct (length v0 =? 1)%nat eqn:E.
  - apply Nat.eqb_eq in E.
    destruct Hi as [[= -> ->]|Hi]; [contradiction|].
    destruct IH as (k' & v' & Hi' & Hl' & Hc); [eauto|].
    exists k', v'; auto.
  - apply Nat.eqb_neq in E. exists k0, v0; simpl; auto.
Qed.

Lemma check_duplicate_keys_returns (pq : Dict.t (list str)) :
  (forall k v, In (k, v) pq -> length v = 1%nat) ->
  check_duplicate_keys pq = Ret tt.
Proof.
  induction pq as [|[k0 v0] pq IH]; intros Hall; [reflexivity|].
  simpl. rewrite (Hall k0 v0) by now left. simpl. apply IH.
  intros k v Hi; apply (Hall k v); now right.
Qed.

(** ** What [urlparse] gives for a [bitcoin:] URI *)

Lemma partition_Some_contains (sep : ascii) (s a b : str) :
  Py.partition sep s = Some (a, b) ->
  Py.contains sep s = true /\ Py.contains sep a = false.
Proof.
  revert a b; induction s as [|c s IH]; simpl; [discriminate|]; intros a b.
  rewrite (chr_eqb_sym sep c).
  destruct (Py.chr_eqb c sep) eqn:E.
  - intros [= <- <-]; auto.
  - destruct (Py.partition sep s) as [[a' b']|]; [|discriminate].
    intros [= <- <-]. destruct (IH _ _ eq_refl) as [-> Ha]. simpl.
    now rewrite (chr_eqb_sym sep c), E, Ha.
Qed.

Lemma partition_None_contains (sep : ascii) (s : str) :
  Py.partition sep s = None -> Py.contains sep s = false.
Proof.
  induction s as [|c s IH]; simpl; [reflexivity|].
  rewrite (chr_eqb_sym sep c).
  destruct (Py.chr_eqb c sep); [discriminate|].
  destruct (Py.partition sep s) as [[a b]|]; [discriminate|]. auto.
Qed.

Lemma contains_filter (c : ascii) (f : ascii -> bool) (s : str) :
  Py.contains c (filter f s) = true -> Py.contains c s = true.
Proof.
  induction s as [|x s IH]; simpl; [auto|].
  destruct (f x); simpl; rewrite !orb_true_iff; tauto.
Qed.

Lemma contains_lstrip (c : ascii) (p : ascii -> bool) (s : str) :
  Py.contains c (Py.lstrip_by p s) = true -> Py.contains c s = true.
Proof.
  induction s as [|x s IH]; simpl; [auto|].
  destruct (p x); simpl; rewrite ?orb_true_iff; tauto.
Qed.

Lemma uses_params_not_bitcoin (s : str) :
  Urllib.str_in s Urllib.uses_params = true ->
  Py.str_eqb (Py.lower s) "bitcoin" = false.
Proof.
  unfold Urllib.str_in, Urllib.uses_params; simpl.
  rewrite !orb_true_iff, !str_eqb_eq.
  intuition (subst; try reflexivity; try discriminate).
Qed.

Lemma urlparse_bitcoin (host_ok : str -> bool) (uri : str)
    (u : Urllib.ParseResult) :
  Urllib.urlparse host_ok uri = Ret u ->
  Py.str_eqb (Py.lower (Urllib.scheme u)) "bitcoin" = true ->
  Py.contains ":" uri = true /\ Py.contains "?" (Urllib.path u) = false.
Proof.
  unfold Urllib.urlparse.
  set (url := filter _ (Py.lstrip_by _ uri)).
  destruct (Urllib.split_scheme url) as [[s rest]|] eqn:Es.
  - assert (Hcolon : Py.contains ":" uri = true).
    { unfold Urllib.split_scheme in Es. destruct url as [|c r] eqn:Eu; [discriminate|].
      destruct (Py.partition ":" (c :: r)) as [[a b]|] eqn:Ep; [|discriminate].
      apply partition_Some_contains in Ep as [Hc _].
      rewrite <- Eu in Hc. subst url.
      eapply contains_lstrip, contains_filter, Hc. }
    set (nl := if Py.startswith rest "//" then _ else _).
    destruct nl as [[netloc url1]|e]; [|discriminate]. cbn [bind].
    destruct (Py.partition "#" url1) as [[u0 f0]|];
      (destruct (Py.partition "?" _) as [[u1 q1]|] eqn:Eq;
       [apply partition_Some_contains in Eq as [_ Hq]
       |apply partition_None_contains in Eq as Hq]);
      (destruct (Urllib.str_in s Urllib.uses_params) eqn:Ep; cbn [andb];
       [ destruct (Py.contains ";" _);
         [destruct (Py.partition ";" _) as [[? ?]|]|];
         intros [= <-]; cbn [Urllib.scheme]; intros Hs;
         rewrite (uses_params_not_bitcoin _ Ep) in Hs; discriminate
       | intros [= <-]; cbn [Urllib.path]; auto ]).
  - set (nl := if Py.startswith url "//" then _ else _).
    destruct nl as [[netloc url1]|e]; [|discriminate]. cbn [bind].
    destruct (Py.partition "#" url1) as [[? ?]|];
      destruct (Py.partition "?" _) as [[? ?]|];
      cbn [Urllib.str_in Urllib.uses_params existsb Py.str_eqb orb];
      destruct (Py.contains ";" _);
      try destruct (Py.partition ";" _) as [[? ?]|];
      intros [= <-]; cbn; discriminate.
Qed.

Section DuplicateKeys.
Context `{Bitcoin} `{Lightning} `{Util} `{Runtime}.

(** C6, as the code has it. When [urlparse] accepts the URI, with the scheme
    [bitcoin], and some name occurs twice among the decoded fields of the
    query, that is among the fields [name=value] whose value is not blank,
    then decoding fails with the duplicate-key error, for a name that
    occurs twice.  A field with a blank value is no field: see
    [blank_duplicate_is_kept]. *)
Theorem duplicate_key_rejected (uri : str) (u : Urllib.ParseResult) (k : str) :
  Urllib.urlparse bracketed_host_ok uri = Ret u ->
  Py.str_eqb (Py.lower (Urllib.scheme u)) "bitcoin" = true ->
  (2 <= occurrences k (Urllib.parse_qsl utf8_decode (Urllib.query u)))%nat ->
  exists k',
    (2 <= occurrences k' (Urllib.parse_qsl utf8_decode (Urllib.query u)))%nat /\
    parse_bip21_URI uri = Raise (InvalidBitcoinURI (DuplicateKey k')).
Proof.
  intros Hu Hs Hk.
  destruct (urlparse_bitcoin _ _ Hu Hs) as [Hcolon Hq].
  destruct (parse_qs_collected utf8_decode (Urllib.query u)) as [Hnd Hc].
  assert (Hdup : exists k0 v0, In (k0, v0) (Urllib.parse_qs utf8_decode (Urllib.query u))
                               /\ length v0 <> 1%nat).
  { pose proof (Hc k) as Hck.
    destruct (Dict.get k _) as [vs|] eqn:E; [|lia].
    exists k, vs; split; [now apply get_In|lia]. }
  destruct (check_duplicate_keys_raises _ Hdup) as (k' & v' & Hi & Hl & Hcheck).
  exists k'; split.
  - pose proof (Hc k') as Hck. rewrite (In_get _ _ _ Hnd Hi) in Hck.
    destruct Hck as [Hlen Hne]. destruct v' as [|? [|? ?]]; simpl in *;
      try congruence; lia.
  - unfold parse_bip21_URI, decode_fields.
    rewrite Hcolon; cbn [negb]. rewrite Hu; cbn [bind].
    unfold BITCOIN_BIP21_URI_SCHEME; rewrite Hs; cbn [negb].
    rewrite (partition_no_sep _ _ Hq); cbn [bind].
    rewrite Hcheck; reflexivity.
Qed.

End DuplicateKeys.

Section DuplicateKeyExamples.
#[local] Existing Instances Sample.bitcoin Sample.lightning Sample.util
  Sample.config Sample.runtime.

Lemma duplicate_key_rejected_witness :
  exists k',
    (2 <= occurrences k' (Urllib.parse_qsl utf8_decode "a=1&a=2"))%nat /\
    parse_bip21_URI "bitcoin:?a=1&a=2" = Raise (InvalidBitcoinURI (DuplicateKey k')).
Proof.
  apply duplicate_key_rejected
    with (u := {| Urllib.scheme := "bitcoin"; Urllib.netloc := "";
                  Urllib.path := ""; Urllib.params := "";
                  Urllib.query := "a=1&a=2"; Urllib.fragment := "" |})
         (k := "a");
    [reflexivity | reflexivity | vm_compute; lia].
Defined.

(** C6, as the specification has it, fails: a key repeated with a blank
    value is dropped by [parse_qs] before the check, and the other value
    wins silently. *)
Lemma blank_duplicate_is_kept :
  parse_bip21_URI "bitcoin:?x=1&x=" = Ret [("x", VStr "1")] /\
  parse_bip21_URI ("bitcoin:" ++ Sample.ADDR1 ++ "?amount=1&amount=") =
    Ret [("amount", VInt 100000000); ("address", VStr Sample.ADDR1)].
Proof. split; vm_compute; reflexivity. Qed.

End DuplicateKeyExamples.

(** ** The embedded invoice against the plain fields *)

Section LightningField.
Context `{Bitcoin} `{Lightning} `{Util} `{Runtime}.

(** The address check, which comes last. *)
Lemma address_check (out : Dict.t pyval) (lnaddr : LnAddr) :
  match Dict.get "address" out, get_fallback_address lnaddr with
  | Some a, Some ln_fallback_addr =>
      if truthy a && Py.nonempty ln_fallback_addr then
        if negb (match a with
                 | VStr s => Py.str_eqb ln_fallback_addr s
                 | VInt _ => false
                 end)
        then Raise (InvalidBitcoinURI InconsistentAddress) else Ret tt
      else Ret tt
  | _, _ => Ret tt
  end =
  if address_conflict out lnaddr
  then Raise (InvalidBitcoinURI InconsistentAddress) else Ret tt.
Proof.
  unfold address_conflict.
  destruct (Dict.get "address" out) as [a|]; [|reflexivity].
  destruct (get_fallback_address lnaddr) as [f|]; [|reflexivity].
  destruct (truthy a && Py.nonempty f); [|reflexivity].
  now destruct (negb _).
Qed.

(** C2, as the code has it. The fields of the URI decode, to a plain
    amount [a] that is not zero and to an invoice whose amount, cut to
    whole minor units by [int()], is [n].  If [a] and [n] differ by more
    than 1, decoding fails with the inconsistent-amount error; if they
    differ by at most 1 the amounts pass, and decoding succeeds unless the
    plain address and the fallback address of the invoice conflict. *)
Theorem lightning_amount_tolerance (uri : str) (out : Dict.t pyval) (l : str)
    (lnaddr : LnAddr) (a : Z) (d : Decimal.t) (n : Z) :
  decode_fields uri = Ret out ->
  Dict.get "lightning" out = Some (VStr l) ->
  lndecode l = Ret lnaddr ->
  Dict.get "amount" out = Some (VInt a) ->
  a <> 0 ->
  get_amount_sat lnaddr = Some d ->
  Decimal.to_int d = Ret n ->
  (1 < Z.abs (a - n) ->
   parse_bip21_URI uri = Raise (InvalidBitcoinURI InconsistentAmount)) /\
  (Z.abs (a - n) <= 1 ->
   parse_bip21_URI uri =
     if address_conflict out lnaddr
     then Raise (InvalidBitcoinURI InconsistentAddress) else Ret out).
Proof.
  intros Hf Hl Hd Ha Hnz Hs Hn.
  assert (Ht : truthy_opt (Some (VInt a)) = true).
  { simpl. now apply negb_true_iff, Z.eqb_neq. }
  unfold parse_bip21_URI; rewrite Hf; cbn [bind]; rewrite Hl.
  unfold check_lightning; rewrite Hd; cbn [bind].
  rewrite Ha, Ht, Hs, Hn; cbn [bind].
  split; intros Hdiff.
  - now rewrite (proj2 (Z.ltb_lt 1 _) Hdiff).
  - rewrite (proj2 (Z.ltb_ge 1 _) Hdiff), address_check.
    now destruct (address_conflict out lnaddr).
Qed.

(** C10, as the code has it. The fields of the URI decode, with no plain
    amount or the plain amount 0, and the invoice decodes: whatever the
    amount of the invoice, or even without one, the amounts are not
    compared, and decoding succeeds unless the plain address and the
    fallback address of the invoice conflict. *)
Theorem zero_amount_skips_check (uri : str) (out : Dict.t pyval) (l : str)
    (lnaddr : LnAddr) :
  decode_fields uri = Ret out ->
  Dict.get "lightning" out = Some (VStr l) ->
  lndecode l = Ret lnaddr ->
  truthy_opt (Dict.get "amount" out) = false ->
  parse_bip21_URI uri =
    if address_conflict out lnaddr
    then Raise (InvalidBitcoinURI InconsistentAddress) else Ret out.
Proof.
  intros Hf Hl Hd Ha.
  unfold parse_bip21_URI; rewrite Hf; cbn [bind]; rewrite Hl.
  unfold check_lightning; rewrite Hd; cbn [bind].
  rewrite Ha; cbn [bind].
  rewrite address_check. now destruct (address_conflict out lnaddr).
Qed.

End LightningField.

Section LightningFieldExamples.
#[local] Existing Instances Sample.bitcoin Sample.lightning Sample.util
  Sample.config Sample.runtime.

(** A plain amount of 1000 against invoices for 1000 and for 5000. *)
Lemma lightning_amount_tolerance_witness :
  parse_bip21_URI ("bitcoin:?amount=0.00001&lightning=" ++ Sample.INVOICE_1000) =
    Ret [("amount", VInt 1000); ("lightning", VStr Sample.INVOICE_1000)] /\
  parse_bip21_URI ("bitcoin:?amount=0.00001&lightning=" ++ Sample.INVOICE_5000_FALLBACK) =
    Raise (InvalidBitcoinURI InconsistentAmount).
Proof.
  split.
  - refine (proj2 (lightning_amount_tolerance
             ("bitcoin:?amount=0.00001&lightning=" ++ Sample.INVOICE_1000)
             (out := [("amount", VInt 1000); ("lightning", VStr Sample.INVOICE_1000)])
             (l := Sample.INVOICE_1000) (a := 1000)
             (d := Decimal.Finite 1000 0) (n := 1000)
             eq_refl eq_refl eq_refl eq_refl _ eq_refl eq_refl) _);
      [discriminate | vm_compute; discriminate].
  - refine (proj1 (lightning_amount_tolerance
             ("bitcoin:?amount=0.00001&lightning=" ++ Sample.INVOICE_5000_FALLBACK)
             (out := [("amount", VInt 1000);
                      ("lightning", VStr Sample.INVOICE_5000_FALLBACK)])
             (l := Sample.INVOICE_5000_FALLBACK) (a := 1000)
             (d := Decimal.Finite 5000 0) (n := 5000)
             eq_refl eq_refl eq_refl eq_refl _ eq_refl eq_refl) _);
      [discriminate | reflexivity].
Defined.

(** C2, as the specification has it, fails twice.  An invoice for
    1001.999 minor units against a plain amount of 1000: the amounts differ
    by more than 1, and decoding succeeds, because [int()] cuts the invoice
    amount to 1001 first.  And an invoice for exactly the plain amount,
    5000, with another fallback address: decoding fails. *)
Lemma tolerance_is_after_truncation :
  lndecode Sample.INVOICE_1001_999 =
    Ret {| get_amount_sat := Some (Decimal.Finite 1001999 (-3));
           get_fallback_address := None |} /\
  parse_bip21_URI ("bitcoin:" ++ Sample.ADDR1 ++ "?amount=0.00001&lightning=" ++
                   Sample.INVOICE_1001_999) =
    Ret [("amount", VInt 1000); ("lightning", VStr Sample.INVOICE_1001_999);
         ("address", VStr Sample.ADDR1)] /\
  parse_bip21_URI ("bitcoin:" ++ Sample.ADDR1 ++ "?amount=0.00005&lightning=" ++
                   Sample.INVOICE_5000_FALLBACK) =
    Raise (InvalidBitcoinURI InconsistentAddress).
Proof. repeat split; vm_compute; reflexivity. Qed.

Lemma zero_amount_skips_check_witness :
  parse_bip21_URI ("bitcoin:?amount=0&lightning=" ++ Sample.INVOICE_5000_FALLBACK) =
    Ret [("amount", VInt 0); ("lightning", VStr Sample.INVOICE_5000_FALLBACK)].
Proof.
  refine (zero_amount_skips_check
            ("bitcoin:?amount=0&lightning=" ++ Sample.INVOICE_5000_FALLBACK)
            (out := [("amount", VInt 0);
                     ("lightning", VStr Sample.INVOICE_5000_FALLBACK)])
            (l := Sample.INVOICE_5000_FALLBACK) eq_refl eq_refl eq_refl eq_refl).
Defined.

(** C10, as the specification has it, fails: a plain amount of 0 and an
    invoice for 5000, whose fallback address is not the plain address. *)
Lemma zero_amount_address_conflict :
  parse_bip21_URI ("bitcoin:" ++ Sample.ADDR1 ++ "?amount=0&lightning=" ++
                   Sample.INVOICE_5000_FALLBACK) =
    Raise (InvalidBitcoinURI InconsistentAddress).
Proof. vm_compute; reflexivity. Qed.

End LightningFieldExamples.

(** ** Decimal numerals *)

Lemma filter_all (f : ascii -> bool) (s : str) :
  forallb f s = true -> filter f s = s.
Proof.
  induction s as [|c s IH]; simpl; [reflexivity|].
  rewrite andb_true_iff; intros [-> Hs]. now rewrite IH.
Qed.

Lemma forallb_impl (p q : ascii -> bool) (s : str) :
  (forall c, p c = true -> q c = true) ->
  forallb p s = true -> forallb q s = true.
Proof.
  intros Hpq; induction s as [|c s IH]; simpl; [reflexivity|].
  rewrite !andb_true_iff; intros [Hc Hs]; auto.
Qed.

Lemma forallb_rev (p : ascii -> bool) (s : str) :
  forallb p s = true -> forallb p (rev s) = true.
Proof.
  rewrite !forallb_forall. intros Hs c Hc. apply Hs. now apply in_rev.
Qed.

Lemma strip_no_space (s : str) :
  forallb (fun c => negb (Py.isspace c)) s = true -> Py.strip s = s.
Proof.
  intros Hs; apply strip_keeps.
  - destruct s as [|c s]; [exact I|]. simpl in Hs.
    apply andb_true_iff in Hs as [Hc _]. now apply negb_true_iff.
  - apply forallb_rev in Hs. destruct (rev s) as [|c r]; [exact I|].
    simpl in Hs. apply andb_true_iff in Hs as [Hc _]. now apply negb_true_iff.
Qed.

Lemma lower_all (p : ascii -> bool) (s : str) :
  (forall c, p c = true -> Py.lower_char c = c) ->
  forallb p s = true -> Py.lower s = s.
Proof.
  intros Hp; induction s as [|c s IH]; simpl; [reflexivity|].
  rewrite andb_true_iff; intros [Hc Hs]. now rewrite (Hp c Hc), IH.
Qed.

Lemma span_all (p : ascii -> bool) (s : str) :
  forallb p s = true -> Re.span p s = (s, []).
Proof.
  induction s as [|c s IH]; simpl; [reflexivity|].
  rewrite andb_true_iff; intros [-> Hs]. now rewrite IH.
Qed.

Lemma amount_char_facts (c : ascii) :
  Re.amount_char c = true ->
  Py.isspace c = false /\ Py.chr_eqb c "_" = false /\ Py.lower_char c = c.
Proof. by_cases_on_char c. Qed.

Lemma digit_is_amount_char (c : ascii) :
  Py.isdigit c = true -> Re.amount_char c = true.
Proof. unfold Re.amount_char. now intros ->. Qed.

(** A text that starts with a digit carries no sign and names no special
    value. *)
Lemma digit_head (c : ascii) (s : str) :
  Py.isdigit c = true ->
  Decimal.take_sign (c :: s) = (false, c :: s) /\
  Py.str_eqb (c :: s) "inf" = false /\
  Py.str_eqb (c :: s) "infinity" = false /\
  Py.startswith (c :: s) "nan" = false /\
  Py.startswith (c :: s) "snan" = false.
Proof.
  destruct c as [[] [] [] [] [] [] [] []]; intros Hc;
    try discriminate Hc; repeat split; reflexivity.
Qed.

Lemma take_digits_app (w t : str) :
  forallb Py.isdigit w = true ->
  match t with c :: _ => Py.isdigit c = false | [] => True end ->
  Decimal.take_digits (w ++ t) = (w, t).
Proof.
  intros Hw Ht; induction w as [|c w IH]; simpl in *.
  - destruct t as [|c t]; [reflexivity|]. simpl. now rewrite Ht.
  - apply andb_true_iff in Hw as [-> Hw]. now rewrite IH.
Qed.

Lemma ndigits_aux_bound (fuel : nat) (x k : Z) :
  0 <= x < 10 ^ k -> 1 <= k -> 1 <= Decimal.ndigits_aux fuel x <= k.
Proof.
  revert x k; induction fuel as [|f IH]; intros x k Hx Hk;
    cbn [Decimal.ndigits_aux]; [lia|].
  destruct (Z.ltb_spec x 10) as [Hlt|Hge]; [lia|].
  assert (Hk2 : 2 <= k).
  { destruct (Z.eq_dec k 1) as [->|]; [|lia]. change (10 ^ 1) with 10 in Hx. lia. }
  assert (Hdiv : 0 <= x / 10 < 10 ^ (k - 1)).
  { split; [apply Z.div_pos; lia|].
    apply Z.div_lt_upper_bound; [lia|].
    replace (10 * 10 ^ (k - 1)) with (10 ^ k); [lia|].
    replace k with (Z.succ (k - 1)) at 1 by lia. rewrite Z.pow_succ_r; lia. }
  destruct (IH (x / 10) (k - 1) Hdiv) as [Hlo Hhi]; [clear - Hk2; lia|].
  clear - Hlo Hhi. lia.
Qed.

Lemma ndigits_bound (x k : Z) :
  0 <= x < 10 ^ k -> 1 <= k -> 1 <= Decimal.ndigits x <= k.
Proof.
  intros Hx Hk; unfold Decimal.ndigits.
  rewrite Z.abs_eq by lia. now apply ndigits_aux_bound.
Qed.

Lemma digits_value_nonneg (ds : str) (acc : Z) :
  forallb Py.isdigit ds = true -> 0 <= acc ->
  0 <= fold_left (fun a c => 10 * a + Decimal.digit_value c) ds acc.
Proof.
  revert acc; induction ds as [|c ds IH]; intros acc Hd Ha;
    cbn [fold_left forallb] in *; [assumption|].
  apply andb_true_iff in Hd as [Hc Hd]. apply IH; [assumption|].
  assert (0 <= Decimal.digit_value c).
  { unfold Decimal.digit_value, Py.isdigit, Py.between in *.
    apply andb_true_iff in Hc as [Hlo _]. apply Z.leb_le in Hlo. lia. }
  lia.
Qed.

(** The numeral [whole.fraction], read by [Decimal]. *)
Lemma of_str_numeral (whole fraction : str) :
  whole <> [] ->
  forallb Py.isdigit whole = true -> forallb Py.isdigit fraction = true ->
  0 <= Decimal.digits_value (whole ++ fraction) < 10 ^ 28 ->
  (length fraction <= 8)%nat ->
  Decimal.of_str (whole ++ match fraction with [] => [] | _ => "." ++ fraction end) =
    Ret (Decimal.Finite (Decimal.digits_value (whole ++ fraction))
                        (- Z.of_nat (length fraction))).
Proof.
  intros Hne Hw Hf Hc Hlen.
  set (tail := match fraction with [] => [] | _ => "." ++ fraction end).
  assert (Htail : forallb Re.amount_char tail = true).
  { subst tail; destruct fraction; [reflexivity|].
    change (forallb Re.amount_char ("."%char :: a :: fraction) = true).
    simpl forallb at 1. apply (forallb_impl _ _ _ digit_is_amount_char) in Hf.
    exact Hf. }
  assert (Hall : forallb Re.amount_char (whole ++ tail) = true).
  { rewrite forallb_app, Htail, andb_true_r.
    now apply (forallb_impl _ _ _ digit_is_amount_char). }
  unfold Decimal.of_str.
  rewrite strip_no_space
    by (eapply forallb_impl; [|exact Hall]; intros c Hc';
        now rewrite (proj1 (amount_char_facts _ Hc'))).
  unfold Py.remove. rewrite filter_all
    by (eapply forallb_impl; [|exact Hall]; intros c Hc';
        now rewrite (proj1 (proj2 (amount_char_facts _ Hc')))).
  destruct whole as [|w0 whole']; [congruence|].
  pose proof Hw as Hw'. simpl in Hw'. apply andb_true_iff in Hw' as [Hw0 _].
  change ((w0 :: whole') ++ tail) with (w0 :: (whole' ++ tail)) in *.
  destruct (@digit_head w0 (whole' ++ tail) Hw0) as (-> & E1 & E2 & E3 & E4).
  rewrite (lower_all Re.amount_char)
    by (try exact Hall; intros c Hc'; apply (amount_char_facts _ Hc')).
  rewrite E1, E2, E3, E4; cbn [orb].
  unfold Decimal.finite_of_str.
  change (w0 :: whole' ++ tail) with ((w0 :: whole') ++ tail).
  rewrite take_digits_app; [|assumption|subst tail; destruct fraction; [exact I|reflexivity]].
  assert (Et : Decimal.take_digits fraction = (fraction, [])).
  { rewrite <- (app_nil_r fraction) at 1. now apply take_digits_app. }
  assert (Hrep : Decimal.representable
                   (Decimal.digits_value ((w0 :: whole') ++ fraction))
                   (0 - Z.of_nat (length fraction)) = true).
  { unfold Decimal.representable.
    set (c := Decimal.digits_value _) in *.
    replace (Decimal.MAX_ETINY <=? _) with true
      by (symmetry; apply Z.leb_le; unfold Decimal.MAX_ETINY; lia).
    pose proof (@ndigits_bound c 28 Hc ltac:(lia)).
    destruct (c =? 0); apply Z.leb_le; unfold Decimal.MAX_EMAX; lia. }
  subst tail; destruct fraction as [|f0 fr].
  - cbn [Decimal.exponent_part app]. rewrite app_nil_r in *.
    cbn [length Z.of_nat] in *. unfold Decimal.signed at 1.
    now rewrite Hrep.
  - change ("." ++ f0 :: fr) with ("."%char :: (f0 :: fr)).
    cbv iota. rewrite Et. cbn [Decimal.exponent_part].
    change ((w0 :: whole') ++ f0 :: fr) with (w0 :: (whole' ++ f0 :: fr)) in *.
    cbv iota. unfold Decimal.signed at 1. rewrite Hrep.
    now rewrite Z.sub_0_l.
Qed.

Lemma match_amount_X_none (s : str) :
  forallb Re.amount_char s = true -> Re.match_amount_X s = None.
Proof.
  intros Hs; unfold Re.match_amount_X. rewrite (span_all _ _ Hs).
  now destruct s.
Qed.

(** A product of at most 28 digits and a small exponent is exact. *)
Lemma finalize_exact (c e : Z) :
  0 <= c < 10 ^ 28 -> -8 <= e <= 0 ->
  Decimal.finalize c e = Ret (Decimal.Finite c e).
Proof.
  intros Hc He; unfold Decimal.finalize.
  destruct (Z.eqb_spec c 0) as [->|Hnz].
  - unfold Decimal.Etiny, Decimal.Emin, Decimal.Emax, Decimal.prec.
    do 2 f_equal. lia.
  - pose proof (@ndigits_bound c 28 Hc ltac:(lia)) as Hd.
    unfold Decimal.Emin, Decimal.Emax, Decimal.prec.
    replace (999999 <? _) with false by (symmetry; apply Z.ltb_ge; lia).
    replace (_ <? -999999) with false by (symmetry; apply Z.ltb_ge; lia).
    now replace (28 <? _) with false by (symmetry; apply Z.ltb_ge; lia).
Qed.

Section AmountField.
Context `{Bitcoin}.

(** The [amount] field reads a plain numeral of [n / 10^8] back as [n], up
    to the supply limit. *)
Lemma decode_amount_renders (s : str) (n : Z) :
  COIN = 100000000 ->
  TOTAL_COIN_SUPPLY_LIMIT_IN_BTC * COIN < 10 ^ 20 ->
  renders s n ->
  0 <= n <= TOTAL_COIN_SUPPLY_LIMIT_IN_BTC * COIN ->
  decode_amount s = Ret n.
Proof.
  intros Hcoin Hlim (whole & fraction & -> & Hne & Hw & Hf & Hlen & Hval) Hn.
  set (c := Decimal.digits_value (whole ++ fraction)) in *.
  set (k := Z.of_nat (length fraction)) in *.
  assert (Hk : 0 <= k <= 8) by (subst k; lia).
  assert (Hc0 : 0 <= c).
  { apply digits_value_nonneg; [|lia].
    rewrite forallb_app, Hw, Hf; reflexivity. }
  assert (Hp : 0 < 10 ^ (8 - k)) by (apply Z.pow_pos_nonneg; lia).
  assert (Hpk : 0 < 10 ^ k) by (apply Z.pow_pos_nonneg; lia).
  assert (Hcn : c <= n) by nia.
  assert (Hmul : c * 100000000 = n * 10 ^ k).
  { rewrite <- Hval, <- Z.mul_assoc, <- Z.pow_add_r by lia.
    now replace (8 - k + k) with 8 by lia. }
  assert (Hc28 : 0 <= c * 100000000 < 10 ^ 28).
  { split; [lia|]. change (10 ^ 28) with (10 ^ 20 * 100000000). nia. }
  unfold decode_amount.
  rewrite match_amount_X_none.
  2:{ rewrite forallb_app. apply andb_true_iff; split.
      - now apply (forallb_impl _ _ _ digit_is_amount_char).
      - destruct fraction; [reflexivity|].
        apply (forallb_impl _ _ _ digit_is_amount_char) in Hf. exact Hf. }
  rewrite of_str_numeral; try assumption;
    [|fold c; split; [lia|]; change (10 ^ 28) with (10 ^ 20 * 100000000); nia].
  fold c k. cbn [bind]. unfold Decimal.mul, Decimal.of_int.
  rewrite Hcoin, Z.add_0_r, finalize_exact by lia. cbn [bind].
  unfold Decimal.gt_int, Decimal.to_int.
  destruct (Z.leb_spec 0 (- k)) as [Hz|Hz].
  - assert (k = 0) by lia. replace (- k) with 0 by lia.
    change (10 ^ 0) with 1. rewrite !Z.mul_1_r. cbn [bind].
    assert (c * 100000000 = n).
    { rewrite Hmul. replace k with 0 by lia. change (10 ^ 0) with 1. lia. }
    replace (_ <? _) with false by (symmetry; apply Z.ltb_ge; lia).
    congruence.
  - rewrite Z.opp_involutive. cbn [bind].
    replace (_ <? _) with false by (symmetry; apply Z.ltb_ge; nia).
    rewrite Hmul, Z.quot_mul by lia. reflexivity.
Qed.

End AmountField.

(** ** Quoting and unquoting *)

Lemma quote_cons (c : ascii) (s : str) :
  Urllib.quote (c :: s) = quote_char c ++ Urllib.quote s.
Proof. reflexivity. Qed.

Lemma quote_char_quoted (c : ascii) : forallb quoted_char (quote_char c) = true.
Proof. by_cases_on_char c. Qed.

Lemma quote_char_decoded (c : ascii) (rest : str) :
  Urllib.unquote_to_bytes (quote_char c ++ rest) =
    c :: Urllib.unquote_to_bytes rest.
Proof. destruct c as [[] [] [] [] [] [] [] []]; reflexivity. Qed.

Lemma quote_char_percent (c : ascii) :
  Py.contains "%" (quote_char c) = false -> quote_char c = [c].
Proof. by_cases_on_char c. Qed.

Lemma quoted_char_facts (c : ascii) :
  quoted_char c = true ->
  Py.isascii c = true /\ Py.chr_eqb c "+" = false /\
  negb (Urllib.unsafe_url_byte c) = true /\
  Py.chr_eqb "#" c = false /\ Py.chr_eqb "?" c = false /\
  Py.chr_eqb "&" c = false /\ Py.chr_eqb "=" c = false.
Proof. by_cases_on_char c. Qed.

Lemma quote_quoted (s : str) : forallb quoted_char (Urllib.quote s) = true.
Proof.
  induction s as [|c s IH]; [reflexivity|].
  now rewrite quote_cons, forallb_app, quote_char_quoted, IH.
Qed.

Lemma unquote_to_bytes_quote (s : str) :
  Urllib.unquote_to_bytes (Urllib.quote s) = s.
Proof.
  induction s as [|c s IH]; [reflexivity|].
  now rewrite quote_cons, quote_char_decoded, IH.
Qed.

Lemma quote_without_percent (s : str) :
  Py.contains "%" (Urllib.quote s) = false -> Urllib.quote s = s.
Proof.
  induction s as [|c s IH]; [reflexivity|].
  rewrite quote_cons, contains_app, orb_false_iff; intros [Hc Hs].
  now rewrite (quote_char_percent _ Hc), IH.
Qed.

Lemma replace_absent (a b : ascii) (s : str) :
  forallb (fun c => negb (Py.chr_eqb c a)) s = true -> Py.replace a b s = s.
Proof.
  unfold Py.replace; induction s as [|c s IH]; simpl; [reflexivity|].
  rewrite andb_true_iff, negb_true_iff; intros [-> Hs]. now rewrite IH.
Qed.

Lemma unquote_runs_ascii (decode : bytes -> str) (s run : str) :
  forallb Py.isascii s = true ->
  Urllib.unquote_runs decode run s =
    match rev s ++ run with
    | [] => []
    | r => decode (Urllib.unquote_to_bytes (rev r))
    end.
Proof.
  revert run; induction s as [|c s IH]; intros run Hs.
  - now destruct run.
  - cbn [forallb] in Hs. apply andb_true_iff in Hs as [Hc Hs].
    cbn [Urllib.unquote_runs]. rewrite Hc, (IH _ Hs).
    cbn [rev]. now rewrite <- app_assoc.
Qed.

Section Unquote.
Context `{Runtime}.

(** [unquote] undoes [quote] on ASCII text. *)
Lemma unquote_quote (s : str) :
  forallb Py.isascii s = true ->
  Urllib.unquote utf8_decode (Py.replace "+" " " (Urllib.quote s)) = s.
Proof.
  intros Hs.
  rewrite replace_absent.
  2:{ eapply forallb_impl; [|apply quote_quoted].
      intros c Hc. now rewrite (proj1 (proj2 (quoted_char_facts _ Hc))). }
  unfold Urllib.unquote.
  destruct (Py.contains "%" (Urllib.quote s)) eqn:E.
  - rewrite unquote_runs_ascii.
    2:{ eapply forallb_impl; [|apply quote_quoted].
        intros c Hc. apply (quoted_char_facts _ Hc). }
    rewrite app_nil_r.
    destruct (rev (Urllib.quote s)) as [|z r] eqn:Er.
    + apply (f_equal (@rev ascii)) in Er. rewrite rev_involutive in Er.
      rewrite Er in E. discriminate.
    + rewrite <- Er, rev_involutive, unquote_to_bytes_quote.
      now apply utf8_decode_ascii.
  - now apply quote_without_percent.
Qed.

End Unquote.

(** ** A URI built by [create_bip21_uri], parsed *)

Lemma alnum_facts (c : ascii) :
  Py.isalnum c = true ->
  quoted_char c = true /\ Py.chr_eqb "/" c = false.
Proof. by_cases_on_char c. Qed.

Lemma amount_char_quoted (c : ascii) :
  Re.amount_char c = true -> quoted_char c = true.
Proof. by_cases_on_char c. Qed.

Lemma printable_ascii (c : ascii) : printable c = true -> Py.isascii c = true.
Proof. by_cases_on_char c. Qed.

(** The characters of a query: those [quote] writes, [=] and [&]. *)
Lemma query_char_facts (c : ascii) :
  quoted_char c || Py.contains c "=&" = true ->
  negb (Urllib.unsafe_url_byte c) = true /\ Py.chr_eqb "#" c = false.
Proof. by_cases_on_char c. Qed.

Lemma contains_false_iff (c : ascii) (s : str) :
  Py.contains c s = false <-> forallb (fun x => negb (Py.chr_eqb c x)) s = true.
Proof.
  induction s as [|x s IH]; simpl; [tauto|].
  rewrite orb_false_iff, andb_true_iff, negb_true_iff, IH. tauto.
Qed.

Lemma urlparse_built (host_ok : str -> bool) (a q : str) :
  a <> [] -> forallb Py.isalnum a = true ->
  forallb (fun c => quoted_char c || Py.contains c "=&") q = true ->
  Urllib.urlparse host_ok ("bitcoin:" ++ a ++ "?" ++ q) =
    Ret {| Urllib.scheme := "bitcoin"; Urllib.netloc := ""; Urllib.path := a;
           Urllib.params := ""; Urllib.query := q; Urllib.fragment := "" |}.
Proof.
  intros Hne Ha Hq.
  assert (Haq : forallb quoted_char a = true)
    by (eapply forallb_impl; [|exact Ha]; intros c Hc; apply (alnum_facts _ Hc)).
  assert (Hsafe : forall f : ascii -> bool,
            (forall c, quoted_char c || Py.contains c "=&" = true -> f c = true) ->
            f "?"%char = true -> forallb f (a ++ "?" ++ q) = true).
  { intros f Hf Hqm. rewrite forallb_app. apply andb_true_iff; split.
    - eapply forallb_impl; [|exact Haq]. intros c Hc; apply Hf. now rewrite Hc.
    - change ("?" ++ q) with ("?"%char :: q). cbn [forallb]. rewrite Hqm.
      eapply forallb_impl; [|exact Hq]. exact Hf. }
  unfold Urllib.urlparse.
  replace (Py.lstrip_by Urllib.c0_control_or_space ("bitcoin:" ++ a ++ "?" ++ q))
    with ("bitcoin:" ++ a ++ "?" ++ q) by reflexivity.
  rewrite filter_all.
  2:{ change ("bitcoin:" ++ a ++ "?" ++ q) with ("bitcoin:" ++ (a ++ "?" ++ q)).
      rewrite forallb_app. apply andb_true_iff; split; [reflexivity|].
      apply Hsafe; [|reflexivity]. intros c Hc. apply (query_char_facts _ Hc). }
  replace (Urllib.split_scheme ("bitcoin:" ++ a ++ "?" ++ q))
    with (Some ("bitcoin", a ++ "?" ++ q)) by reflexivity.
  assert (E4 : Py.startswith (a ++ "?" ++ q) "//" = false).
  { destruct a as [|c a']; [congruence|]. cbn [forallb] in Ha.
    apply andb_true_iff in Ha as [Hc _].
    cbn [app Py.startswith]. now rewrite (proj2 (alnum_facts _ Hc)). }
  rewrite E4; cbn [bind].
  rewrite partition_no_sep.
  2:{ apply contains_false_iff. apply Hsafe; [|reflexivity].
      intros c Hc. now rewrite (proj2 (query_char_facts _ Hc)). }
  change (a ++ "?" ++ q) with (a ++ "?"%char :: q).
  rewrite partition_app_sep by (apply (contains_false_of Py.isalnum); auto).
  reflexivity.
Qed.

Section BuiltQuery.
Context `{Runtime}.

(** One field [name=value] of a query whose value needs no decoding. *)
Lemma unquote_plain (v : str) :
  forallb Re.amount_char v = true ->
  Urllib.unquote utf8_decode (Py.replace "+" " " v) = v.
Proof.
  intros Hv. rewrite replace_absent.
  - unfold Urllib.unquote.
    replace (Py.contains "%" v) with false; [reflexivity|].
    symmetry; apply (contains_false_of Re.amount_char); auto.
  - eapply forallb_impl; [|exact Hv]. intros c Hc.
    revert Hc; by_cases_on_char c.
Qed.

Lemma renders_shape (s : str) (n : Z) :
  renders s n -> s <> [] /\ forallb Re.amount_char s = true.
Proof.
  intros (whole & fraction & -> & Hne & Hw & Hf & _); split.
  - destruct whole; [congruence|discriminate].
  - rewrite forallb_app. apply andb_true_iff; split.
    + now apply (forallb_impl _ _ _ digit_is_amount_char).
    + destruct fraction; [reflexivity|].
      apply (forallb_impl _ _ _ digit_is_amount_char) in Hf. exact Hf.
Qed.

Lemma parse_qsl_amount (fmt : str) :
  fmt <> [] -> forallb Re.amount_char fmt = true ->
  Urllib.parse_qsl utf8_decode ("amount=" ++ fmt) = [("amount", fmt)].
Proof.
  intros Hne Hf. unfold Urllib.parse_qsl.
  replace (Py.nonempty ("amount=" ++ fmt)) with true by reflexivity.
  rewrite split_no_sep
    by (apply (contains_false_of (fun c => Re.amount_char c || Py.contains c "amount="));
        [rewrite forallb_app; apply andb_true_iff; split; [reflexivity|];
         eapply forallb_impl; [|exact Hf]; now intros c ->
        |reflexivity]).
  cbn [flat_map].
  change ("amount=" ++ fmt) with ("amount" ++ "="%char :: fmt).
  rewrite partition_app_sep by reflexivity.
  replace (Py.nonempty fmt) with true by (destruct fmt; [congruence|reflexivity]).
  rewrite (unquote_plain _ Hf). reflexivity.
Qed.

Lemma message_field_no_amp (msg : str) :
  Py.contains "&" ("message=" ++ Urllib.quote msg) = false.
Proof.
  apply contains_false_iff.
  rewrite forallb_app. apply andb_true_iff; split; [reflexivity|].
  eapply forallb_impl; [|apply quote_quoted]. intros c Hc.
  now rewrite (proj1 (proj2 (proj2 (proj2 (proj2 (proj2 (quoted_char_facts _ Hc))))))).
Qed.

Lemma parse_qsl_message (msg : str) :
  msg <> [] -> forallb Py.isascii msg = true ->
  Urllib.parse_qsl utf8_decode ("message=" ++ Urllib.quote msg) =
    [("message", msg)].
Proof.
  intros Hne Hm. unfold Urllib.parse_qsl.
  replace (Py.nonempty ("message=" ++ Urllib.quote msg)) with true by reflexivity.
  rewrite split_no_sep by apply message_field_no_amp.
  cbn [flat_map].
  change ("message=" ++ Urllib.quote msg) with ("message" ++ "="%char :: Urllib.quote msg).
  rewrite partition_app_sep by reflexivity.
  replace (Py.nonempty (Urllib.quote msg)) with true
    by (destruct msg as [|c m]; [congruence|];
        rewrite quote_cons; unfold quote_char; now destruct (_ || _)).
  rewrite (unquote_quote _ Hm). reflexivity.
Qed.

(** The fields of [f1&f2] are those of [f1] and then those of [f2]. *)
Lemma parse_qsl_join (f1 f2 : str) :
  Py.contains "&" f1 = false -> f1 <> [] -> f2 <> [] ->
  Urllib.parse_qsl utf8_decode (f1 ++ "&" ++ f2) =
    Urllib.parse_qsl utf8_decode f1 ++ Urllib.parse_qsl utf8_decode f2.
Proof.
  intros Hamp H1 H2. unfold Urllib.parse_qsl.
  replace (Py.nonempty (f1 ++ "&" ++ f2)) with true
    by (destruct f1; [congruence|reflexivity]).
  replace (Py.nonempty f1) with true by (destruct f1; [congruence|reflexivity]).
  replace (Py.nonempty f2) with true by (destruct f2; [congruence|reflexivity]).
  change (f1 ++ "&" ++ f2) with (f1 ++ "&"%char :: f2).
  rewrite (split_app_sep _ _ f2 Hamp), (split_no_sep _ _ Hamp).
  cbn [flat_map]. now rewrite app_nil_r.
Qed.

End BuiltQuery.

Section RoundTrip.
Context `{Bitcoin} `{Lightning} `{Util} `{Runtime}.

(** The fields of ["bitcoin:" + a + "?" + q], given what [parse_qs] makes
    of [q]: the scheme, the path and the query are found again. *)
Lemma decode_fields_built (a q : str) :
  a <> [] -> forallb Py.isalnum a = true ->
  forallb (fun c => quoted_char c || Py.contains c "=&") q = true ->
  is_address a = true ->
  decode_fields ("bitcoin:" ++ a ++ "?" ++ q) =
    (let* _ := check_duplicate_keys (Urllib.parse_qs utf8_decode q) in
     let out : Dict.t pyval :=
       Dict.set "address" (VStr a)
         (map (fun '(k, v) => (k, VStr (hd [] v))) (Urllib.parse_qs utf8_decode q)) in
     let* out :=
       match Dict.get "amount" out with
       | Some am =>
           let* n := field_try "amount"
                       (match am with
                        | VStr s => decode_amount s
                        | VInt _ => Raise not_a_text
                        end) in
           Ret (Dict.set "amount" (VInt n) out)
       | None => Ret out
       end in
     let out :=
       match Dict.get "message" out with
       | Some m => Dict.set "memo" m (Dict.set "message" m out)
       | None => out
       end in
     let int_field (field : str) (out : Dict.t pyval) : outcome (Dict.t pyval) :=
       match Dict.get field out with
       | Some v =>
           let* n := field_try field
                       (match v with
                        | VStr s => Builtins.int_of_str s
                        | VInt n => Ret n
                        end) in
           Ret (Dict.set field (VInt n) out)
       | None => Ret out
       end in
     let* out := int_field "time" out in
     let* out := int_field "exp" out in
     let* out :=
       match Dict.get "sig" out with
       | Some v =>
           let* h := field_try "sig"
                       (match v with
                        | VStr s => let* b := base_decode s 58 in Ret (Builtins.bytes_hex b)
                        | VInt _ => Raise not_a_text
                        end) in
           Ret (Dict.set "sig" (VStr h) out)
       | None => Ret out
       end in
     Ret out).
Proof.
  intros Hne Ha Hq Hvalid. unfold decode_fields.
  replace (Py.contains ":" ("bitcoin:" ++ a ++ "?" ++ q)) with true by reflexivity.
  cbn [negb]. rewrite urlparse_built by assumption. cbn [bind].
  cbn [Urllib.scheme Urllib.path Urllib.query].
  replace (Py.str_eqb (Py.lower "bitcoin") BITCOIN_BIP21_URI_SCHEME) with true
    by reflexivity.
  cbn [negb].
  rewrite partition_no_sep by (apply (contains_false_of Py.isalnum); auto).
  cbn [bind].
  replace (Py.nonempty a) with true by (destruct a; [congruence|reflexivity]).
  rewrite Hvalid. reflexivity.
Qed.

Lemma built_query_chars (fmt msg : str) :
  forallb Re.amount_char fmt = true ->
  forallb (fun c => quoted_char c || Py.contains c "=&")
          ("amount=" ++ fmt ++ "&" ++ "message=" ++ Urllib.quote msg) = true /\
  forallb (fun c => quoted_char c || Py.contains c "=&") ("amount=" ++ fmt) = true /\
  forallb (fun c => quoted_char c || Py.contains c "=&")
          ("message=" ++ Urllib.quote msg) = true.
Proof.
  intros Hf.
  assert (H1' : forallb (fun c => quoted_char c || Py.contains c "=&") fmt = true).
  { eapply forallb_impl; [|exact Hf]. intros c Hc.
    now rewrite (amount_char_quoted _ Hc). }
  assert (H2' : forallb (fun c => quoted_char c || Py.contains c "=&")
                        (Urllib.quote msg) = true).
  { eapply forallb_impl; [|apply quote_quoted]. now intros c ->. }
  repeat split.
  - change ("amount=" ++ fmt ++ "&" ++ "message=" ++ Urllib.quote msg)
      with ("amount=" ++ (fmt ++ ("&message=" ++ Urllib.quote msg))).
    rewrite !forallb_app, H1', H2'. reflexivity.
  - rewrite forallb_app, H1'. reflexivity.
  - rewrite forallb_app, H2'. reflexivity.
Qed.

(** What [create_bip21_uri] builds from an amount and a message. *)
Lemma create_bip21_uri_built (a msg : str) (n : Z) :
  is_address a = true -> msg <> [] ->
  create_bip21_uri a (Some n) (Some msg) None =
    Ret ("bitcoin:" ++ a ++ "?" ++
         if n =? 0 then "message=" ++ Urllib.quote msg
         else "amount=" ++ format_satoshis_plain n ++ "&" ++
              "message=" ++ Urllib.quote msg).
Proof.
  intros Hvalid Hmne. unfold create_bip21_uri. rewrite Hvalid. cbn [negb].
  replace (Py.nonempty msg) with true by (destruct msg; [congruence|reflexivity]).
  destruct (n =? 0); cbn [negb fold_left app bind Py.join];
    unfold Urllib.urlunparse;
    cbn [Urllib.scheme Urllib.netloc Urllib.path Urllib.params Urllib.query
         Urllib.fragment Py.nonempty];
    replace (Urllib.str_in BITCOIN_BIP21_URI_SCHEME Urllib.uses_netloc)
      with false by reflexivity;
    cbn [orb andb]; unfold BITCOIN_BIP21_URI_SCHEME; cbn [Py.nonempty app];
    now rewrite <- ?app_assoc.
Qed.

(** C7, as the code has it. For a valid address (which is alphanumeric), an
    amount [n] from 0 up to the supply limit, written by the formatter as
    the plain decimal numeral of [n / 10^8], and a message of printable
    ASCII that is not empty: if [n] is not 0, the URI that
    [create_bip21_uri] builds decodes to the address, the amount and the
    message, which is also the memo; ["bitcoin:" + a + "?amount=" +
    format(n)] decodes to exactly the address and the amount; and for the
    amount 0 [create_bip21_uri] writes no amount, so that the decoded URI
    has none.  Above the supply limit see
    [amount_above_supply_is_refused]. *)
Theorem uri_round_trip (a msg : str) (n : Z) :
  COIN = 100000000 ->
  TOTAL_COIN_SUPPLY_LIMIT_IN_BTC * COIN < 10 ^ 20 ->
  is_address a = true -> a <> [] -> forallb Py.isalnum a = true ->
  0 <= n <= TOTAL_COIN_SUPPLY_LIMIT_IN_BTC * COIN ->
  renders (format_satoshis_plain n) n ->
  msg <> [] -> forallb printable msg = true ->
  (n <> 0 ->
   exists uri,
     create_bip21_uri a (Some n) (Some msg) None = Ret uri /\
     parse_bip21_URI uri =
       Ret [("amount", VInt n); ("message", VStr msg); ("address", VStr a);
            ("memo", VStr msg)]) /\
  parse_bip21_URI ("bitcoin:" ++ a ++ "?amount=" ++ format_satoshis_plain n) =
    Ret [("amount", VInt n); ("address", VStr a)] /\
  (exists uri,
     create_bip21_uri a (Some 0) (Some msg) None = Ret uri /\
     parse_bip21_URI uri =
       Ret [("message", VStr msg); ("address", VStr a); ("memo", VStr msg)]).
Proof.
  intros Hcoin Hlim Hvalid Hne Ha Hn Hr Hmne Hmsg.
  destruct (renders_shape Hr) as [Hfne Hf].
  pose proof (decode_amount_renders Hcoin Hlim Hr Hn) as Hamount.
  assert (Hascii : forallb Py.isascii msg = true)
    by (eapply forallb_impl; [|exact Hmsg]; apply printable_ascii).
  destruct (@built_query_chars (format_satoshis_plain n) msg Hf) as (Hq2 & Hq1 & Hqm).
  set (fmt := format_satoshis_plain n) in *.
  assert (Epq1 : Urllib.parse_qs utf8_decode ("amount=" ++ fmt) =
                 [("amount", [fmt])]).
  { unfold Urllib.parse_qs. now rewrite parse_qsl_amount. }
  assert (Epqm : Urllib.parse_qs utf8_decode ("message=" ++ Urllib.quote msg) =
                 [("message", [msg])]).
  { unfold Urllib.parse_qs. now rewrite parse_qsl_message. }
  assert (Epq2 : Urllib.parse_qs utf8_decode
                   ("amount=" ++ fmt ++ "&" ++ "message=" ++ Urllib.quote msg) =
                 [("amount", [fmt]); ("message", [msg])]).
  { unfold Urllib.parse_qs.
    change ("amount=" ++ fmt ++ "&" ++ "message=" ++ Urllib.quote msg)
      with (("amount=" ++ fmt) ++ "&" ++ ("message=" ++ Urllib.quote msg)).
    rewrite parse_qsl_join, parse_qsl_amount, parse_qsl_message;
      try assumption; try discriminate; [reflexivity|].
    apply contains_false_iff. rewrite forallb_app.
    apply andb_true_iff; split; [reflexivity|].
    eapply forallb_impl; [|exact Hf]. intros c; by_cases_on_char c. }
  split; [|split].
  - intros Hnz. eexists; split.
    + rewrite create_bip21_uri_built by assumption.
      replace (n =? 0) with false by (symmetry; now apply Z.eqb_neq).
      fold fmt. reflexivity.
    + unfold parse_bip21_URI.
      rewrite decode_fields_built by assumption.
      rewrite Epq2.
      cbn [check_duplicate_keys length Nat.eqb negb bind map hd Dict.set Dict.get
           Py.str_eqb Py.chr_eqb Ascii.eqb Bool.eqb andb field_try try_except].
      rewrite Hamount. reflexivity.
  - change ("bitcoin:" ++ a ++ "?amount=" ++ fmt)
      with ("bitcoin:" ++ a ++ "?" ++ ("amount=" ++ fmt)).
    unfold parse_bip21_URI.
    rewrite decode_fields_built by assumption.
    rewrite Epq1.
    cbn [check_duplicate_keys length Nat.eqb negb bind map hd Dict.set Dict.get
         Py.str_eqb Py.chr_eqb Ascii.eqb Bool.eqb andb field_try try_except].
    rewrite Hamount. reflexivity.
  - eexists; split.
    + rewrite create_bip21_uri_built by assumption. reflexivity.
    + cbn [Z.eqb]. unfold parse_bip21_URI.
      rewrite decode_fields_built by assumption.
      rewrite Epqm. reflexivity.
Qed.

End RoundTrip.

(** ** The sample formatter writes plain decimal numerals *)

Lemma digit_char (d : Z) :
  0 <= d < 10 ->
  Py.isdigit (ascii_of_N (Z.to_N (48 + d))) = true /\
  Decimal.digit_value (ascii_of_N (Z.to_N (48 + d))) = d.
Proof.
  intros Hd.
  assert (E : d = 0 \/ d = 1 \/ d = 2 \/ d = 3 \/ d = 4 \/ d = 5 \/ d = 6 \/
              d = 7 \/ d = 8 \/ d = 9) by lia.
  repeat (destruct E as [->|E]; [split; reflexivity|]).
  subst; split; reflexivity.
Qed.

Lemma digits_value_app (a b : str) :
  Decimal.digits_value (a ++ b) =
    fold_left (fun acc c => 10 * acc + Decimal.digit_value c) b (Decimal.digits_value a).
Proof. unfold Decimal.digits_value. now rewrite fold_left_app. Qed.

Lemma digits_aux_spec (fuel : nat) (n : Z) (acc : str) :
  0 <= n < 2 ^ Z.of_nat (S fuel) ->
  exists ds,
    Sample.digits_aux (S fuel) n acc = ds ++ acc /\ ds <> [] /\
    forallb Py.isdigit ds = true /\ Decimal.digits_value ds = n.
Proof.
  revert n acc; induction fuel as [|fuel IH]; intros n acc Hn;
    pose proof (Z.mod_pos_bound n 10 ltac:(lia)) as Hm;
    destruct (digit_char Hm) as [Hd Hv].
  - exists [ascii_of_N (Z.to_N (48 + n mod 10))].
    cbn [Sample.digits_aux].
    replace (n <? 10) with true by (symmetry; apply Z.ltb_lt; cbn in Hn; lia).
    repeat split; [discriminate|cbn [forallb]; now rewrite Hd|].
    unfold Decimal.digits_value; cbn [fold_left]. rewrite Hv.
    cbn in Hn. rewrite Z.mod_small; lia.
  - change (Sample.digits_aux (S (S fuel)) n acc)
      with (let acc' := ascii_of_N (Z.to_N (48 + n mod 10)) :: acc in
            if n <? 10 then acc' else Sample.digits_aux (S fuel) (n / 10) acc').
    cbv zeta. destruct (n <? 10) eqn:E.
    + apply Z.ltb_lt in E.
      exists [ascii_of_N (Z.to_N (48 + n mod 10))].
      repeat split; [discriminate|cbn [forallb]; now rewrite Hd|].
      unfold Decimal.digits_value; cbn [fold_left]. rewrite Hv.
      rewrite Z.mod_small; lia.
    + apply Z.ltb_ge in E.
      destruct (IH (n / 10) (ascii_of_N (Z.to_N (48 + n mod 10)) :: acc))
        as (ds & E1 & _ & Hds & Hval).
      { split; [apply Z.div_pos; lia|].
        apply Z.div_lt_upper_bound; [lia|].
        rewrite (Nat2Z.inj_succ (S fuel)), Z.pow_succ_r in Hn by lia. lia. }
      exists (ds ++ [ascii_of_N (Z.to_N (48 + n mod 10))]).
      rewrite E1, <- app_assoc. repeat split.
      * intros Hnil; now apply app_eq_nil in Hnil as [_ [=]].
      * rewrite forallb_app, Hds; cbn [forallb]; now rewrite Hd.
      * rewrite digits_value_app, Hval; cbn [fold_left]. rewrite Hv.
        rewrite (Z.div_mod n 10) at 3 by lia. reflexivity.
Qed.

Lemma digits_spec (n : Z) :
  0 <= n ->
  Sample.digits n <> [] /\ forallb Py.isdigit (Sample.digits n) = true /\
  Decimal.digits_value (Sample.digits n) = n.
Proof.
  intros Hn. unfold Sample.digits.
  destruct (@digits_aux_spec (Z.to_nat (Z.log2 n)) n []) as (ds & E & Hne & Hd & Hv).
  { split; [assumption|].
    rewrite Nat2Z.inj_succ, Z2Nat.id by apply Z.log2_nonneg.
    destruct (Z.eq_dec n 0) as [->|]; [reflexivity|].
    apply Z.log2_spec; lia. }
  rewrite E, app_nil_r. auto.
Qed.

Lemma padded_spec (width : nat) (n a : Z) :
  0 <= n ->
  forallb Py.isdigit (Sample.padded width n) = true /\
  length (Sample.padded width n) = width /\
  fold_left (fun acc c => 10 * acc + Decimal.digit_value c) (Sample.padded width n) a =
    a * 10 ^ Z.of_nat width + n mod 10 ^ Z.of_nat width.
Proof.
  revert n a; induction width as [|w IH]; intros n a Hn.
  - cbn [Sample.padded forallb length fold_left Z.of_nat].
    rewrite Z.pow_0_r, Z.mod_1_r. repeat split; lia.
  - cbn [Sample.padded].
    pose proof (Z.mod_pos_bound n 10 ltac:(lia)) as Hm.
    destruct (digit_char Hm) as [Hd Hv].
    destruct (IH (n / 10) a) as (Hds & Hlen & Hval); [apply Z.div_pos; lia|].
    rewrite forallb_app, Hds, length_app, Hlen, fold_left_app, Hval.
    cbn [forallb length fold_left]. rewrite Hd, Hv.
    repeat split; [lia|].
    rewrite Nat2Z.inj_succ, Z.pow_succ_r by lia.
    rewrite (Z.rem_mul_r n 10 (10 ^ Z.of_nat w)) by lia. lia.
Qed.

(** What [lstrip] removes, and what it leaves. *)
Lemma lstrip_by_split (p : ascii -> bool) (s : str) :
  exists z, s = z ++ Py.lstrip_by p s /\ forallb p z = true.
Proof.
  induction s as [|c s (z & E & Hz)]; [now exists []|].
  cbn [Py.lstrip_by]. destruct (p c) eqn:Hc.
  - exists (c :: z). cbn [app forallb]. now rewrite Hc, Hz, <- E.
  - now exists [].
Qed.

Lemma rstrip_by_split (p : ascii -> bool) (s : str) :
  exists z, s = Py.rstrip_by p s ++ z /\ forallb p z = true.
Proof.
  unfold Py.rstrip_by.
  destruct (lstrip_by_split p (rev s)) as (z & E & Hz).
  exists (rev z). split.
  - rewrite <- rev_app_distr, <- E. now rewrite rev_involutive.
  - now rewrite forallb_rev.
Qed.

Lemma zeros_value (z : str) (a : Z) :
  forallb (Py.chr_eqb "0") z = true ->
  fold_left (fun acc c => 10 * acc + Decimal.digit_value c) z a =
    a * 10 ^ Z.of_nat (length z).
Proof.
  revert a; induction z as [|c z IH]; intros a Hz.
  - cbn [fold_left length Z.of_nat]. lia.
  - cbn [forallb] in Hz. apply andb_true_iff in Hz as [Hc Hz].
    apply chr_eqb_eq in Hc; subst c.
    cbn [fold_left length]. rewrite IH by assumption.
    rewrite Nat2Z.inj_succ, Z.pow_succ_r by lia.
    change (Decimal.digit_value "0") with 0. lia.
Qed.

(** The formatter of [util], as the sample has it, writes every amount
    that is not negative as the numeral that [renders] asks for. *)
Lemma format_sat_renders (n : Z) : 0 <= n -> renders (Sample.format_sat n) n.
Proof.
  intros Hn. unfold Sample.format_sat.
  replace (n <? 0) with false by (symmetry; apply Z.ltb_ge; lia).
  rewrite Z.abs_eq by assumption.
  destruct (@digits_spec (n / 100000000)) as (Hwne & Hwd & Hwv);
    [apply Z.div_pos; lia|].
  destruct (@padded_spec 8 (n mod 100000000) (n / 100000000)) as (Hpd & Hpl & Hpv);
    [apply Z.mod_pos_bound; lia|].
  destruct (rstrip_by_split (Py.chr_eqb "0") (Sample.padded 8 (n mod 100000000)))
    as (z & E & Hz).
  set (fraction := Py.rstrip_by _ _) in *.
  exists (Sample.digits (n / 100000000)), fraction.
  assert (Hlen : (length fraction + length z = 8)%nat)
    by (now rewrite <- length_app, <- E).
  assert (Hfd : forallb Py.isdigit fraction = true).
  { rewrite E, forallb_app in Hpd. now apply andb_true_iff in Hpd as [? _]. }
  repeat split; try assumption; [lia|].
  rewrite digits_value_app, Hwv.
  rewrite E, fold_left_app, zeros_value in Hpv by assumption.
  replace (8 - Z.of_nat (length fraction)) with (Z.of_nat (length z)) by lia.
  rewrite Hpv. change (10 ^ Z.of_nat 8) with 100000000.
  rewrite Z.mod_mod by lia.
  rewrite (Z.div_mod n 100000000) at 3 by lia. lia.
Qed.

Section RoundTripExamples.
#[local] Existing Instances Sample.bitcoin Sample.lightning Sample.util
  Sample.config Sample.runtime.

(** 150000 minor units, written [0.0015]. *)
Lemma uri_round_trip_witness :
  (150000 <> 0 ->
   exists uri,
     create_bip21_uri Sample.ADDR1 (Some 150000) (Some "hi there & co") None = Ret uri /\
     parse_bip21_URI uri =
       Ret [("amount", VInt 150000); ("message", VStr "hi there & co");
            ("address", VStr Sample.ADDR1); ("memo", VStr "hi there & co")]) /\
  parse_bip21_URI ("bitcoin:" ++ Sample.ADDR1 ++ "?amount=" ++
                   format_satoshis_plain 150000) =
    Ret [("amount", VInt 150000); ("address", VStr Sample.ADDR1)] /\
  (exists uri,
     create_bip21_uri Sample.ADDR1 (Some 0) (Some "hi there & co") None = Ret uri /\
     parse_bip21_URI uri =
       Ret [("message", VStr "hi there & co"); ("address", VStr Sample.ADDR1);
            ("memo", VStr "hi there & co")]).
Proof.
  apply uri_round_trip; try reflexivity; try discriminate.
  - split; discriminate.
  - exists "0", "0015". repeat split; try reflexivity; try discriminate.
    cbn [length]. lia.
Defined.

(** C7, as the specification has it, fails: an amount above the supply
    limit is written into the URI and refused when the URI is read, built
    by [create_bip21_uri] or by hand; and the amount 0 is not written at
    all, so that the decoded URI has no amount. *)
Lemma amount_above_supply_is_refused :
  (let* uri := create_bip21_uri Sample.ADDR1 (Some 2100000000000001) (Some "hi") None in
   parse_bip21_URI uri) =
    Raise (InvalidBitcoinURI
             (FailedToParseField "amount" (InvalidBitcoinURI AmountOutOfBounds))) /\
  parse_bip21_URI ("bitcoin:" ++ Sample.ADDR1 ++ "?amount=" ++
                   format_satoshis_plain 2100000000000001) =
    Raise (InvalidBitcoinURI
             (FailedToParseField "amount" (InvalidBitcoinURI AmountOutOfBounds))) /\
  (let* uri := create_bip21_uri Sample.ADDR1 (Some 0) (Some "hi") None in
   parse_bip21_URI uri) =
    Ret [("message", VStr "hi"); ("address", VStr Sample.ADDR1); ("memo", VStr "hi")].
Proof. repeat split; vm_compute; reflexivity. Qed.

End RoundTripExamples.

(** * Further properties *)

(** ** Text, again *)

Lemma lstrip_by_head (p : ascii -> bool) (s : str) :
  match Py.lstrip_by p s with c :: _ => p c = false | [] => True end.
Proof.
  induction s as [|c s IH]; [exact I|].
  cbn [Py.lstrip_by]. destruct (p c) eqn:E; [exact IH|exact E].
Qed.

Lemma rstrip_by_head (p : ascii -> bool) (c : ascii) (s : str) :
  p c = false -> exists r, Py.rstrip_by p (c :: s) = c :: r.
Proof.
  intros Hc. destruct (rstrip_by_split p (c :: s)) as (z & E & Hz).
  destruct (Py.rstrip_by p (c :: s)) as [|c' r].
  - cbn [app] in E. subst z. cbn [forallb] in Hz. rewrite Hc in Hz. discriminate.
  - injection E as <- _. now exists r.
Qed.

Lemma startswith_nil (s : str) : Py.startswith s [] = true.
Proof. now destruct s. Qed.

Lemma strip_stripped (s : str) : stripped (Py.strip s).
Proof.
  unfold Py.strip, stripped. split.
  - pose proof (lstrip_by_head Py.isspace s) as Hh.
    destruct (Py.lstrip_by Py.isspace s) as [|c r]; [exact I|].
    destruct (@rstrip_by_head Py.isspace c r Hh) as [r' ->]. exact Hh.
  - unfold Py.rstrip_by. rewrite rev_involutive. apply lstrip_by_head.
Qed.

Lemma strip_of_stripped (s : str) : stripped s -> Py.strip s = s.
Proof. intros [Hl Hr]. now apply strip_keeps. Qed.

Lemma strip_idempotent (s : str) : Py.strip (Py.strip s) = Py.strip s.
Proof. apply strip_of_stripped, strip_stripped. Qed.

Lemma lower_char_space (c : ascii) : Py.isspace (Py.lower_char c) = Py.isspace c.
Proof. by_cases_on_char c. Qed.

Lemma lower_char_idempotent (c : ascii) :
  Py.lower_char (Py.lower_char c) = Py.lower_char c.
Proof. by_cases_on_char c. Qed.

Lemma lower_idempotent (s : str) : Py.lower (Py.lower s) = Py.lower s.
Proof.
  unfold Py.lower. rewrite map_map. apply map_ext, lower_char_idempotent.
Qed.

Lemma lower_stripped (s : str) : stripped s -> stripped (Py.lower s).
Proof.
  unfold stripped, Py.lower. rewrite <- map_rev. intros [Hl Hr]. split.
  - destruct s; [exact I|]. cbn [map]. now rewrite lower_char_space.
  - destruct (rev s); [exact I|]. cbn [map]. now rewrite lower_char_space.
Qed.

Lemma lower_skipn (n : nat) (s : str) : Py.lower (skipn n s) = skipn n (Py.lower s).
Proof. unfold Py.lower. now rewrite skipn_map. Qed.

Lemma lower_app (a b : str) : Py.lower (a ++ b) = Py.lower a ++ Py.lower b.
Proof. apply map_app. Qed.

(** A stripped text keeps its end when characters are cut from its start,
    as long as something is left that starts without a space. *)
Lemma stripped_tail (a x : str) :
  stripped (a ++ x) ->
  match x with c :: _ => Py.isspace c = false | [] => False end ->
  stripped x.
Proof.
  intros [_ Hr] Hx. split.
  - destruct x; [contradiction|exact Hx].
  - rewrite rev_app_distr in Hr.
    destruct x as [|c x]; [contradiction|].
    destruct (rev (c :: x)) as [|z r] eqn:E; [exact I|exact Hr].
Qed.

Section Extraction.
Context `{Bitcoin} `{Lightning} `{Util} `{Runtime}.

(** X1. What [maybe_extract_lightning_payment_identifier] hands back starts
    with [ln], is in lower case and has no space at either end; and it is
    its own extract. *)
Theorem extract_is_canonical (data x : str) :
  maybe_extract_lightning_payment_identifier data = Some x ->
  Py.startswith x "ln" = true /\ Py.lower x = x /\ Py.strip x = x /\
  maybe_extract_lightning_payment_identifier x = Some x.
Proof.
  unfold maybe_extract_lightning_payment_identifier.
  set (d := Py.lower (Py.strip data)).
  assert (Hd : stripped d) by apply lower_stripped, strip_stripped.
  assert (Hl : Py.lower d = d) by apply lower_idempotent.
  set (y := if Py.startswith d (LIGHTNING_URI_SCHEME ++ ":ln")
            then skipn (length (LIGHTNING_URI_SCHEME ++ ":")) d else d).
  destruct (Py.startswith y "ln") eqn:Hy; [|discriminate].
  intros [= <-].
  assert (Hly : Py.lower y = y).
  { subst y. destruct (Py.startswith d _); [|exact Hl].
    now rewrite lower_skipn, Hl. }
  assert (Hsy : stripped y).
  { subst y. destruct (Py.startswith d _) eqn:E; [|exact Hd].
    apply stripped_tail with (a := firstn (length (LIGHTNING_URI_SCHEME ++ ":")) d).
    - now rewrite firstn_skipn.
    - destruct (skipn _ d) as [|c r]; [discriminate|].
      cbn [Py.startswith] in Hy. apply andb_true_iff in Hy as [Hc _].
      apply chr_eqb_eq in Hc. now subst c. }
  rewrite (strip_of_stripped Hsy), Hly.
  assert (Hn : Py.startswith y (LIGHTNING_URI_SCHEME ++ ":ln") = false).
  { destruct y as [|c1 [|c2 r]]; cbn [Py.startswith] in Hy;
      rewrite ?andb_false_r in Hy; try discriminate.
    rewrite !andb_true_iff in Hy.
    destruct Hy as (H1' & H2' & _).
    apply chr_eqb_eq in H1', H2'. subst c1 c2. reflexivity. }
  rewrite Hn, Hy. auto.
Qed.

(** X2. The [lightning:] prefix, in any letter case, is transparent: a text
    that starts with [ln], in any case, is extracted to the same identifier
    with the prefix and without it. *)
Theorem extract_ignores_prefix (prefix x : str) :
  Py.lower prefix = "lightning:" ->
  Py.startswith (Py.lower x) "ln" = true ->
  maybe_extract_lightning_payment_identifier (prefix ++ x) =
    maybe_extract_lightning_payment_identifier x /\
  maybe_extract_lightning_payment_identifier x =
    Some (Py.lower (Py.rstrip_by Py.isspace x)).
Proof.
  intros Hp Hx.
  destruct x as [|c1 [|c2 x]]; cbn [Py.lower map Py.startswith] in Hx;
    rewrite ?andb_false_r in Hx; try discriminate.
  assert (Hc1 : Py.isspace c1 = false).
  { cbn [Py.lower map Py.startswith] in Hx. apply andb_true_iff in Hx as [Hc _].
    apply chr_eqb_eq in Hc. rewrite <- lower_char_space, <- Hc. reflexivity. }
  destruct (@rstrip_by_head Py.isspace c1 (c2 :: x) Hc1) as [r Hr].
  assert (Hrx : Py.startswith (Py.lower (c1 :: r)) "ln" = true).
  { destruct (rstrip_by_split Py.isspace (c1 :: c2 :: x)) as (z & E & Hz).
    rewrite Hr in E. destruct r as [|c2' r].
    - injection E as E. subst z. cbn [forallb] in Hz.
      apply andb_true_iff in Hz as [Hc2 _].
      cbn [Py.lower map Py.startswith] in Hx. rewrite !andb_true_iff in Hx.
      destruct Hx as (_ & Hc & _). apply chr_eqb_eq in Hc.
      rewrite <- lower_char_space, <- Hc in Hc2. discriminate.
    - injection E as <- _.
      cbn [Py.lower map Py.startswith]. rewrite !andb_true_iff in Hx.
      destruct Hx as (-> & -> & _). now rewrite startswith_nil. }
  assert (Hstrip : Py.strip (c1 :: c2 :: x) = c1 :: r).
  { unfold Py.strip. now rewrite lstrip_by_keep, Hr. }
  assert (Hsecond : maybe_extract_lightning_payment_identifier (c1 :: c2 :: x) =
                    Some (Py.lower (c1 :: r))).
  { unfold maybe_extract_lightning_payment_identifier. rewrite Hstrip.
    replace (Py.startswith (Py.lower (c1 :: r)) (LIGHTNING_URI_SCHEME ++ ":ln"))
      with false; [now rewrite Hrx|].
    destruct r as [|c2' r];
      [cbn [Py.lower map Py.startswith] in Hrx; rewrite andb_false_r in Hrx;
       discriminate|].
    cbn [Py.lower map Py.startswith] in Hrx |- *. rewrite !andb_true_iff in Hrx.
    destruct Hrx as (H1' & H2' & _). apply chr_eqb_eq in H1', H2'.
    rewrite <- H1', <- H2'. reflexivity. }
  split; [|now rewrite Hsecond, Hr].
  rewrite Hsecond.
  assert (Hlen : length prefix = 10%nat).
  { apply (f_equal (@length ascii)) in Hp. unfold Py.lower in Hp.
    now rewrite length_map in Hp. }
  destruct prefix as [|p0 prefix]; [discriminate|].
  assert (Hp0 : Py.isspace p0 = false).
  { injection Hp as Hp0 _. rewrite <- lower_char_space, Hp0. reflexivity. }
  assert (Hstrip' : Py.strip ((p0 :: prefix) ++ c1 :: c2 :: x) =
                    (p0 :: prefix) ++ c1 :: r).
  { apply eq_trans with (Py.rstrip_by Py.isspace ((p0 :: prefix) ++ c1 :: c2 :: x)).
    - unfold Py.strip. cbn [app]. now rewrite lstrip_by_keep.
    - unfold Py.rstrip_by in Hr |- *.
      rewrite rev_app_distr.
      destruct (lstrip_by_split Py.isspace (rev (c1 :: c2 :: x))) as (z & E & Hz).
      apply (f_equal (@rev ascii)) in Hr. rewrite rev_involutive in Hr.
      assert (Hnn : Py.lstrip_by Py.isspace (rev (c1 :: c2 :: x)) <> [])
        by (rewrite Hr; intros Hnil; apply (f_equal (@rev ascii)) in Hnil;
            rewrite rev_involutive in Hnil; discriminate).
      assert (Hgen : forall u v, Py.lstrip_by Py.isspace u <> [] ->
                 Py.lstrip_by Py.isspace (u ++ v) = Py.lstrip_by Py.isspace u ++ v).
      { induction u as [|a u IHu]; intros v Hu; [now elim Hu|].
        cbn [app Py.lstrip_by] in *. destruct (Py.isspace a); [now apply IHu|reflexivity]. }
      rewrite Hgen by assumption. rewrite Hr, rev_app_distr, !rev_involutive.
      reflexivity. }
  unfold maybe_extract_lightning_payment_identifier.
  rewrite Hstrip', lower_app, Hp.
  replace (Py.startswith ("lightning:" ++ Py.lower (c1 :: r)) (LIGHTNING_URI_SCHEME ++ ":ln"))
    with true by (symmetry; exact Hrx).
  change (skipn (length (LIGHTNING_URI_SCHEME ++ ":")) ("lightning:" ++ Py.lower (c1 :: r)))
    with (Py.lower (c1 :: r)).
  now rewrite Hrx.
Qed.

End Extraction.

(** ** What a decoded URI is like *)

Lemma to_int_below (a : Decimal.t) (limit n : Z) :
  Decimal.gt_int a limit = Ret false -> Decimal.to_int a = Ret n -> n <= limit.
Proof.
  destruct a as [c e| |]; try discriminate.
  unfold Decimal.gt_int, Decimal.to_int.
  destruct (0 <=? e) eqn:Ee.
  - intros [= Hg] [= <-]. now apply Z.ltb_ge in Hg.
  - apply Z.leb_gt in Ee. intros [= Hg] [= <-]. apply Z.ltb_ge in Hg.
    assert (Hp : 0 < 10 ^ (- e)) by (apply Z.pow_pos_nonneg; lia).
    rewrite <- (Z.quot_mul limit (10 ^ (- e))) by lia.
    apply Z.quot_le_mono; lia.
Qed.

Lemma keys_set_NoDup (V : Type) (d : Dict.t V) (k : str) (v : V) :
  NoDup (map fst d) -> NoDup (map fst (Dict.set k v d)).
Proof.
  intros Hd. rewrite keys_set. unfold Dict.mem.
  destruct (Dict.get k d) eqn:E; [exact Hd|].
  apply NoDup_app; repeat split; auto.
  - constructor; [intros []|constructor].
  - intros x Hx [<-|[]]. now apply (get_None_keys _ _ E).
Qed.

Section Decoded.
Context `{Bitcoin} `{Lightning} `{Util} `{Runtime}.

Lemma decode_amount_below (s : str) (n : Z) :
  decode_amount s = Ret n -> n <= TOTAL_COIN_SUPPLY_LIMIT_IN_BTC * COIN.
Proof.
  unfold decode_amount.
  destruct (match Re.match_amount_X s with Some _ => _ | None => _ end) as [a|];
    [|discriminate].
  cbn [bind]. destruct (Decimal.gt_int a _) as [[]|] eqn:Eg; try discriminate.
  cbn [bind]. now apply to_int_below.
Qed.


(** A field that is set, or left out as it is. *)
Lemma field_step (field : str) (out out' : Dict.t pyval) (body : pyval -> outcome pyval) :
  match Dict.get field out with
  | Some v => let* w := body v in Ret (Dict.set field w out)
  | None => Ret out
  end = Ret out' ->
  (Dict.get field out = None /\ out' = out) \/
  (exists v w, Dict.get field out = Some v /\ body v = Ret w /\
               out' = Dict.set field w out).
Proof.
  destruct (Dict.get field out) as [v|]; [|intros [= <-]; now left].
  destruct (body v) as [w|] eqn:E; [|discriminate].
  intros [= <-]. right. now exists v, w.
Qed.

Ltac dict_get :=
  repeat (rewrite get_set_same || rewrite get_set_other by discriminate).

Lemma decode_fields_shape (uri : str) (out : Dict.t pyval) :
  decode_fields uri = Ret out ->
  NoDup (map fst out) /\
  (forall v, Dict.get "amount" out = Some v ->
     exists n, v = VInt n /\ n <= TOTAL_COIN_SUPPLY_LIMIT_IN_BTC * COIN) /\
  (forall m, Dict.get "message" out = Some m -> Dict.get "memo" out = Some m) /\
  (forall v, Dict.get "time" out = Some v -> exists n, v = VInt n) /\
  (forall v, Dict.get "exp" out = Some v -> exists n, v = VInt n).
Proof.
  unfold decode_fields.
  destruct (negb (Py.contains ":" uri)).
  { destruct (negb (is_address uri)); [discriminate|]. intros [= <-].
    repeat split; try (intros v; cbn; discriminate).
    constructor; [intros []|constructor]. }
  destruct (Urllib.urlparse bracketed_host_ok uri) as [u|] eqn:Eu; [|discriminate].
  cbn [bind].
  destruct (Py.str_eqb (Py.lower (Urllib.scheme u)) BITCOIN_BIP21_URI_SCHEME) eqn:Es;
    [|discriminate].
  cbn [negb].
  destruct (urlparse_bitcoin _ _ Eu Es) as [_ Hq].
  rewrite (partition_no_sep _ _ Hq). cbn [bind].
  destruct (check_duplicate_keys _) as [[]|]; [|discriminate]. cbn [bind].
  set (pq := Urllib.parse_qs utf8_decode (Urllib.query u)).
  set (out0 := map (fun '(k, v) => (k, VStr (hd [] v))) pq).
  assert (N0 : NoDup (map fst out0)).
  { subst out0. rewrite map_map.
    replace (map (fun x => fst (let '(k, v) := x in (k, VStr (hd [] v)))) pq)
      with (map fst pq) by (apply map_ext; now intros []).
    apply (parse_qs_collected utf8_decode (Urllib.query u)). }
  set (step1 := if Py.nonempty (Urllib.path u) then _ else _).
  destruct step1 as [out1|] eqn:E1; [|discriminate]. cbn [bind].
  assert (N1 : NoDup (map fst out1)).
  { subst step1. destruct (Py.nonempty _); [|now injection E1 as <-].
    destruct (negb _); [discriminate|]. injection E1 as <-.
    now apply keys_set_NoDup. }
  clearbody out0 step1. clear E1 N0 out0.
  set (step2 := match Dict.get "amount" out1 with Some _ => _ | None => _ end).
  destruct step2 as [out2|] eqn:E2; [|discriminate]. cbn [bind].
  assert (I2 : NoDup (map fst out2) /\
               forall v, Dict.get "amount" out2 = Some v ->
                 exists n, v = VInt n /\ n <= TOTAL_COIN_SUPPLY_LIMIT_IN_BTC * COIN).
  { subst step2. destruct (Dict.get "amount" out1) as [am|] eqn:Ea.
    - destruct (field_try _ _) as [n|] eqn:Ef; [|discriminate].
      injection E2 as <-. split; [now apply keys_set_NoDup|].
      intros v. rewrite get_set_same. intros [= <-]. exists n; split; [reflexivity|].
      destruct am as [|s]; [discriminate|]. unfold field_try, try_except in Ef.
      destruct (decode_amount s) as [n'|] eqn:Ed; [|discriminate].
      injection Ef as <-. exact (decode_amount_below _ Ed).
    - injection E2 as <-. split; [assumption|]. intros v. rewrite Ea. discriminate. }
  destruct I2 as [N2 A2]. clearbody step2. clear E2 N1 out1.
  set (out3 := match Dict.get "message" out2 with Some _ => _ | None => _ end).
  assert (I3 : NoDup (map fst out3) /\
               Dict.get "amount" out3 = Dict.get "amount" out2 /\
               forall m, Dict.get "message" out3 = Some m ->
                         Dict.get "memo" out3 = Some m).
  { subst out3. destruct (Dict.get "message" out2) as [m|] eqn:Em.
    - split; [now do 2 apply keys_set_NoDup|]. split; [now dict_get|].
      intros m'. dict_get. intros [= <-]. reflexivity.
    - split; [assumption|]. split; [reflexivity|]. intros m'. rewrite Em. discriminate. }
  destruct I3 as (N3 & A3 & M3). rewrite <- A3 in A2. clearbody out3. clear A3 N2 out2.
  set (step4 := match Dict.get "time" out3 with Some _ => _ | None => _ end).
  destruct step4 as [out4|] eqn:E4; [|discriminate]. cbn [bind].
  assert (I4 : NoDup (map fst out4) /\
               (forall k, k <> "time" -> Dict.get k out4 = Dict.get k out3) /\
               forall v, Dict.get "time" out4 = Some v -> exists n, v = VInt n).
  { subst step4. destruct (Dict.get "time" out3) as [t|] eqn:Et.
    - destruct (field_try _ _) as [n|]; [|discriminate]. injection E4 as <-.
      split; [now apply keys_set_NoDup|]. split.
      + intros k Hk. now rewrite get_set_other.
      + intros v. rewrite get_set_same. intros [= <-]. now exists n.
    - injection E4 as <-. split; [assumption|]. split; [reflexivity|].
      intros v. rewrite Et. discriminate. }
  destruct I4 as (N4 & K4 & T4). clearbody step4. clear E4.
  set (step5 := match Dict.get "exp" out4 with Some _ => _ | None => _ end).
  destruct step5 as [out5|] eqn:E5; [|discriminate]. cbn [bind].
  assert (I5 : NoDup (map fst out5) /\
               (forall k, k <> "exp" -> Dict.get k out5 = Dict.get k out4) /\
               forall v, Dict.get "exp" out5 = Some v -> exists n, v = VInt n).
  { subst step5. destruct (Dict.get "exp" out4) as [t|] eqn:Et.
    - destruct (field_try _ _) as [n|]; [|discriminate]. injection E5 as <-.
      split; [now apply keys_set_NoDup|]. split.
      + intros k Hk. now rewrite get_set_other.
      + intros v. rewrite get_set_same. intros [= <-]. now exists n.
    - injection E5 as <-. split; [assumption|]. split; [reflexivity|].
      intros v. rewrite Et. discriminate. }
  destruct I5 as (N5 & K5 & T5). clearbody step5. clear E5.
  set (step6 := match Dict.get "sig" out5 with Some _ => _ | None => _ end).
  destruct step6 as [out6|] eqn:E6; [|discriminate]. cbn [bind].
  assert (I6 : NoDup (map fst out6) /\
               (forall k, k <> "sig" -> Dict.get k out6 = Dict.get k out5)).
  { subst step6. destruct (Dict.get "sig" out5) as [t|] eqn:Et.
    - destruct (field_try _ _) as [h|]; [|discriminate]. injection E6 as <-.
      split; [now apply keys_set_NoDup|].
      intros k Hk. now rewrite get_set_other.
    - injection E6 as <-. split; [assumption|]. reflexivity. }
  destruct I6 as (N6 & K6). intros [= <-].
  split; [assumption|].
  assert (Ka : Dict.get "amount" out6 = Dict.get "amount" out3)
    by (rewrite K6, K5, K4 by discriminate; reflexivity).
  assert (Km : Dict.get "message" out6 = Dict.get "message" out3)
    by (rewrite K6, K5, K4 by discriminate; reflexivity).
  assert (Ko : Dict.get "memo" out6 = Dict.get "memo" out3)
    by (rewrite K6, K5, K4 by discriminate; reflexivity).
  assert (Kt : Dict.get "time" out6 = Dict.get "time" out4)
    by (rewrite K6, K5 by discriminate; reflexivity).
  assert (Ke : Dict.get "exp" out6 = Dict.get "exp" out5)
    by (rewrite K6 by discriminate; reflexivity).
  rewrite Ka, Km, Ko, Kt, Ke. auto.
Qed.

(** X3. Every URI that [parse_bip21_URI] accepts decodes to a dictionary
    with no name twice, in which the amount, if there is one, is an integer
    that does not exceed the supply limit, [time] and [exp] are integers,
    and the memo is the message whenever there is a message. *)
Theorem decoded_uri_is_well_formed (uri : str) (out : Dict.t pyval) :
  parse_bip21_URI uri = Ret out ->
  NoDup (map fst out) /\
  (forall v, Dict.get "amount" out = Some v ->
     exists n, v = VInt n /\ n <= TOTAL_COIN_SUPPLY_LIMIT_IN_BTC * COIN) /\
  (forall m, Dict.get "message" out = Some m -> Dict.get "memo" out = Some m) /\
  (forall v, Dict.get "time" out = Some v -> exists n, v = VInt n) /\
  (forall v, Dict.get "exp" out = Some v -> exists n, v = VInt n).
Proof.
  unfold parse_bip21_URI.
  destruct (decode_fields uri) as [out'|] eqn:Ed; [|discriminate]. cbn [bind].
  destruct (match Dict.get "lightning" out' with Some _ => _ | None => _ end);
    [|discriminate].
  intros [= <-]. exact (decode_fields_shape _ Ed).
Qed.

End Decoded.

(** ** Building a URI *)

Lemma startswith_app (p s : str) : Py.startswith (p ++ s) p = true.
Proof.
  induction p as [|c p IH]; [apply startswith_nil|].
  cbn [app Py.startswith]. now rewrite chr_eqb_refl, IH.
Qed.

Section Building.
Context `{Bitcoin} `{Lightning} `{Util} `{Runtime}.

(** The loop over the extra parameters. *)
Lemma extra_parameters_loop (extra : Dict.t str) (acc : outcome (list str)) :
  fold_left (fun acc '(k, v) =>
      let* q := acc in
      if negb (Py.str_eqb k (Urllib.quote k))
      then Raise (Exception "illegal key for URI")
      else Ret (q ++ [k ++ "=" ++ Urllib.quote v]))
    extra acc =
  match acc with
  | Raise e => Raise e
  | Ret q =>
      if forallb (fun kv => Py.str_eqb (fst kv) (Urllib.quote (fst kv))) extra
      then Ret (q ++ map (fun kv => fst kv ++ "=" ++ Urllib.quote (snd kv)) extra)
      else Raise (Exception "illegal key for URI")
  end.
Proof.
  revert acc; induction extra as [|[k v] extra IH]; intros acc.
  - destruct acc; cbn [fold_left forallb map]; [now rewrite app_nil_r|reflexivity].
  - cbn [fold_left forallb map fst snd]. rewrite IH.
    destruct acc as [q|e]; cbn [bind]; [|reflexivity].
    destruct (Py.str_eqb k (Urllib.quote k)); cbn [negb andb]; [|reflexivity].
    now rewrite <- app_assoc.
Qed.

Lemma is_uri_bitcoin (rest : str) : is_uri ("bitcoin:" ++ rest) = true.
Proof.
  unfold is_uri. rewrite lower_app.
  change (Py.lower "bitcoin:") with (BITCOIN_BIP21_URI_SCHEME ++ ":").
  rewrite startswith_app. apply orb_true_r.
Qed.

(** What [create_bip21_uri] builds for a valid address. *)
Lemma create_bip21_uri_parts (addr : str) (amount_sat : option Z)
    (message : option str) (extra : option (Dict.t str)) :
  is_address addr = true ->
  let fields :=
    (match amount_sat with
     | Some n => if n =? 0 then [] else ["amount=" ++ format_satoshis_plain n]
     | None => []
     end) ++
    (match message with
     | Some m => if Py.nonempty m then ["message=" ++ Urllib.quote m] else []
     | None => []
     end) ++
    map (fun kv => fst kv ++ "=" ++ Urllib.quote (snd kv))
        (match extra with Some d => d | None => [] end) in
  create_bip21_uri addr amount_sat message extra =
    if forallb (fun kv => Py.str_eqb (fst kv) (Urllib.quote (fst kv)))
               (match extra with Some d => d | None => [] end)
    then Ret ("bitcoin:" ++ addr ++
              match fields with [] => [] | _ => "?" ++ Py.join "&" fields end)
    else Raise (Exception "illegal key for URI").
Proof.
  intros Hvalid fields. unfold create_bip21_uri. rewrite Hvalid. cbn [negb].
  rewrite extra_parameters_loop.
  destruct (forallb _ _); [|reflexivity]. cbn [bind].
  set (q := _ ++ map _ _).
  assert (Eq : q = fields).
  { subst q fields. rewrite app_assoc. f_equal.
    destruct amount_sat as [n|]; [destruct (n =? 0)|];
      destruct message as [m|]; try destruct (Py.nonempty m); reflexivity. }
  rewrite Eq. unfold Urllib.urlunparse.
  cbn [Urllib.scheme Urllib.netloc Urllib.path Urllib.params Urllib.query
       Urllib.fragment Py.nonempty].
  replace (Urllib.str_in BITCOIN_BIP21_URI_SCHEME Urllib.uses_netloc)
    with false by reflexivity.
  cbn [orb andb]. unfold BITCOIN_BIP21_URI_SCHEME. cbn [Py.nonempty].
  assert (Ej : Py.nonempty (Py.join "&" fields) =
               match fields with [] => false | _ => true end).
  { clear. assert (Hne : forall f, In f fields -> f <> []).
    { subst fields. intros f. rewrite !in_app_iff, in_map_iff.
      intros [Hf|[Hf|([k v] & <- & _)]].
      - destruct amount_sat as [n|]; [destruct (n =? 0)|]; try destruct Hf as [<-|[]];
          try destruct Hf. discriminate.
      - destruct message as [m|]; [destruct (Py.nonempty m)|];
          try destruct Hf as [<-|[]]; try destruct Hf. discriminate.
      - cbn [fst snd]. destruct k; discriminate. }
    clearbody fields. destruct fields as [|f [|g r]]; [reflexivity| |].
    + cbn [Py.join]. specialize (Hne f (or_introl eq_refl)). now destruct f.
    + cbn [Py.join]. specialize (Hne f (or_introl eq_refl)). now destruct f. }
  rewrite Ej. destruct fields; [now rewrite app_nil_r|].
  now rewrite <- !app_assoc.
Qed.

(** X4. The text [create_bip21_uri] returns is a URI exactly when the
    address is valid: it is empty for an invalid address, and starts with
    [bitcoin:] and the address otherwise. *)
Theorem created_uri_is_recognised (addr : str) (amount_sat : option Z)
    (message : option str) (extra : option (Dict.t str)) (uri : str) :
  create_bip21_uri addr amount_sat message extra = Ret uri ->
  is_uri uri = is_address addr /\
  (is_address addr = false -> uri = "") /\
  (is_address addr = true -> Py.startswith uri ("bitcoin:" ++ addr) = true).
Proof.
  destruct (is_address addr) eqn:Hvalid.
  - rewrite create_bip21_uri_parts by assumption.
    destruct (forallb _ _); [|discriminate]. intros [= <-].
    split; [apply is_uri_bitcoin|]. split; [discriminate|]. intros _.
    rewrite app_assoc. apply startswith_app.
  - unfold create_bip21_uri. rewrite Hvalid. intros [= <-].
    split; [reflexivity|]. split; [reflexivity|discriminate].
Qed.

(** X5. For a valid address, [create_bip21_uri] raises exactly when some
    extra parameter has a name that quoting would change; an invalid
    address is answered with the empty text before the names are looked
    at. *)
Theorem illegal_key_is_refused (addr : str) (amount_sat : option Z)
    (message : option str) (extra : Dict.t str) :
  (is_address addr = true ->
   (exists k v, In (k, v) extra /\ Urllib.quote k <> k) ->
   create_bip21_uri addr amount_sat message (Some extra) =
     Raise (Exception "illegal key for URI")) /\
  (is_address addr = true ->
   (forall k v, In (k, v) extra -> Urllib.quote k = k) ->
   exists uri, create_bip21_uri addr amount_sat message (Some extra) = Ret uri) /\
  (is_address addr = false ->
   create_bip21_uri addr amount_sat message (Some extra) = Ret "").
Proof.
  repeat split.
  - intros Hvalid (k & v & Hi & Hk).
    rewrite create_bip21_uri_parts by assumption.
    replace (forallb _ extra) with false; [reflexivity|].
    symmetry. apply not_true_is_false. rewrite forallb_forall. intros Hall.
    specialize (Hall _ Hi). cbn [fst] in Hall. apply str_eqb_eq in Hall. congruence.
  - intros Hvalid Hall.
    rewrite create_bip21_uri_parts by assumption.
    replace (forallb _ extra) with true; [eauto|].
    symmetry. apply forallb_forall. intros [k v] Hi. cbn [fst].
    apply str_eqb_eq. symmetry. eauto.
  - intros Hinvalid. unfold create_bip21_uri. now rewrite Hinvalid.
Qed.

End Building.

(** ** More URIs, parsed *)

Lemma quote_alnum (s : str) : forallb Py.isalnum s = true -> Urllib.quote s = s.
Proof.
  induction s as [|c s IH]; [reflexivity|].
  cbn [forallb]. rewrite andb_true_iff. intros [Hc Hs].
  rewrite quote_cons, (IH Hs). unfold quote_char, Urllib.always_safe.
  now rewrite Hc.
Qed.

Lemma alnum_ascii (c : ascii) : Py.isalnum c = true -> Py.isascii c = true.
Proof. by_cases_on_char c. Qed.

Lemma alnum_not_query_mark (c : ascii) :
  Py.isalnum c = true ->
  Py.chr_eqb "=" c = false /\ Py.chr_eqb "&" c = false /\
  Py.chr_eqb ":" c = false /\ Py.chr_eqb "," c = false /\
  Py.chr_eqb "010" c = false /\ Py.chr_eqb "<" c = false /\
  Py.chr_eqb ">" c = false /\ Py.chr_eqb "@" c = false.
Proof. by_cases_on_char c. Qed.

(** [urlparse] on [bitcoin:], an alphanumeric path and perhaps a query. *)
Lemma urlparse_bitcoin_uri (host_ok : str -> bool) (a : str) (q : option str) :
  forallb Py.isalnum a = true ->
  match q with
  | Some q => forallb (fun c => quoted_char c || Py.contains c "=&") q = true
  | None => True
  end ->
  Urllib.urlparse host_ok
    ("bitcoin:" ++ a ++ match q with Some q => "?" ++ q | None => [] end) =
    Ret {| Urllib.scheme := "bitcoin"; Urllib.netloc := ""; Urllib.path := a;
           Urllib.params := "";
           Urllib.query := match q with Some q => q | None => [] end;
           Urllib.fragment := "" |}.
Proof.
  intros Ha Hq.
  destruct a as [|a0 a'] eqn:Ea.
  - destruct q as [q|]; [|reflexivity].
    change ("bitcoin:" ++ [] ++ "?" ++ q) with ("bitcoin:" ++ "?" ++ q).
    unfold Urllib.urlparse.
    replace (Py.lstrip_by Urllib.c0_control_or_space ("bitcoin:" ++ "?" ++ q))
      with ("bitcoin:" ++ "?" ++ q) by reflexivity.
    rewrite filter_all.
    2:{ change ("bitcoin:" ++ "?" ++ q) with ("bitcoin:?" ++ q).
        rewrite forallb_app. apply andb_true_iff; split; [reflexivity|].
        eapply forallb_impl; [|exact Hq]. intros c Hc.
        apply (query_char_facts _ Hc). }
    replace (Urllib.split_scheme ("bitcoin:" ++ "?" ++ q))
      with (Some ("bitcoin" : str, "?" ++ q)) by reflexivity.
    replace (Py.startswith ("?" ++ q) "//") with false by reflexivity.
    cbn [bind]. rewrite partition_no_sep.
    2:{ apply contains_false_iff. change ("?" ++ q) with ("?"%char :: q).
        cbn [forallb]. apply andb_true_iff; split; [reflexivity|].
        eapply forallb_impl; [|exact Hq]. intros c Hc.
        now rewrite (proj2 (query_char_facts _ Hc)). }
    reflexivity.
  - rewrite <- Ea in *. assert (Hne : a <> []) by (subst a; discriminate).
    clear Ea. destruct q as [q|]; [now apply urlparse_built|].
    rewrite app_nil_r.
    assert (Haq : forallb quoted_char a = true)
      by (eapply forallb_impl; [|exact Ha]; intros c Hc; apply (alnum_facts _ Hc)).
    unfold Urllib.urlparse.
    replace (Py.lstrip_by Urllib.c0_control_or_space ("bitcoin:" ++ a))
      with ("bitcoin:" ++ a) by reflexivity.
    rewrite filter_all.
    2:{ rewrite forallb_app. apply andb_true_iff; split; [reflexivity|].
        eapply forallb_impl; [|exact Haq]. intros c Hc.
        apply (quoted_char_facts _ Hc). }
    replace (Urllib.split_scheme ("bitcoin:" ++ a))
      with (Some ("bitcoin" : str, a)) by reflexivity.
    assert (E4 : Py.startswith a "//" = false).
    { destruct a as [|c r]; [congruence|]. cbn [forallb] in Ha.
      apply andb_true_iff in Ha as [Hc _].
      cbn [Py.startswith]. now rewrite (proj2 (alnum_facts _ Hc)). }
    rewrite E4. cbn [bind].
    assert (Hh : Py.contains "#" a = false).
    { apply contains_false_iff. eapply forallb_impl; [|exact Haq].
      intros c Hc. now rewrite (proj1 (proj2 (proj2 (proj2 (quoted_char_facts _ Hc))))). }
    assert (Hm : Py.contains "?" a = false).
    { apply contains_false_iff. eapply forallb_impl; [|exact Haq].
      intros c Hc. now rewrite (proj1 (proj2 (proj2 (proj2 (proj2 (quoted_char_facts _ Hc)))))). }
    rewrite (partition_no_sep _ _ Hh), (partition_no_sep _ _ Hm).
    reflexivity.
Qed.

Section OneField.
Context `{Runtime}.

(** The query of one field [name=value], the value quoted. *)
Lemma parse_qsl_single (k v : str) :
  forallb Py.isalnum k = true -> v <> [] -> forallb Py.isascii v = true ->
  Urllib.parse_qsl utf8_decode (k ++ "=" ++ Urllib.quote v) = [(k, v)].
Proof.
  intros Hk Hne Hv. unfold Urllib.parse_qsl.
  replace (Py.nonempty (k ++ "=" ++ Urllib.quote v)) with true
    by (destruct k; reflexivity).
  rewrite split_no_sep.
  2:{ apply contains_false_iff. rewrite forallb_app. apply andb_true_iff; split.
      - eapply forallb_impl; [|exact Hk]. intros c Hc.
        now rewrite (proj1 (proj2 (alnum_not_query_mark _ Hc))).
      - change ("=" ++ Urllib.quote v) with ("="%char :: Urllib.quote v).
        cbn [forallb]. apply andb_true_iff; split; [reflexivity|].
        eapply forallb_impl; [|apply quote_quoted]. intros c Hc.
        now rewrite (proj1 (proj2 (proj2 (proj2 (proj2 (proj2 (quoted_char_facts _ Hc))))))). }
  cbn [flat_map].
  change (k ++ "=" ++ Urllib.quote v) with (k ++ "="%char :: Urllib.quote v).
  rewrite partition_app_sep.
  2:{ apply contains_false_iff. eapply forallb_impl; [|exact Hk]. intros c Hc.
      now rewrite (proj1 (alnum_not_query_mark _ Hc)). }
  replace (Py.nonempty (Urllib.quote v)) with true
    by (destruct v as [|c m]; [congruence|];
        rewrite quote_cons; unfold quote_char; now destruct (_ || _)).
  rewrite (unquote_quote _ Hv).
  rewrite <- (quote_alnum _ Hk) at 1.
  rewrite unquote_quote by (eapply forallb_impl; [|exact Hk]; apply alnum_ascii).
  now rewrite app_nil_r.
Qed.

Lemma single_field_chars (k v : str) :
  forallb Py.isalnum k = true ->
  forallb (fun c => quoted_char c || Py.contains c "=&")
          (k ++ "=" ++ Urllib.quote v) = true.
Proof.
  intros Hk. rewrite forallb_app. apply andb_true_iff; split.
  - eapply forallb_impl; [|exact Hk]. intros c Hc.
    now rewrite (proj1 (alnum_facts _ Hc)).
  - change ("=" ++ Urllib.quote v) with ("="%char :: Urllib.quote v).
    cbn [forallb]. apply andb_true_iff; split; [reflexivity|].
    eapply forallb_impl; [|apply quote_quoted]. now intros c ->.
Qed.

End OneField.

Section MoreUris.
Context `{Bitcoin} `{Lightning} `{Util} `{Runtime}.

(** X6. An extra parameter comes back: for a valid address and one extra
    parameter whose name is alphanumeric and is not one of the fields that
    [parse_bip21_URI] decodes itself, with a value of printable ASCII, the
    URI that [create_bip21_uri] builds decodes to that parameter and the
    address. *)
Theorem extra_parameter_round_trip (a k v : str) :
  is_address a = true -> a <> [] -> forallb Py.isalnum a = true ->
  forallb Py.isalnum k = true ->
  ~ In k ["amount"; "message"; "time"; "exp"; "sig"; "lightning"; "address"] ->
  v <> [] -> forallb printable v = true ->
  exists uri,
    create_bip21_uri a None None (Some [(k, v)]) = Ret uri /\
    parse_bip21_URI uri = Ret [(k, VStr v); ("address", VStr a)].
Proof.
  intros Hvalid Hne Ha Hk Hres Hvne Hv.
  assert (Hascii : forallb Py.isascii v = true)
    by (eapply forallb_impl; [|exact Hv]; apply printable_ascii).
  assert (Hneq : forall r, In r ["amount"; "message"; "time"; "exp"; "sig";
                                  "lightning"; "address"] -> Py.str_eqb k r = false).
  { intros r Hr. apply str_eqb_neq. intros ->. contradiction. }
  exists ("bitcoin:" ++ a ++ "?" ++ k ++ "=" ++ Urllib.quote v); split.
  - rewrite create_bip21_uri_parts by assumption.
    cbn [forallb fst snd map app Py.join]. rewrite (quote_alnum _ Hk), str_eqb_refl.
    reflexivity.
  - unfold parse_bip21_URI.
    rewrite decode_fields_built; try assumption; [|now apply single_field_chars].
    unfold Urllib.parse_qs. rewrite parse_qsl_single by assumption.
    cbn [fold_left Dict.get Dict.set check_duplicate_keys length Nat.eqb negb bind
         map hd].
    repeat (progress
      (cbn [Dict.get Dict.set bind Py.str_eqb Py.chr_eqb Ascii.eqb Bool.eqb andb];
       rewrite ?Hneq by (cbn [In]; tauto))).
    reflexivity.
Qed.

(** X8. An address in the path of a URI is validated; an [address] field
    of the query, with no path, is not: it is handed back as the address
    whatever it is. *)
Theorem query_address_is_not_validated (g : str) :
  g <> [] -> forallb Py.isalnum g = true ->
  parse_bip21_URI ("bitcoin:" ++ g) =
    (if is_address g then Ret [("address", VStr g)]
     else Raise (InvalidBitcoinURI (InvalidAddress g))) /\
  parse_bip21_URI ("bitcoin:?address=" ++ g) = Ret [("address", VStr g)].
Proof.
  intros Hne Hg.
  assert (Hnq : Py.contains "?" g = false).
  { apply contains_false_iff. eapply forallb_impl; [|exact Hg]. intros c Hc.
    destruct (alnum_facts _ Hc) as [Hq _].
    now rewrite (proj1 (proj2 (proj2 (proj2 (proj2 (quoted_char_facts _ Hq)))))). }
  split.
  - unfold parse_bip21_URI, decode_fields.
    replace (Py.contains ":" ("bitcoin:" ++ g)) with true by reflexivity.
    cbn [negb].
    pose proof (@urlparse_bitcoin_uri bracketed_host_ok g None Hg I) as Eu.
    rewrite app_nil_r in Eu. rewrite Eu. cbn [bind Urllib.scheme Urllib.path Urllib.query].
    replace (Py.str_eqb (Py.lower "bitcoin") BITCOIN_BIP21_URI_SCHEME) with true
      by reflexivity.
    cbn [negb]. rewrite (partition_no_sep _ _ Hnq). cbn [bind].
    replace (Urllib.parse_qs utf8_decode "") with ([] : Dict.t (list str))
      by reflexivity.
    cbn [check_duplicate_keys bind map].
    replace (Py.nonempty g) with true by (destruct g; [congruence|reflexivity]).
    destruct (is_address g); reflexivity.
  - unfold parse_bip21_URI, decode_fields.
    replace (Py.contains ":" ("bitcoin:?address=" ++ g)) with true by reflexivity.
    cbn [negb].
    assert (Hq : forallb (fun c => quoted_char c || Py.contains c "=&")
                         ("address" ++ "=" ++ Urllib.quote g) = true)
      by (now apply single_field_chars).
    pose proof (@urlparse_bitcoin_uri bracketed_host_ok []
                  (Some ("address" ++ "=" ++ Urllib.quote g)) eq_refl Hq) as Eu.
    rewrite (quote_alnum _ Hg) in Eu.
    change ("bitcoin:" ++ [] ++ "?" ++ "address" ++ "=" ++ g)
      with ("bitcoin:?address=" ++ g) in Eu.
    rewrite Eu. cbn [bind Urllib.scheme Urllib.path Urllib.query].
    replace (Py.str_eqb (Py.lower "bitcoin") BITCOIN_BIP21_URI_SCHEME) with true
      by reflexivity.
    cbn [negb Py.partition bind].
    assert (Epq : Urllib.parse_qs utf8_decode ("address" ++ "=" ++ g) =
                  [("address", [g])]).
    { assert (Hga : forallb Py.isascii g = true)
        by (eapply forallb_impl; [|exact Hg]; apply alnum_ascii).
      pose proof (@parse_qsl_single _ "address" g eq_refl Hne Hga) as E.
      rewrite (quote_alnum _ Hg) in E.
      unfold Urllib.parse_qs. rewrite E. reflexivity. }
    rewrite Epq. reflexivity.
Qed.

End MoreUris.

(** ** The scheme, in any letter case *)

Lemma lower_char_letter (c x : ascii) :
  Py.lower_char c = x -> Py.islower x = true ->
  c = x \/ c = ascii_of_N (N_of_ascii x - 32).
Proof.
  intros <-. destruct c as [[] [] [] [] [] [] [] []]; vm_compute;
    intros; auto; discriminate.
Qed.

Lemma urlparse_scheme_case (host_ok : str -> bool) (s rest : str) :
  Py.lower s = "bitcoin" ->
  Py.contains ":" (s ++ ":" ++ rest) = true /\
  Urllib.urlparse host_ok (s ++ ":" ++ rest) =
    Urllib.urlparse host_ok ("bitcoin:" ++ rest).
Proof.
  intros Hs.
  destruct s as [|c1 [|c2 [|c3 [|c4 [|c5 [|c6 [|c7 [|c8 s]]]]]]]]; try discriminate.
  injection Hs as H1 H2 H3 H4 H5 H6 H7.
  destruct (@lower_char_letter _ _ H1 eq_refl) as [->| ->];
  destruct (@lower_char_letter _ _ H2 eq_refl) as [->| ->];
  destruct (@lower_char_letter _ _ H3 eq_refl) as [->| ->];
  destruct (@lower_char_letter _ _ H4 eq_refl) as [->| ->];
  destruct (@lower_char_letter _ _ H5 eq_refl) as [->| ->];
  destruct (@lower_char_letter _ _ H6 eq_refl) as [->| ->];
  destruct (@lower_char_letter _ _ H7 eq_refl) as [->| ->];
  split; reflexivity.
Qed.

Section SchemeCase.
Context `{Bitcoin} `{Lightning} `{Util} `{Runtime}.

(** X7. The scheme of a URI is read without regard to letter case:
    [BITCOIN:], [Bitcoin:] and the like decode as [bitcoin:] does. *)
Theorem scheme_case_is_ignored (s rest : str) :
  Py.lower s = "bitcoin" ->
  parse_bip21_URI (s ++ ":" ++ rest) = parse_bip21_URI ("bitcoin:" ++ rest).
Proof.
  intros Hs.
  destruct (@urlparse_scheme_case bracketed_host_ok s rest Hs) as [Hc Hu].
  unfold parse_bip21_URI, decode_fields.
  rewrite Hc, Hu.
  replace (Py.contains ":" ("bitcoin:" ++ rest)) with true by reflexivity.
  reflexivity.
Qed.

End SchemeCase.

(** ** Classification, for every text *)

Lemma lstrip_by_app_all (p : ascii -> bool) (l s : str) :
  forallb p l = true -> Py.lstrip_by p (l ++ s) = Py.lstrip_by p s.
Proof.
  induction l as [|c l IH]; [reflexivity|].
  cbn [forallb app Py.lstrip_by]. rewrite andb_true_iff. intros [-> Hl]. auto.
Qed.

Lemma lstrip_by_app_keep (p : ascii -> bool) (u v : str) :
  Py.lstrip_by p u <> [] -> Py.lstrip_by p (u ++ v) = Py.lstrip_by p u ++ v.
Proof.
  induction u as [|a u IH]; intros Hu; [now elim Hu|].
  cbn [app Py.lstrip_by] in *. destruct (p a); [now apply IH|reflexivity].
Qed.

Lemma rstrip_by_app_all (p : ascii -> bool) (s r : str) :
  forallb p r = true -> Py.rstrip_by p (s ++ r) = Py.rstrip_by p s.
Proof.
  intros Hr. unfold Py.rstrip_by. rewrite rev_app_distr.
  now rewrite lstrip_by_app_all by now apply forallb_rev.
Qed.

Lemma strip_padding (l s r : str) :
  forallb Py.isspace l = true -> forallb Py.isspace r = true ->
  Py.strip (l ++ s ++ r) = Py.strip s.
Proof.
  intros Hl Hr. unfold Py.strip. rewrite lstrip_by_app_all by assumption.
  destruct (Py.lstrip_by Py.isspace s) as [|c u] eqn:E.
  - assert (Hs : forallb Py.isspace s = true).
    { destruct (lstrip_by_split Py.isspace s) as (z & Ez & Hz).
      rewrite E, app_nil_r in Ez. now subst z. }
    rewrite lstrip_by_all; [reflexivity|].
    rewrite forallb_app, Hs, Hr. reflexivity.
  - rewrite lstrip_by_app_keep by (rewrite E; discriminate).
    rewrite E. now apply rstrip_by_app_all.
Qed.

(** The leaves of the case analysis of [parse]. *)
Ltac silent_leaf :=
  intros _; split;
  [ let Hv := fresh in let He := fresh in
    intros [Hv He]; cbn in Hv, He; discriminate
  | discriminate ].

Ltac family_leaf :=
  intros _; split;
  [ intros t0 Hin; cbn in Hin;
    repeat (destruct Hin as [Hin|Hin];
            [try discriminate; injection Hin as <-; reflexivity|]);
    destruct Hin
  | intros t0 Ht; cbn in Ht; try discriminate; injection Ht as <-;
    cbn; tauto ].

Section Classification.
Context `{Bitcoin} `{Lightning} `{Util} `{Config} `{Runtime}.

(** X9. Spaces, tabs and line ends around a text do not count: the text
    is classified as it is without them. *)
Theorem outer_space_is_ignored (l text r : str) (self : PaymentIdentifier) :
  forallb Py.isspace l = true -> forallb Py.isspace r = true ->
  parse (l ++ text ++ r) self = parse text self.
Proof.
  intros Hl Hr. unfold parse. now rewrite strip_padding.
Qed.

(** [parse], with [_parse_as_multiline] replaced by what it does. *)
Lemma parse_cases (text : str) (self : PaymentIdentifier) :
  let t := Py.strip text in
  let lines := batch_lines t in
  let self1 :=
    if (1 <? length lines)%nat ||
       match successes lines with [] => false | _ => true end
    then set_error (match failures 0 lines with
                    | [] => None
                    | es => Some (ErrorLines es)
                    end) self
    else self in
  parse text self =
    if negb (Py.nonempty t) then (Ret tt, self) else
    match successes lines with
    | (_ :: _) as outputs =>
        (Ret tt, set_multiline_outputs (Some outputs)
                   (set__type (Some "multiline") self1))
    | [] =>
        match maybe_extract_lightning_payment_identifier t with
        | Some x =>
            if Py.startswith x "lnurl" then
              match decode_lnurl x with
              | Ret u => (Ret tt, set_lnurl (Some u) (set__type (Some "lnurl") self1))
              | Raise e => (Ret tt, set_error (Some (ErrorLightning e))
                                      (set__type (Some "lnurl") self1))
              end
            else (Ret tt, set_bolt11 (Some x) (set__type (Some "bolt11") self1))
        | None =>
            if Py.startswith (Py.lower t) "bitcoin:" then
              match parse_bip21_URI t with
              | Raise (InvalidBitcoinURI _) => (Raise (NameError "_"), self1)
              | Raise e => (Raise e, self1)
              | Ret out =>
                  (Ret tt, set_bip70 (Dict.get "r" out)
                             (set_bip21 (Some out) (set__type (Some "bip21") self1)))
              end
            else
              match parse_output t with
              | Some ((_ :: _) as scriptpubkey) =>
                  (Ret tt, set_spk (Some scriptpubkey) (set__type (Some "spk") self1))
              | _ =>
                  if Re.match_email t then
                    (Ret tt, set_openalias (Some t) (set__type (Some "alias") self1))
                  else
                    (Ret tt, set_error
                       (Some (ErrorUnknown
                                (if (100 <? length t)%nat then firstn 100 t ++ "..."
                                 else t))) self1)
              end
        end
    end.
Proof.
  cbv zeta. unfold parse. rewrite parse_as_multiline_spec.
  destruct (negb (Py.nonempty (Py.strip text))); [reflexivity|].
  destruct (successes (batch_lines (Py.strip text))); reflexivity.
Qed.

(** X10. A text that is not blank never goes unanswered: when the
    constructor returns, the object has a type or an error; it has neither
    only for a blank text. *)
Theorem classification_is_never_silent (text : str) :
  fst (init text) = Ret tt ->
  (is_valid (snd (init text)) = false /\ error (snd (init text)) = None <->
   Py.strip text = []).
Proof.
  unfold init. rewrite parse_cases. cbv zeta.
  set (t := Py.strip text). set (lines := batch_lines t).
  match goal with
  | |- context [if ?c then set_error ?e (fresh text) else fresh text] =>
      set (self1 := if c then set_error e (fresh text) else fresh text)
  end.
  destruct t as [|c t'] eqn:Et.
  { intros _. cbn. tauto. }
  cbn [Py.nonempty negb].
  destruct (successes lines); [|silent_leaf].
  destruct (maybe_extract_lightning_payment_identifier _).
  { destruct (Py.startswith _ "lnurl"); [|silent_leaf].
    destruct (decode_lnurl _); silent_leaf. }
  destruct (Py.startswith _ "bitcoin:").
  { destruct (parse_bip21_URI _) as [out|[]]; try discriminate.
    silent_leaf. }
  destruct (parse_output _) as [[|]|]; try silent_leaf.
  - destruct (Re.match_email _); silent_leaf.
  - destruct (Re.match_email _); silent_leaf.
Qed.

(** X11. The type and the family attributes agree: when the constructor
    returns, an attribute of a family is set only if the type is the type
    of that family, so that no two are set; and a type comes with its
    attribute, but for an LNURL that does not decode, which comes with an
    error. *)
Theorem family_matches_type (text : str) :
  fst (init text) = Ret tt ->
  let p := snd (init text) in
  (forall t, In (t, true) (family_fields p) -> _type p = Some t) /\
  (forall t, _type p = Some t ->
     In (t, true) (family_fields p) \/
     (t = "lnurl" /\ In (t, false) (family_fields p) /\ error p <> None)).
Proof.
  unfold init. rewrite parse_cases. cbv zeta.
  set (t := Py.strip text). set (lines := batch_lines t).
  assert (Hself1 : forall e, family_fields (set_error e (fresh text)) =
                             family_fields (fresh text)) by reflexivity.
  match goal with
  | |- context [if ?c then set_error ?e (fresh text) else fresh text] =>
      set (self1 := if c then set_error e (fresh text) else fresh text)
  end.
  assert (E1 : exists e, self1 = set_error e (fresh text)).
  { subst self1. destruct (_ || _); eexists; reflexivity. }
  destruct E1 as [e1 ->]. clearbody t lines.
  destruct (negb (Py.nonempty t)); [family_leaf|].
  destruct (successes lines); [|family_leaf].
  destruct (maybe_extract_lightning_payment_identifier _).
  { destruct (Py.startswith _ "lnurl"); [|family_leaf].
    destruct (decode_lnurl _); [family_leaf|].
    intros _; split.
    - intros t0 Hin; cbn in Hin.
      repeat (destruct Hin as [Hin|Hin]; [discriminate|]). destruct Hin.
    - intros t0 Ht; cbn in Ht. injection Ht as <-. right.
      split; [reflexivity|]. split; [cbn; tauto|discriminate]. }
  destruct (Py.startswith _ "bitcoin:").
  { destruct (parse_bip21_URI _) as [out|[]]; try discriminate. family_leaf. }
  destruct (parse_output _) as [[|]|]; try family_leaf.
  - destruct (Re.match_email _); family_leaf.
  - destruct (Re.match_email _); family_leaf.
Qed.

End Classification.

(** ** Recipients and amounts *)

Lemma digit_value_bound (c : ascii) :
  Py.isdigit c = true -> 0 <= Decimal.digit_value c <= 9.
Proof.
  unfold Decimal.digit_value, Py.isdigit, Py.between.
  rewrite andb_true_iff, !Z.leb_le. lia.
Qed.

Lemma digits_value_below (ds : str) (acc : Z) :
  forallb Py.isdigit ds = true -> 0 <= acc ->
  fold_left (fun a c => 10 * a + Decimal.digit_value c) ds acc <
    (acc + 1) * 10 ^ Z.of_nat (length ds).
Proof.
  revert acc; induction ds as [|c ds IH]; intros acc Hd Ha.
  - cbn [fold_left length Z.of_nat]. lia.
  - cbn [forallb] in Hd. apply andb_true_iff in Hd as [Hc Hd].
    pose proof (digit_value_bound _ Hc) as Hv.
    cbn [fold_left length]. rewrite Nat2Z.inj_succ, Z.pow_succ_r by lia.
    specialize (IH (10 * acc + Decimal.digit_value c) Hd ltac:(lia)).
    assert (Hp : 0 < 10 ^ Z.of_nat (length ds)) by (apply Z.pow_pos_nonneg; lia).
    nia.
Qed.

(** A product of at most 28 digits and a small exponent is exact, also
    for the exponents of an amount in any unit. *)
Lemma to_int_nonneg (c k : Z) :
  0 <= c -> 0 <= k ->
  Decimal.to_int (Decimal.Finite c (- k)) = Ret (c / 10 ^ k).
Proof.
  intros Hc Hk. unfold Decimal.to_int.
  destruct (Z.leb_spec 0 (- k)) as [Hz|Hz].
  - assert (k = 0) by lia. subst k. change (- 0) with 0. change (10 ^ 0) with 1.
    now rewrite Z.mul_1_r, Z.div_1_r.
  - rewrite Z.opp_involutive, Z.quot_div_nonneg;
      [reflexivity|assumption|apply Z.pow_pos_nonneg; lia].
Qed.

Section Amounts.
Context `{Bitcoin} `{Lightning} `{Util} `{Config} `{Runtime}.

(** X12. [parse_output] resolves addresses and nothing else: what it
    returns is the script of a valid address, or the empty script for a
    blank text.  A text of script words is never resolved, because the
    loop of [parse_script] stops at its first word. *)
Theorem only_addresses_resolve (x : str) (b : bytes) :
  parse_output x = Some b ->
  (exists address script,
     parse_address x = Ret address /\ is_address address = true /\
     address_to_script address = Ret script /\
     Builtins.bytes_fromhex script = Ret b) \/
  (b = [] /\ Py.split_ws x = []).
Proof.
  unfold parse_output.
  destruct (parse_address x) as [address|] eqn:Ea; cbn [bind].
  - assert (Hvalid : is_address address = true).
    { unfold parse_address in Ea. destruct (is_address _) eqn:E; [|discriminate].
      now injection Ea as <-. }
    destruct (address_to_script address) as [script|] eqn:Es; cbn [bind].
    + destruct (Builtins.bytes_fromhex script) as [b'|] eqn:Eb.
      * intros [= <-]. left. now exists address, script.
      * unfold parse_script. destruct (Py.split_ws x) as [|word ws].
        -- cbn. intros [= <-]. now right.
        -- cbn [parse_script_words]. destruct (Py.str_eqb _ _); [discriminate|].
           destruct (Builtins.bytes_fromhex word); discriminate.
    + unfold parse_script. destruct (Py.split_ws x) as [|word ws].
      * cbn. intros [= <-]. now right.
      * cbn [parse_script_words]. destruct (Py.str_eqb _ _); [discriminate|].
        destruct (Builtins.bytes_fromhex word); discriminate.
  - unfold parse_script. destruct (Py.split_ws x) as [|word ws].
    + cbn. intros [= <-]. now right.
    + cbn [parse_script_words]. destruct (Py.str_eqb _ _); [discriminate|].
      destruct (Builtins.bytes_fromhex word); discriminate.
Qed.

(** X13. An amount written as a plain numeral is scaled by the unit of the
    wallet and cut to a whole number of minor units: decimals beyond the
    unit are dropped, not refused and not rounded. *)
Theorem amount_is_scaled_and_cut (whole fraction : str) :
  whole <> [] ->
  forallb Py.isdigit whole = true -> forallb Py.isdigit fraction = true ->
  (length fraction <= 8)%nat ->
  (length whole + length fraction + get_decimal_point <= 28)%nat ->
  is_max_spend
    (VStr (whole ++ match fraction with [] => [] | _ => "." ++ fraction end)) = false ->
  parse_amount (whole ++ match fraction with [] => [] | _ => "." ++ fraction end) =
    Ret (VInt (Decimal.digits_value (whole ++ fraction) *
               10 ^ Z.of_nat get_decimal_point /
               10 ^ Z.of_nat (length fraction))).
Proof.
  intros Hne Hw Hf Hlen Hsize Hmax.
  set (x := whole ++ match fraction with [] => [] | _ => "." ++ fraction end) in *.
  set (c := Decimal.digits_value (whole ++ fraction)).
  set (dp := Z.of_nat get_decimal_point).
  set (k := Z.of_nat (length fraction)).
  assert (Hd : forallb Py.isdigit (whole ++ fraction) = true)
    by (rewrite forallb_app, Hw, Hf; reflexivity).
  assert (Hc0 : 0 <= c) by (apply digits_value_nonneg; [assumption|lia]).
  assert (Hc1 : c < 10 ^ Z.of_nat (length (whole ++ fraction))).
  { pose proof (@digits_value_below (whole ++ fraction) 0 Hd ltac:(lia)) as Hb.
    unfold c, Decimal.digits_value. lia. }
  rewrite length_app, Nat2Z.inj_add in Hc1.
  assert (Hdp : 0 <= dp) by (subst dp; lia).
  assert (Hpdp : 0 < 10 ^ dp) by (apply Z.pow_pos_nonneg; lia).
  assert (Hprod : 0 <= 10 ^ dp * c < 10 ^ 28).
  { split; [nia|].
    assert (Hle : 10 ^ dp * 10 ^ (Z.of_nat (length whole) + Z.of_nat (length fraction))
                  <= 10 ^ 28).
    { rewrite <- Z.pow_add_r by lia. apply Z.pow_le_mono_r; lia. }
    nia. }
  assert (Hx : forallb Re.amount_char x = true).
  { subst x. rewrite forallb_app. apply andb_true_iff; split.
    - now apply (forallb_impl _ _ _ digit_is_amount_char).
    - destruct fraction; [reflexivity|].
      apply (forallb_impl _ _ _ digit_is_amount_char) in Hf. exact Hf. }
  assert (Hstrip : Py.strip x = x).
  { apply strip_no_space. eapply forallb_impl; [|exact Hx]. intros ch Hch.
    now rewrite (proj1 (amount_char_facts _ Hch)). }
  unfold parse_amount. rewrite Hstrip.
  replace (Py.nonempty x) with true
    by (subst x; destruct whole; [congruence|reflexivity]).
  cbn [negb]. rewrite Hmax.
  subst x. rewrite of_str_numeral; try assumption.
  2:{ fold c. split; [assumption|].
      assert (10 ^ (Z.of_nat (length whole) + Z.of_nat (length fraction)) <= 10 ^ 28)
        by (apply Z.pow_le_mono_r; lia).
      lia. }
  fold c k. cbn [bind try_except]. unfold Decimal.mul, Decimal.of_int.
  fold dp. rewrite Z.add_0_l, finalize_exact by (subst k; lia).
  cbn [bind]. rewrite to_int_nonneg by (subst k; lia).
  cbn [bind]. now rewrite (Z.mul_comm (10 ^ dp) c).
Qed.

(** X14. The line errors of a batch are the lines that fail, no more and
    no less: each error carries the index of its line among the lines that
    are not empty, the line without the spaces around it, and the exception
    of that line; every failing line has its error; and this list is what
    the object keeps as its error when the text has several lines or some
    line parses. *)
Theorem line_errors_are_the_failing_lines (text : str) (self : PaymentIdentifier) :
  let lines := batch_lines text in
  let es := failures 0 lines in
  (forall e, In e es ->
     exists line,
       nth_error lines (idx e) = Some line /\ line_content e = Py.strip line /\
       parse_address_and_amount line = Raise (exc e) /\ is_multiline e = true) /\
  (forall j line ex,
     nth_error lines j = Some line -> parse_address_and_amount line = Raise ex ->
     In {| idx := j; line_content := Py.strip line; exc := ex; is_multiline := true |}
        es) /\
  ((1 < length lines)%nat \/ successes lines <> [] ->
   error (snd (_parse_as_multiline text self)) =
     match es with [] => None | _ => Some (ErrorLines es) end).
Proof.
  cbv zeta. set (lines := batch_lines text).
  assert (Hsound : forall ls i e, In e (failures i ls) ->
            exists line, (i <= idx e)%nat /\
              nth_error ls (idx e - i) = Some line /\
              line_content e = Py.strip line /\
              parse_address_and_amount line = Raise (exc e) /\
              is_multiline e = true).
  { induction ls as [|l ls IH]; intros i e Hin; [destruct Hin|].
    cbn [failures] in Hin.
    destruct (parse_address_and_amount l) as [o|ex] eqn:El.
    - destruct (IH _ _ Hin) as (line & Hi & Hn & Hrest).
      exists line. split; [lia|]. split; [|assumption].
      replace (idx e - i)%nat with (S (idx e - S i)) by lia. exact Hn.
    - destruct Hin as [<-|Hin].
      + exists l. cbn [idx line_content exc is_multiline].
        rewrite Nat.sub_diag. auto.
      + destruct (IH _ _ Hin) as (line & Hi & Hn & Hrest).
        exists line. split; [lia|]. split; [|assumption].
        replace (idx e - i)%nat with (S (idx e - S i)) by lia. exact Hn. }
  assert (Hcomplete : forall ls i j line ex,
            nth_error ls j = Some line -> parse_address_and_amount line = Raise ex ->
            In {| idx := (i + j)%nat; line_content := Py.strip line; exc := ex;
                  is_multiline := true |} (failures i ls)).
  { induction ls as [|l ls IH]; intros i j line ex Hn Hl; [now destruct j|].
    cbn [failures]. destruct j as [|j].
    - injection Hn as ->. rewrite Hl, Nat.add_0_r. now left.
    - cbn [nth_error] in Hn. specialize (IH (S i) j line ex Hn Hl).
      replace (S i + j)%nat with (i + S j)%nat in IH by lia.
      destruct (parse_address_and_amount l); [assumption|now right]. }
  repeat split.
  - intros e Hin. destruct (Hsound _ _ _ Hin) as (line & _ & Hn & Hrest).
    rewrite Nat.sub_0_r in Hn. now exists line.
  - intros j line ex Hn Hl. exact (Hcomplete lines 0%nat j line ex Hn Hl).
  - intros Hcond. rewrite parse_as_multiline_spec. fold lines. cbn [snd].
    replace ((1 <? length lines)%nat ||
             match successes lines with [] => false | _ => true end) with true.
    + cbn [error set_error]. now destruct (failures 0 lines).
    + symmetry. destruct Hcond as [Hlen|Hs].
      * now rewrite (proj2 (Nat.ltb_lt _ _) Hlen).
      * destruct (successes lines); [congruence|apply orb_true_r].
Qed.

End Amounts.

(** ** Classification, family by family *)

Lemma startswith_contains (c : ascii) (s p : str) :
  Py.startswith s p = true -> Py.contains c p = true -> Py.contains c s = true.
Proof.
  revert s; induction p as [|x p IH]; intros s Hs Hc; [discriminate|].
  destruct s as [|y s]; [discriminate|].
  cbn [Py.startswith] in Hs. apply andb_true_iff in Hs as [Hxy Hs].
  apply chr_eqb_eq in Hxy. subst y.
  cbn [Py.contains existsb] in *. destruct (Py.chr_eqb c x); [reflexivity|].
  cbn [orb] in *. now apply IH.
Qed.

Lemma lower_char_alnum (c : ascii) : Py.isalnum (Py.lower_char c) = Py.isalnum c.
Proof. by_cases_on_char c. Qed.

Lemma lower_alnum (s : str) :
  forallb Py.isalnum s = true -> forallb Py.isalnum (Py.lower s) = true.
Proof.
  unfold Py.lower. induction s as [|c s IH]; [reflexivity|].
  cbn [forallb map]. rewrite !andb_true_iff, lower_char_alnum. tauto.
Qed.

Lemma alnum_no_mark (c : ascii) (s : str) :
  forallb Py.isalnum s = true -> Py.isalnum c = false -> Py.contains c s = false.
Proof. intros Hs Hc. now apply (contains_false_of Py.isalnum). Qed.

Lemma alnum_stripped (s : str) : forallb Py.isalnum s = true -> Py.strip s = s.
Proof.
  intros Hs. apply strip_no_space. eapply forallb_impl; [|exact Hs].
  intros c Hc. now rewrite (alnum_not_space _ Hc).
Qed.

Lemma match_alias_alnum (s : str) :
  forallb Py.isalnum s = true -> Re.match_alias s = None.
Proof.
  intros Hs. apply forallb_rev in Hs. unfold Re.match_alias.
  destruct (rev s) as [|z r]; [reflexivity|].
  cbn [forallb] in Hs. apply andb_true_iff in Hs as [Hz _].
  revert Hz. destruct z as [[] [] [] [] [] [] [] []]; intros Hz;
    try discriminate Hz; reflexivity.
Qed.

Lemma bitcoin_is_not_lightning (s : str) :
  Py.startswith s "bitcoin:" = true ->
  Py.startswith s "ln" = false /\ Py.startswith s "lightning:ln" = false.
Proof.
  destruct s as [|c s]; [discriminate|]. cbn [Py.startswith].
  rewrite andb_true_iff. intros [Hc _]. apply chr_eqb_eq in Hc. subst c.
  split; reflexivity.
Qed.

Section Families.
Context `{Bitcoin} `{Lightning} `{Util} `{Config} `{Runtime}.

(** One line without a comma is no batch, and leaves the object alone. *)
Lemma one_plain_line (t : str) :
  t <> [] -> Py.contains "010" t = false -> Py.contains "," t = false ->
  batch_lines t = [t] /\ successes [t] = [] /\
  exists e, failures 0 [t] = [e].
Proof.
  intros Hne Hlf Hcomma. unfold batch_lines.
  rewrite (split_no_sep _ _ Hlf). cbn [filter].
  replace (Py.nonempty t) with true by (destruct t; [congruence|reflexivity]).
  split; [reflexivity|]. cbn [successes failures].
  unfold parse_address_and_amount. rewrite (split_no_sep _ _ Hcomma).
  split; [reflexivity|]. eexists; reflexivity.
Qed.

(** [parse] on one line without a comma. *)
Lemma parse_plain (text : str) (self : PaymentIdentifier) :
  let t := Py.strip text in
  t <> [] -> Py.contains "010" t = false -> Py.contains "," t = false ->
  parse text self =
    match maybe_extract_lightning_payment_identifier t with
    | Some x =>
        if Py.startswith x "lnurl" then
          match decode_lnurl x with
          | Ret u => (Ret tt, set_lnurl (Some u) (set__type (Some "lnurl") self))
          | Raise e => (Ret tt, set_error (Some (ErrorLightning e))
                                  (set__type (Some "lnurl") self))
          end
        else (Ret tt, set_bolt11 (Some x) (set__type (Some "bolt11") self))
    | None =>
        if Py.startswith (Py.lower t) "bitcoin:" then
          match parse_bip21_URI t with
          | Raise (InvalidBitcoinURI _) => (Raise (NameError "_"), self)
          | Raise e => (Raise e, self)
          | Ret out =>
              (Ret tt, set_bip70 (Dict.get "r" out)
                         (set_bip21 (Some out) (set__type (Some "bip21") self)))
          end
        else
          match parse_output t with
          | Some ((_ :: _) as scriptpubkey) =>
              (Ret tt, set_spk (Some scriptpubkey) (set__type (Some "spk") self))
          | _ =>
              if Re.match_email t then
                (Ret tt, set_openalias (Some t) (set__type (Some "alias") self))
              else
                (Ret tt, set_error
                   (Some (ErrorUnknown
                            (if (100 <? length t)%nat then firstn 100 t ++ "..."
                             else t))) self)
          end
    end.
Proof.
  intros t Hne Hlf Hcomma. rewrite parse_cases. cbv zeta. fold t.
  destruct (one_plain_line Hne Hlf Hcomma) as (-> & -> & e & ->).
  replace (Py.nonempty t) with true by (destruct t; [congruence|reflexivity]).
  reflexivity.
Qed.

(** X15. A valid address, given alone, is classified as a script: the
    script of the address. *)
Theorem valid_address_is_a_script (a hex : str) (b : bytes) :
  a <> [] -> forallb Py.isalnum a = true -> is_address a = true ->
  Py.startswith (Py.lower a) "ln" = false ->
  address_to_script a = Ret hex -> Builtins.bytes_fromhex hex = Ret b -> b <> [] ->
  init a = (Ret tt, set_spk (Some b) (set__type (Some "spk") (fresh a))).
Proof.
  intros Hne Ha Hvalid Hln Hhex Hb Hbne.
  pose proof (alnum_stripped _ Ha) as Hstrip.
  pose proof (lower_alnum _ Ha) as Hla.
  unfold init. rewrite parse_plain; rewrite Hstrip; try assumption;
    try (apply alnum_no_mark; [assumption|reflexivity]).
  assert (Hex : maybe_extract_lightning_payment_identifier a = None).
  { unfold maybe_extract_lightning_payment_identifier. rewrite Hstrip.
    replace (Py.startswith (Py.lower a) (LIGHTNING_URI_SCHEME ++ ":ln")) with false;
      [now rewrite Hln|].
    symmetry. apply not_true_is_false. intros Hs.
    pose proof (@startswith_contains ":" _ _ Hs eq_refl) as Hc.
    rewrite (@alnum_no_mark ":" _ Hla eq_refl) in Hc. discriminate. }
  rewrite Hex.
  replace (Py.startswith (Py.lower a) "bitcoin:") with false.
  2:{ symmetry. apply not_true_is_false. intros Hs.
      pose proof (@startswith_contains ":" _ _ Hs eq_refl) as Hc.
      rewrite (@alnum_no_mark ":" _ Hla eq_refl) in Hc. discriminate. }
  unfold parse_output, parse_address.
  rewrite Hstrip, (match_alias_alnum _ Ha), Hvalid. cbn [bind].
  rewrite Hhex. cbn [bind]. rewrite Hb.
  destruct b; [congruence|reflexivity].
Qed.

(** The object an accepted URI is classified to. *)
Lemma init_of_accepted_uri (text : str) (out : Dict.t pyval) :
  Py.contains "010" (Py.strip text) = false ->
  Py.contains "," (Py.strip text) = false ->
  Py.startswith (Py.lower (Py.strip text)) "bitcoin:" = true ->
  parse_bip21_URI (Py.strip text) = Ret out ->
  init text =
    (Ret tt, set_bip70 (Dict.get "r" out)
               (set_bip21 (Some out) (set__type (Some "bip21") (fresh text)))).
Proof.
  intros Hlf Hcomma Hs Hout.
  assert (Hne : Py.strip text <> []).
  { intros E. rewrite E in Hs. discriminate. }
  unfold init. rewrite parse_plain by assumption.
  unfold maybe_extract_lightning_payment_identifier.
  rewrite strip_idempotent.
  destruct (bitcoin_is_not_lightning _ Hs) as [Hln Hll].
  change (LIGHTNING_URI_SCHEME ++ ":ln") with ("lightning:ln" : str).
  now rewrite Hll, Hln, Hs, Hout.
Qed.

(** X16. A URI that [parse_bip21_URI] accepts, on one line and without a
    comma, whatever the letter case of its scheme, is classified as
    [bip21]: the object keeps the decoded fields, and the [r] field as its
    payment-request address, which is what makes it need round 1. *)
Theorem accepted_uri_is_bip21 (text : str) (out : Dict.t pyval) :
  Py.contains "010" (Py.strip text) = false ->
  Py.contains "," (Py.strip text) = false ->
  Py.startswith (Py.lower (Py.strip text)) "bitcoin:" = true ->
  parse_bip21_URI (Py.strip text) = Ret out ->
  init text =
    (Ret tt, set_bip70 (Dict.get "r" out)
               (set_bip21 (Some out) (set__type (Some "bip21") (fresh text)))) /\
  needs_round_1 (snd (init text)) = truthy_opt (Dict.get "r" out).
Proof.
  intros Hlf Hcomma Hs Hout.
  rewrite (init_of_accepted_uri _ Hlf Hcomma Hs Hout).
  split; [reflexivity|]. cbn [snd].
  unfold needs_round_1. cbn. now rewrite !orb_false_r.
Qed.

(** The object a Lightning text is classified to. *)
Lemma init_of_lightning_text (text x : str) :
  Py.contains "010" (Py.strip text) = false ->
  Py.contains "," (Py.strip text) = false ->
  maybe_extract_lightning_payment_identifier (Py.strip text) = Some x ->
  init text =
    (Ret tt,
     if Py.startswith x "lnurl" then
       match decode_lnurl x with
       | Ret u => set_lnurl (Some u) (set__type (Some "lnurl") (fresh text))
       | Raise e => set_error (Some (ErrorLightning e))
                      (set__type (Some "lnurl") (fresh text))
       end
     else set_bolt11 (Some x) (set__type (Some "bolt11") (fresh text))).
Proof.
  intros Hlf Hcomma Hx.
  assert (Hne : Py.strip text <> []).
  { intros E. rewrite E in Hx. discriminate. }
  unfold init. rewrite parse_plain by assumption. rewrite Hx.
  destruct (Py.startswith x "lnurl"); [|reflexivity].
  destruct (decode_lnurl x); reflexivity.
Qed.

(** X17. A text on one line, without a comma, from which a Lightning
    identifier is extracted, is classified without being decoded: as
    [bolt11], with what was extracted as its invoice and no error, unless
    it starts with [lnurl]; an LNURL is decoded, and when that fails the
    error is kept and the type stays.  The constructor returns in every
    case, and the object is valid. *)
Theorem lightning_text_is_accepted (text x : str) :
  Py.contains "010" (Py.strip text) = false ->
  Py.contains "," (Py.strip text) = false ->
  maybe_extract_lightning_payment_identifier (Py.strip text) = Some x ->
  init text =
    (Ret tt,
     if Py.startswith x "lnurl" then
       match decode_lnurl x with
       | Ret u => set_lnurl (Some u) (set__type (Some "lnurl") (fresh text))
       | Raise e => set_error (Some (ErrorLightning e))
                      (set__type (Some "lnurl") (fresh text))
       end
     else set_bolt11 (Some x) (set__type (Some "bolt11") (fresh text))) /\
  is_valid (snd (init text)) = true /\
  (Py.startswith x "lnurl" = false -> error (snd (init text)) = None).
Proof.
  intros Hlf Hcomma Hx.
  rewrite (init_of_lightning_text _ Hlf Hcomma Hx). split; [reflexivity|].
  cbn [snd]. destruct (Py.startswith x "lnurl").
  - destruct (decode_lnurl x); split; try reflexivity; discriminate.
  - split; reflexivity.
Qed.

(** X18. The recipient of a batch line is not checked.  A line
    [recipient,amount] whose amount parses is an output, with the script
    [parse_output] finds for the recipient or with none: the text is a
    valid batch with no error even when the recipient is neither an
    address nor a script. *)
Theorem recipient_is_not_checked (x y : str) (v : pyval) :
  stripped (x ++ "," ++ y) ->
  Py.contains "010" (x ++ "," ++ y) = false ->
  Py.contains "," x = false -> Py.contains "," y = false ->
  parse_amount y = Ret v ->
  let p := snd (init (x ++ "," ++ y)) in
  init (x ++ "," ++ y) =
    (Ret tt,
     set_multiline_outputs
       (Some [{| scriptpubkey := parse_output x; value := v |}])
       (set__type (Some "multiline") (set_error None (fresh (x ++ "," ++ y))))) /\
  is_valid p = true /\ error p = None.
Proof.
  intros Hs Hlf Hx Hy Hv.
  assert (E : init (x ++ "," ++ y) =
    (Ret tt,
     set_multiline_outputs
       (Some [{| scriptpubkey := parse_output x; value := v |}])
       (set__type (Some "multiline") (set_error None (fresh (x ++ "," ++ y)))))).
  { unfold init. rewrite parse_cases. cbv zeta.
    rewrite (strip_of_stripped Hs).
    replace (Py.nonempty (x ++ "," ++ y)) with true by (destruct x; reflexivity).
    cbn [negb]. unfold batch_lines. rewrite (split_no_sep _ _ Hlf).
    cbn [filter].
    replace (Py.nonempty (x ++ "," ++ y)) with true by (destruct x; reflexivity).
    cbn [successes failures].
    assert (El : parse_address_and_amount (x ++ "," ++ y) =
                 Ret {| scriptpubkey := parse_output x; value := v |}).
    { unfold parse_address_and_amount.
      change (x ++ "," ++ y) with (x ++ ","%char :: y).
      now rewrite (split_app_sep _ _ y Hx), (split_no_sep _ _ Hy), Hv. }
    rewrite El. reflexivity. }
  cbv zeta. rewrite E. repeat split.
Qed.

End Families.

(** ** The rounds *)

Section RoundTwo.
Context `{Lightning}.

(** X19. Round 2 is guarded on every path.  It sends at most one request,
    and only for an amount within the bounds of round 1, to the callback
    address of round 1 and for a thousand times the amount; it calls
    [on_success] only when it returns, and then, for an LNURL, the invoice
    it has adopted decodes to exactly the requested amount; and when it
    raises, the object is as it was. *)
Theorem round_2_is_guarded (amount_sat : option Z) (self : PaymentIdentifier) :
  let r := round_2 amount_sat self in
  (length (requests r) <= 1)%nat /\
  (forall request, In request (requests r) ->
     exists data amount,
       lnurl_data self = Some data /\ amount_sat = Some amount /\
       min_sendable_sat data <= amount <= max_sendable_sat data /\
       request = (callback_url data, [("amount", VInt (amount * 1000))])) /\
  (on_success_called r = true ->
     result r = Ret tt /\ error (object r) = error self /\
     (truthy_str (lnurl self) = false -> object r = self) /\
     (truthy_str (lnurl self) = true ->
        exists amount invoice,
          amount_sat = Some amount /\
          from_bech32 (bolt11 (object r)) = Ret invoice /\
          Invoice_get_amount_sat invoice = Some (VInt amount))) /\
  (forall e, result r = Raise e -> object r = self) /\
  (on_success_called r = false -> bolt11 (object r) = bolt11 self).
Proof.
  cbv zeta. unfold round_2.
  destruct (truthy_str (lnurl self)) eqn:El.
  2:{ cbn. repeat split; try lia; try tauto; try discriminate;
        try (intros request []). }
  destruct (lnurl_data self) as [data|] eqn:Ed.
  2:{ cbn. repeat split; try lia; try tauto; try discriminate;
        try (intros request []). }
  destruct amount_sat as [amount|].
  2:{ cbn. repeat split; try lia; try tauto; try discriminate;
        try (intros request []). }
  destruct ((min_sendable_sat data <=? amount) && (amount <=? max_sendable_sat data))
    eqn:Eb; cbn [negb].
  2:{ cbn. repeat split; try lia; try tauto; try discriminate;
        try (intros request []). }
  apply andb_true_iff in Eb as [Hlo Hhi]. apply Z.leb_le in Hlo, Hhi.
  cbn [fst snd].
  assert (Hreq : forall request,
            In request [(callback_url data, [("amount", VInt (amount * 1000))])] ->
            exists data0 amount0,
              Some data = Some data0 /\ Some amount = Some amount0 /\
              min_sendable_sat data0 <= amount0 <= max_sendable_sat data0 /\
              request = (callback_url data0, [("amount", VInt (amount0 * 1000))])).
  { intros request [<-|[]]. exists data, amount. auto. }
  destruct (callback_lnurl _ _) as [invoice_data|e].
  2:{ destruct e; cbn; repeat split; try lia; try tauto; try discriminate;
        try exact Hreq; intros ? [= <-]; reflexivity. }
  destruct (from_bech32 (Dict.get "pr" invoice_data)) as [invoice|e] eqn:Ei.
  2:{ cbn; repeat split; try lia; try tauto; try discriminate; exact Hreq. }
  destruct (Invoice_get_amount_sat invoice) as [[n|s]|] eqn:Ea.
  - destruct (n =? amount) eqn:En; cbn [negb].
    + apply Z.eqb_eq in En. subst n.
      cbn. repeat split; try lia; try tauto; try discriminate; try exact Hreq.
      intros _. exists amount, invoice. auto.
    + cbn. repeat split; try lia; try tauto; try discriminate; exact Hreq.
  - cbn. repeat split; try lia; try tauto; try discriminate; exact Hreq.
  - cbn. repeat split; try lia; try tauto; try discriminate; exact Hreq.
Qed.

End RoundTwo.

Section RoundOne.
Context `{Bitcoin} `{Lightning} `{Util} `{Config} `{Runtime}
        `{PaymentRequests} `{Invoices} `{Lnurl} `{Contacts}.

(** X20. Round 1 calls [on_success] only for an identifier that needs the
    round, and only once the data it has fetched is on the object: the
    validated data of the alias, the payment request, or the data of the
    LNURL, after which the identifier needs round 2.  For an identifier
    that does not need the round, nothing happens at all, and [on_success]
    is not called. *)
Theorem round_1_delivers_its_data (self : PaymentIdentifier) :
  let r := round_1 self in
  (needs_round_1 self = false ->
   r = {| first_result := Ret tt; first_object := self;
          first_contact_written := None; first_on_success_called := false |}) /\
  (first_on_success_called r = true ->
   needs_round_1 self = true /\ first_result r = Ret tt /\
   (truthy_str (openalias self) = true ->
      exists data, openalias_data (first_object r) = Some data /\
                   truthy_opt (Dict.get "validated" data) = true) /\
   (truthy_str (openalias self) = false -> truthy_opt (bip70 self) = true ->
      exists request, bip70_data (first_object r) = Some request /\
        match bip70 self with
        | Some url => get_payment_request url = Ret request
        | None => False
        end) /\
   (truthy_str (openalias self) = false -> truthy_opt (bip70 self) = false ->
      exists url data, lnurl self = Some url /\ request_lnurl url = Ret data /\
        first_object r = set_lnurl_data (Some data) self /\
        needs_round_2 (first_object r) = true)).
Proof.
  cbv zeta. unfold round_1, needs_round_1.
  destruct (truthy_str (openalias self)) eqn:Eo.
  - split; [rewrite orb_true_r; discriminate|].
    destruct (resolved (resolve_openalias self)) as [[d|]|e]; cbn;
      try discriminate.
    destruct (truthy_opt (Dict.get "validated" d)) eqn:Ev; cbn; [|discriminate].
    intros _. rewrite orb_true_r. repeat split; try discriminate.
    intros _. now exists d.
  - rewrite orb_false_r.
    destruct (bip70 self) as [url|] eqn:Eb; cbn [truthy_opt].
    + destruct (truthy url) eqn:Et.
      * split; [discriminate|].
        destruct (get_payment_request url) as [request|e] eqn:Er; cbn;
          [|discriminate].
        intros _. repeat split; try discriminate.
        intros _ _. now exists request.
      * destruct (lnurl self) as [[|c u]|] eqn:El; cbn;
          try (split; [reflexivity|discriminate]).
        split; [discriminate|].
        destruct (request_lnurl (c :: u)) as [data|e] eqn:Er; cbn; [|discriminate].
        intros _. repeat split; try discriminate.
        intros _ _. exists (c :: u), data.
        repeat split; try exact Er.
        unfold needs_round_2. cbn [lnurl lnurl_data set_lnurl_data].
        rewrite El. reflexivity.
    + destruct (lnurl self) as [[|c u]|] eqn:El; cbn;
        try (split; [reflexivity|discriminate]).
      split; [discriminate|].
      destruct (request_lnurl (c :: u)) as [data|e] eqn:Er; cbn; [|discriminate].
      intros _. repeat split; try discriminate.
      intros _ _. exists (c :: u), data.
      repeat split; try exact Er.
      unfold needs_round_2. cbn [lnurl lnurl_data set_lnurl_data].
      rewrite El. reflexivity.
Qed.

(** X21. Without a contact list, which is how the QML front end builds
    the object, round 1 of an alias always fails: the alias resolves to
    nothing, and reading the [validated] entry of nothing raises.  The
    same holds with a contact list that does not know the alias. *)
Theorem unresolved_alias_fails_round_1 (self : PaymentIdentifier) :
  truthy_str (openalias self) = true ->
  match contacts, openalias self with
  | Some resolve, Some key =>
      match resolve key with Ret (Some (_ :: _)) => False | _ => True end
  | _, _ => True
  end ->
  round_1 self =
    {| first_result := Raise (AttributeError "get");
       first_object := set_openalias_data None self;
       first_contact_written := None; first_on_success_called := false |}.
Proof.
  intros Ho Hc. unfold round_1. rewrite Ho.
  assert (E : resolve_openalias self =
              {| resolved := Ret None; resolved_object := self;
                 contact_written := None |}).
  { unfold resolve_openalias.
    destruct (openalias self) as [key|]; [|discriminate].
    destruct (negb _); [reflexivity|].
    destruct (match Py.split "," key with p :: _ => is_address p | [] => false end);
      [reflexivity|].
    destruct contacts as [resolve|]; [|reflexivity].
    destruct (resolve key) as [[[|]|]|]; try reflexivity. contradiction. }
  rewrite E. reflexivity.
Qed.

End RoundOne.

(** ** From an identifier to an invoice *)

(** A leaf of the case analysis of [parse], for [get_invoice]. *)
Ltac invoice_leaf :=
  intros _; split;
  [ intros [Ht|Ht]; try discriminate Ht; reflexivity
  | intros Ht; try discriminate Ht; reflexivity ].

Section Invoices.
Context `{Bitcoin} `{Lightning} `{Util} `{Config} `{Runtime}
        `{PaymentRequests} `{Invoices} `{Lnurl} `{Contacts}.

(** X22. Only URIs and Lightning invoices lead to an invoice.  For a text
    classified as a script or as a batch, [get_invoice] finds the outputs
    and then fails, with [AttributeError], on the fields of a URI the
    object does not have; for an alias it fails because nothing on the
    object is on-chain. *)
Theorem plain_recipient_has_no_invoice (text : str) (amount_sat : Z) :
  fst (init text) = Ret tt ->
  let p := snd (init text) in
  (_type p = Some "spk" \/ _type p = Some "multiline" ->
   get_invoice amount_sat p = Raise (AttributeError "get")) /\
  (_type p = Some "alias" ->
   get_invoice amount_sat p = Raise (Exception "not onchain")).
Proof.
  unfold init. rewrite parse_cases. cbv zeta.
  set (t := Py.strip text). set (lines := batch_lines t).
  match goal with
  | |- context [if ?c then set_error ?e (fresh text) else fresh text] =>
      set (self1 := if c then set_error e (fresh text) else fresh text)
  end.
  assert (E1 : exists e, self1 = set_error e (fresh text)).
  { subst self1. destruct (_ || _); eexists; reflexivity. }
  destruct E1 as [e1 ->]. clearbody t lines.
  destruct (negb (Py.nonempty t)); [invoice_leaf|].
  destruct (successes lines); [|invoice_leaf].
  destruct (maybe_extract_lightning_payment_identifier _).
  { destruct (Py.startswith _ "lnurl"); [|invoice_leaf].
    destruct (decode_lnurl _); invoice_leaf. }
  destruct (Py.startswith _ "bitcoin:").
  { destruct (parse_bip21_URI _) as [out|[]]; try discriminate. invoice_leaf. }
  destruct (parse_output _) as [[|]|]; try invoice_leaf.
  - destruct (Re.match_email _); invoice_leaf.
  - destruct (Re.match_email _); invoice_leaf.
Qed.

(** X23. The invoice of a URI.  For an accepted URI on one line and
    without a comma, with no payment-request address, [get_invoice] asks
    the wallet for an invoice with one output: the given amount, to the
    script of the address of the URI, or to no script when the URI has no
    address; the message and the decoded fields go along.  The bare
    [bitcoin:], which decodes to no field at all, is classified as a URI
    and then is not on-chain. *)
Theorem uri_invoice_pays_its_address (text : str) (out : Dict.t pyval)
    (amount_sat : Z) :
  Py.contains "010" (Py.strip text) = false ->
  Py.contains "," (Py.strip text) = false ->
  Py.startswith (Py.lower (Py.strip text)) "bitcoin:" = true ->
  parse_bip21_URI (Py.strip text) = Ret out ->
  truthy_opt (Dict.get "r" out) = false ->
  get_invoice amount_sat (snd (init text)) =
    match out with
    | [] => Raise (Exception "not onchain")
    | _ =>
        let* invoice :=
          create_invoice
            [{| scriptpubkey := match Dict.get "address" out with
                                | Some (VStr a) => parse_output a
                                | _ => None
                                end;
                value := VInt amount_sat |}]
            (Dict.get "message" out) None (Some out) in
        Ret (Some invoice)
    end.
Proof.
  intros Hlf Hcomma Hs Hout Hr.
  rewrite (init_of_accepted_uri _ Hlf Hcomma Hs Hout). cbn [snd].
  unfold get_invoice, get_onchain_outputs, is_lightning.
  cbn [lnurl bolt11 bip70 bip21 spk multiline_outputs bip70_data
       set_bip70 set_bip21 set__type fresh truthy_str orb].
  rewrite Hr. destruct out; reflexivity.
Qed.

(** X24. The rounds of an LNURL, one after the other.  A text that is
    classified as an LNURL, whose endpoint answers round 1 with its bounds
    and round 2, for an amount within them, with an invoice for that very
    amount: both rounds call [on_success], round 2 sends its one request,
    and [get_invoice] then hands back the invoice of the endpoint, with
    the amount of the caller filled in if the invoice has none. *)
Theorem lnurl_rounds_compose (text x url : str) (data : LNURL6Data)
    (amount : Z) (invoice_data : Dict.t str) (s : str) (invoice : Invoice)
    (amount_sat : Z) :
  Py.contains "010" (Py.strip text) = false ->
  Py.contains "," (Py.strip text) = false ->
  maybe_extract_lightning_payment_identifier (Py.strip text) = Some x ->
  Py.startswith x "lnurl" = true ->
  decode_lnurl x = Ret url -> url <> [] ->
  request_lnurl url = Ret data ->
  min_sendable_sat data <= amount <= max_sendable_sat data ->
  callback_lnurl (callback_url data) [("amount", VInt (amount * 1000))] =
    Ret invoice_data ->
  Dict.get "pr" invoice_data = Some s -> s <> [] ->
  from_bech32 (Some s) = Ret invoice ->
  Invoice_get_amount_sat invoice = Some (VInt amount) ->
  let p := snd (init text) in
  let r1 := round_1 p in
  let r2 := round_2 (Some amount) (first_object r1) in
  fst (init text) = Ret tt /\ needs_round_1 p = true /\
  first_on_success_called r1 = true /\ needs_round_2 (first_object r1) = true /\
  on_success_called r2 = true /\
  requests r2 = [(callback_url data, [("amount", VInt (amount * 1000))])] /\
  bolt11 (object r2) = Some s /\
  get_invoice amount_sat (object r2) =
    Ret (Some (match amount_msat invoice with
               | None => with_amount_msat (amount_sat * 1000) invoice
               | Some _ => invoice
               end)).
Proof.
  intros Hlf Hcomma Hx Hlnurl Hurl Hune Hdata Hb Hcb Hpr Hsne Hinv Hamount.
  rewrite (init_of_lightning_text _ Hlf Hcomma Hx), Hlnurl, Hurl. cbv zeta.
  cbn [fst snd].
  assert (Eu : truthy_str (Some url) = true) by (destruct url; [congruence|reflexivity]).
  assert (E1 : round_1 (set_lnurl (Some url) (set__type (Some "lnurl") (fresh text))) =
               {| first_result := Ret tt;
                  first_object := set_lnurl_data (Some data)
                    (set_lnurl (Some url) (set__type (Some "lnurl") (fresh text)));
                  first_contact_written := None;
                  first_on_success_called := true |}).
  { unfold round_1.
    cbn [openalias bip70 lnurl set_lnurl set__type fresh truthy_str].
    destruct url as [|c u]; [congruence|]. now rewrite Hdata. }
  rewrite E1. cbn [first_object first_on_success_called].
  assert (E2 : round_2 (Some amount)
                 (set_lnurl_data (Some data)
                    (set_lnurl (Some url) (set__type (Some "lnurl") (fresh text)))) =
               {| result := Ret tt;
                  object := set_bolt11 (Some s)
                    (set_lnurl_data (Some data)
                       (set_lnurl (Some url) (set__type (Some "lnurl") (fresh text))));
                  requests := [(callback_url data, [("amount", VInt (amount * 1000))])];
                  on_success_called := true |}).
  { unfold round_2.
    cbn [lnurl lnurl_data set_lnurl_data set_lnurl set__type fresh].
    rewrite Eu.
    replace ((min_sendable_sat data <=? amount) && (amount <=? max_sendable_sat data))
      with true by (symmetry; apply andb_true_iff; rewrite !Z.leb_le; lia).
    cbn [negb fst snd]. rewrite Hcb, Hpr, Hinv, Hamount, Z.eqb_refl. reflexivity. }
  rewrite E2. cbn [object requests on_success_called].
  repeat split.
  - unfold needs_round_1.
    cbn [openalias bip70 lnurl set_lnurl set__type fresh truthy_opt truthy_str orb].
    exact Eu.
  - unfold needs_round_2. cbn [lnurl lnurl_data set_lnurl_data set_lnurl].
    now rewrite Eu.
  - unfold get_invoice, is_lightning.
    cbn [lnurl bolt11 set_bolt11 set_lnurl_data set_lnurl].
    rewrite Eu. cbn [orb].
    replace (truthy_str (Some s)) with true by (destruct s; [congruence|reflexivity]).
    cbn [negb]. rewrite Hinv. cbn [bind]. now destruct (amount_msat invoice).
Qed.

End Invoices.

(** ** Amounts with an exponent *)

Lemma span_app (p : ascii -> bool) (a : str) (c : ascii) (r : str) :
  forallb p a = true -> p c = false -> Re.span p (a ++ c :: r) = (a, c :: r).
Proof.
  intros Ha Hc. induction a as [|x a IH].
  - cbn [app Re.span]. now rewrite Hc.
  - cbn [forallb] in Ha. apply andb_true_iff in Ha as [Hx Ha].
    cbn [app Re.span]. now rewrite Hx, (IH Ha).
Qed.

Lemma digit_value_digit (d : ascii) :
  Py.isdigit d = true -> 0 <= Decimal.digit_value d <= 9.
Proof. apply digit_value_bound. Qed.

Lemma gt_int_nonneg (c k limit : Z) :
  0 <= k ->
  Decimal.gt_int (Decimal.Finite c (- k)) limit = Ret (limit * 10 ^ k <? c).
Proof.
  intros Hk. unfold Decimal.gt_int.
  destruct (Z.leb_spec 0 (- k)) as [Hz|Hz].
  - assert (k = 0) by lia. subst k. change (- 0) with 0. change (10 ^ 0) with 1.
    now rewrite !Z.mul_1_r.
  - now rewrite Z.opp_involutive.
Qed.

Section Exponent.
Context `{Bitcoin}.

(** X25. An amount [mantissa X digit] is the mantissa times ten to the
    digit, in units of [10^-8] minor units, cut to whole minor units; what
    follows the digit is not read. *)
Theorem amount_with_exponent (whole : str) (d : ascii) (rest : str) :
  whole <> [] -> forallb Py.isdigit whole = true -> (length whole <= 20)%nat ->
  Py.isdigit d = true ->
  Decimal.digits_value whole * 10 ^ Decimal.digit_value d <=
    TOTAL_COIN_SUPPLY_LIMIT_IN_BTC * COIN * 10 ^ 8 ->
  decode_amount (whole ++ "X" ++ d :: rest) =
    Ret (Decimal.digits_value whole * 10 ^ Decimal.digit_value d / 10 ^ 8).
Proof.
  intros Hne Hw Hlen Hd Hlim.
  pose proof (digit_value_digit _ Hd) as Hdv.
  set (c := Decimal.digits_value whole) in *.
  assert (Hc0 : 0 <= c) by (apply digits_value_nonneg; [assumption|lia]).
  assert (Hc1 : c < 10 ^ 20).
  { pose proof (@digits_value_below whole 0 Hw ltac:(lia)) as Hb.
    assert (10 ^ Z.of_nat (length whole) <= 10 ^ 20)
      by (apply Z.pow_le_mono_r; lia).
    unfold c, Decimal.digits_value. lia. }
  assert (H28 : 10 ^ 20 <= 10 ^ 28) by (apply Z.pow_le_mono_r; lia).
  pose proof (@of_str_numeral whole [] Hne Hw eq_refl) as Hof.
  cbv iota in Hof. rewrite !app_nil_r in Hof. fold c in Hof.
  specialize (Hof ltac:(lia) ltac:(cbn [length]; lia)).
  cbn [length Z.of_nat Z.opp] in Hof.
  unfold decode_amount, Re.match_amount_X.
  change (whole ++ "X" ++ d :: rest) with (whole ++ "X"%char :: d :: rest).
  rewrite span_app;
    [|now apply (forallb_impl _ _ _ digit_is_amount_char)|reflexivity].
  replace (match whole with
           | [] => None
           | _ :: _ => if Py.isdigit d then Some (whole, d) else None
           end) with (Some (whole, d))
    by (rewrite Hd; destruct whole; [congruence|reflexivity]).
  rewrite Hof. cbn [bind].
  set (dv := Decimal.digit_value d) in *.
  unfold Decimal.pow10, Decimal.mul.
  destruct (Z.ltb_spec 0 (dv - 8)) as [Hk|Hk].
  - (* the digit 9 *)
    assert (Edv : dv = 9) by lia. rewrite Edv in *.
    change (10 ^ (9 - 8)) with 10. rewrite Z.add_0_l.
    assert (Hfin : Decimal.finalize (c * 10) 0 = Ret (Decimal.Finite (c * 10) 0))
      by (apply finalize_exact; lia).
    rewrite Hfin. cbn [bind]. unfold Decimal.gt_int, Decimal.to_int.
    cbn [Z.leb Z.compare]. change (10 ^ 0) with 1. rewrite !Z.mul_1_r.
    cbn [bind].
    change (10 ^ 9) with (10 * 10 ^ 8) in *.
    replace (_ <? c * 10) with false by (symmetry; apply Z.ltb_ge; lia).
    rewrite Z.mul_assoc, Z.div_mul by lia. reflexivity.
  - rewrite Z.add_0_l.
    rewrite finalize_exact by lia. cbn [bind].
    replace (dv - 8) with (- (8 - dv)) by lia.
    assert (Hp : 0 < 10 ^ (8 - dv)) by (apply Z.pow_pos_nonneg; lia).
    assert (Hpd : 0 < 10 ^ dv) by (apply Z.pow_pos_nonneg; lia).
    assert (Hsplit : 10 ^ 8 = 10 ^ dv * 10 ^ (8 - dv)).
    { rewrite <- Z.pow_add_r by lia. f_equal. lia. }
    assert (Hle : c <= TOTAL_COIN_SUPPLY_LIMIT_IN_BTC * COIN * 10 ^ (8 - dv)).
    { rewrite Hsplit in Hlim. nia. }
    rewrite !Z.mul_1_r. rewrite gt_int_nonneg by lia.
    replace (_ <? c) with false by (symmetry; apply Z.ltb_ge; lia).
    cbn [bind]. rewrite to_int_nonneg by lia.
    apply f_equal. rewrite Hsplit, (Z.mul_comm (10 ^ dv)).
    rewrite Z.div_mul_cancel_r by lia. reflexivity.
Qed.

End Exponent.

(** ** The payment a user enters *)

(** A leaf of the case analysis of [validate]: either an error is among
    the events, or the events are change signals only. *)
Ltac validate_leaf :=
  repeat split; auto;
  try solve [intros _; do 2 eexists; cbn;
             repeat first [left; reflexivity | right]];
  try (intros [? [? Hin]]; cbn in Hin; exfalso;
       repeat (destruct Hin as [Hin|Hin]; [discriminate Hin|]); exact Hin);
  try (intros [Hf|Hf]; discriminate Hf).

Section UserEntered.
Context `{Bitcoin} `{FrontEnd}.

(** X26. What [validate] decides.  The payment can be saved exactly when
    the recipient is a valid address; it can be paid exactly when, on top
    of that, the amount is not empty and is the whole balance or within
    what the wallet can spend on-chain.  A validation error is signalled
    exactly when the recipient is not valid or the amount is empty: an
    amount the wallet cannot cover is refused in silence.  Nothing else of
    the object changes. *)
Theorem validate_decides (self : QEUserEnteredPayment) :
  let valid := match _recipient self with
               | Some ((_ :: _) as recipient) => is_address recipient
               | _ => false
               end in
  let amount := _amount self in
  let self' := fst (validate self) in
  _canSave self' = valid /\
  _canPay self' =
    valid && negb (isEmpty amount) &&
    (isMax amount || (satsInt amount <=? get_max_spendable_onchain)) /\
  ((exists code message, In (validationError code message) (snd (validate self))) <->
   valid = false \/ isEmpty amount = true) /\
  _recipient self' = _recipient self /\ _amount self' = _amount self /\
  _message self' = _message self /\ _key self' = _key self.
Proof.
  cbv zeta. unfold validate.
  destruct self as [recipient amount message canSave canPay key].
  cbn [_recipient _amount _message _canSave _canPay _key].
  destruct recipient as [[|r0 r]|].
  - destruct canPay, canSave; cbn; validate_leaf.
  - destruct (is_address (r0 :: r)) eqn:Ev; cbn [negb].
    + destruct (isEmpty amount) eqn:Ee.
      * destruct canPay, canSave; cbn; validate_leaf.
      * destruct (isMax amount) eqn:Em; cbn [orb andb negb].
        -- destruct canPay, canSave; cbn; validate_leaf.
        -- destruct (satsInt amount <=? get_max_spendable_onchain);
             destruct canPay, canSave; cbn; validate_leaf.
    + destruct canPay, canSave; cbn; validate_leaf.
  - destruct canPay, canSave; cbn; validate_leaf.
Qed.

(** X27. What [validate] lets the user save, [save_invoice] can refuse: a
    payment of the whole balance to a valid address can be saved and can
    be paid, says [validate], and [save_invoice] fails on it, with an
    [AssertionError], and stores nothing. *)
Theorem whole_balance_cannot_be_saved (self : QEUserEnteredPayment)
    (recipient : str) :
  _recipient self = Some recipient -> recipient <> [] ->
  is_address recipient = true ->
  isEmpty (_amount self) = false -> isMax (_amount self) = true ->
  let self' := fst (validate self) in
  _canSave self' = true /\ _canPay self' = true /\
  save_invoice self' = (Raise AssertionError, (self', [])).
Proof.
  intros Hr Hne Hvalid He Hm. cbv zeta.
  unfold validate. rewrite Hr. destruct recipient as [|r0 r]; [congruence|].
  rewrite Hvalid, He, Hm. cbn [negb].
  destruct self as [rc amount message canSave canPay key].
  cbn [_recipient _amount _message _canSave _canPay _key] in *.
  unfold save_invoice.
  destruct canPay, canSave; cbn; rewrite ?Hm; repeat split.
Qed.

End UserEntered.

(** ** The further properties on sample inputs *)

Section FurtherExamples.
#[local] Existing Instances Sample.bitcoin Sample.lightning Sample.util
  Sample.config Sample.runtime Demo.payment_requests Demo.invoices
  Demo.lnurl_endpoint Demo.no_contacts Demo.front_end.

(** A Lightning URI in capitals, with spaces around it. *)
Lemma extract_is_canonical_witness :
  Py.startswith "lnbc10u1sample" "ln" = true /\
  Py.lower "lnbc10u1sample" = "lnbc10u1sample" /\
  Py.strip "lnbc10u1sample" = "lnbc10u1sample" /\
  maybe_extract_lightning_payment_identifier "lnbc10u1sample" =
    Some "lnbc10u1sample".
Proof.
  apply (@extract_is_canonical "  LIGHTNING:LNBC10U1SAMPLE " "lnbc10u1sample").
  reflexivity.
Defined.

Lemma extract_ignores_prefix_witness :
  maybe_extract_lightning_payment_identifier ("Lightning:" ++ "LNURL1Sample ") =
    maybe_extract_lightning_payment_identifier "LNURL1Sample " /\
  maybe_extract_lightning_payment_identifier "LNURL1Sample " =
    Some (Py.lower (Py.rstrip_by Py.isspace "LNURL1Sample ")).
Proof.
  apply (@extract_ignores_prefix "Lightning:" "LNURL1Sample "); reflexivity.
Defined.

Lemma decoded_uri_is_well_formed_witness :
  let out := [("amount", VInt 50000000); ("message", VStr "hi"); ("time", VInt 5);
              ("address", VStr Sample.ADDR1); ("memo", VStr "hi")] in
  NoDup (map fst out) /\
  (forall v, Dict.get "amount" out = Some v ->
     exists n, v = VInt n /\ n <= TOTAL_COIN_SUPPLY_LIMIT_IN_BTC * COIN) /\
  (forall m, Dict.get "message" out = Some m -> Dict.get "memo" out = Some m) /\
  (forall v, Dict.get "time" out = Some v -> exists n, v = VInt n) /\
  (forall v, Dict.get "exp" out = Some v -> exists n, v = VInt n).
Proof.
  apply (@decoded_uri_is_well_formed _ _ _
           ("bitcoin:" ++ Sample.ADDR1 ++ "?amount=0.5&message=hi&time=5")).
  vm_compute. reflexivity.
Defined.

Lemma created_uri_is_recognised_witness :
  let uri := "bitcoin:" ++ Sample.ADDR1 ++ "?amount=0.0015&message=hi" in
  is_uri uri = is_address Sample.ADDR1 /\
  (is_address Sample.ADDR1 = false -> uri = "") /\
  (is_address Sample.ADDR1 = true ->
   Py.startswith uri ("bitcoin:" ++ Sample.ADDR1) = true).
Proof.
  apply (@created_uri_is_recognised _ _ Sample.ADDR1 (Some 150000) (Some "hi") None).
  vm_compute. reflexivity.
Defined.

Lemma illegal_key_is_refused_witness :
  create_bip21_uri Sample.ADDR1 None None (Some [("a b", "1")]) =
    Raise (Exception "illegal key for URI") /\
  (exists uri, create_bip21_uri Sample.ADDR1 None None (Some [("label", "1")]) =
               Ret uri) /\
  create_bip21_uri "nobody" None None (Some [("a b", "1")]) = Ret "".
Proof.
  split; [|split].
  - apply (proj1 (illegal_key_is_refused Sample.ADDR1 None None [("a b", "1")]));
      [reflexivity|].
    exists "a b", "1". split; [now left|discriminate].
  - apply (proj1 (proj2 (illegal_key_is_refused Sample.ADDR1 None None
                           [("label", "1")]))); [reflexivity|].
    intros k v [[= <- <-]|[]]. reflexivity.
  - apply (proj2 (proj2 (illegal_key_is_refused "nobody" None None [("a b", "1")]))).
    reflexivity.
Defined.

Lemma extra_parameter_round_trip_witness :
  exists uri,
    create_bip21_uri Sample.ADDR1 None None (Some [("label", "my shop")]) = Ret uri /\
    parse_bip21_URI uri =
      Ret [("label", VStr "my shop"); ("address", VStr Sample.ADDR1)].
Proof.
  apply (@extra_parameter_round_trip _ _ _ _ Sample.ADDR1 "label" "my shop");
    try reflexivity; try discriminate.
  cbn [In]. intros Hin.
  repeat (destruct Hin as [Hin|Hin]; [discriminate Hin|]). exact Hin.
Defined.

Lemma scheme_case_is_ignored_witness :
  parse_bip21_URI ("BitCoin" ++ ":" ++ Sample.ADDR1 ++ "?amount=1") =
    parse_bip21_URI ("bitcoin:" ++ Sample.ADDR1 ++ "?amount=1").
Proof.
  apply (@scheme_case_is_ignored _ _ _ "BitCoin" (Sample.ADDR1 ++ "?amount=1")).
  reflexivity.
Defined.

Lemma query_address_is_not_validated_witness :
  parse_bip21_URI ("bitcoin:" ++ "nobody") =
    (if is_address "nobody" then Ret [("address", VStr "nobody")]
     else Raise (InvalidBitcoinURI (InvalidAddress "nobody"))) /\
  parse_bip21_URI ("bitcoin:?address=" ++ "nobody") =
    Ret [("address", VStr "nobody")].
Proof.
  apply (@query_address_is_not_validated _ _ _ "nobody");
    [discriminate|reflexivity].
Defined.

Lemma outer_space_is_ignored_witness :
  parse (" " ++ Sample.ADDR1 ++ LF) (fresh "") = parse Sample.ADDR1 (fresh "").
Proof.
  apply (@outer_space_is_ignored _ _ _ _ _ " " Sample.ADDR1 LF (fresh ""));
    reflexivity.
Defined.

Lemma classification_is_never_silent_witness :
  is_valid (snd (init "hello")) = false /\ error (snd (init "hello")) = None <->
  Py.strip "hello" = [].
Proof.
  apply (@classification_is_never_silent _ _ _ _ _ "hello"). reflexivity.
Defined.

Lemma family_matches_type_witness :
  let p := snd (init Sample.ADDR1) in
  (forall t, In (t, true) (family_fields p) -> _type p = Some t) /\
  (forall t, _type p = Some t ->
     In (t, true) (family_fields p) \/
     (t = "lnurl" /\ In (t, false) (family_fields p) /\ error p <> None)).
Proof.
  apply (@family_matches_type _ _ _ _ _ Sample.ADDR1). reflexivity.
Defined.

Lemma only_addresses_resolve_witness :
  exists b,
    parse_output Sample.ADDR1 = Some b /\
    ((exists address script,
        parse_address Sample.ADDR1 = Ret address /\ is_address address = true /\
        address_to_script address = Ret script /\
        Builtins.bytes_fromhex script = Ret b) \/
     (b = [] /\ Py.split_ws Sample.ADDR1 = [])).
Proof.
  eexists. split; [reflexivity|].
  apply (@only_addresses_resolve _ Sample.ADDR1). reflexivity.
Defined.

(** In mBTC, [1.12345678] is 112345 minor units: the last three decimals
    are dropped. *)
Lemma amount_is_scaled_and_cut_witness :
  @parse_amount Sample.util Demo.config_mBTC "1.12345678" = Ret (VInt 112345).
Proof.
  apply (@amount_is_scaled_and_cut Sample.util Demo.config_mBTC "1" "12345678");
    try reflexivity; try discriminate; cbn; lia.
Defined.

Lemma line_errors_are_the_failing_lines_witness :
  In {| idx := 1; line_content := "bad";
        exc := Exception "expected two comma-separated values: (address, amount)";
        is_multiline := true |}
     (failures 0 (batch_lines (Sample.ADDR1 ++ ",1" ++ LF ++ " bad "))).
Proof.
  apply (proj1 (proj2 (line_errors_are_the_failing_lines
                         (Sample.ADDR1 ++ ",1" ++ LF ++ " bad ") (fresh ""))))
    with (line := " bad "); reflexivity.
Defined.

Lemma valid_address_is_a_script_witness :
  exists b,
    init Sample.ADDR1 =
      (Ret tt, set_spk (Some b) (set__type (Some "spk") (fresh Sample.ADDR1))).
Proof.
  eexists.
  eapply (@valid_address_is_a_script _ _ _ _ _ Sample.ADDR1);
    try reflexivity; discriminate.
Defined.

Lemma accepted_uri_is_bip21_witness :
  let text := "bitcoin:" ++ Sample.ADDR1 ++ "?amount=1" in
  let out := [("amount", VInt 100000000); ("address", VStr Sample.ADDR1)] in
  init text =
    (Ret tt, set_bip70 (Dict.get "r" out)
               (set_bip21 (Some out) (set__type (Some "bip21") (fresh text)))) /\
  needs_round_1 (snd (init text)) = truthy_opt (Dict.get "r" out).
Proof.
  apply (@accepted_uri_is_bip21 _ _ _ _ _
           ("bitcoin:" ++ Sample.ADDR1 ++ "?amount=1")); reflexivity.
Defined.

Lemma lightning_text_is_accepted_witness :
  let text := "lightning:LNBC10U1SAMPLE" in
  let x := "lnbc10u1sample" in
  init text =
    (Ret tt,
     if Py.startswith x "lnurl" then
       match decode_lnurl x with
       | Ret u => set_lnurl (Some u) (set__type (Some "lnurl") (fresh text))
       | Raise e => set_error (Some (ErrorLightning e))
                      (set__type (Some "lnurl") (fresh text))
       end
     else set_bolt11 (Some x) (set__type (Some "bolt11") (fresh text))) /\
  is_valid (snd (init text)) = true /\
  (Py.startswith x "lnurl" = false -> error (snd (init text)) = None).
Proof.
  apply (@lightning_text_is_accepted _ _ _ _ _ "lightning:LNBC10U1SAMPLE");
    reflexivity.
Defined.

(** A recipient that is nothing, with an amount. *)
Lemma recipient_is_not_checked_witness :
  let p := snd (init ("nobody" ++ "," ++ "1")) in
  init ("nobody" ++ "," ++ "1") =
    (Ret tt,
     set_multiline_outputs
       (Some [{| scriptpubkey := parse_output "nobody"; value := VInt 100000000 |}])
       (set__type (Some "multiline")
          (set_error None (fresh ("nobody" ++ "," ++ "1"))))) /\
  is_valid p = true /\ error p = None.
Proof.
  apply (@recipient_is_not_checked _ _ _ _ _ "nobody" "1"); try reflexivity.
  split; reflexivity.
Defined.

Lemma round_2_is_guarded_witness :
  exists data amount,
    lnurl_data Sample.pointer = Some data /\ Some 100 = Some amount /\
    min_sendable_sat data <= amount <= max_sendable_sat data /\
    ("https://example.com/lnurlp/callback", [("amount", VInt 100000)]) =
      (callback_url data, [("amount", VInt (amount * 1000))]).
Proof.
  apply (proj1 (proj2 (round_2_is_guarded (Some 100) Sample.pointer))).
  left. reflexivity.
Defined.

Lemma round_1_delivers_its_data_witness :
  needs_round_1 Demo.lnurl_before_round_1 = true /\
  first_result (round_1 Demo.lnurl_before_round_1) = Ret tt.
Proof.
  assert (Hc : first_on_success_called (round_1 Demo.lnurl_before_round_1) = true)
    by reflexivity.
  destruct (proj2 (round_1_delivers_its_data Demo.lnurl_before_round_1) Hc)
    as (Hn & Hr & _).
  split; assumption.
Defined.

Lemma unresolved_alias_fails_round_1_witness :
  round_1 Demo.alias =
    {| first_result := Raise (AttributeError "get");
       first_object := set_openalias_data None Demo.alias;
       first_contact_written := None; first_on_success_called := false |}.
Proof.
  apply (unresolved_alias_fails_round_1 Demo.alias); [reflexivity|exact I].
Defined.

Lemma plain_recipient_has_no_invoice_witness :
  let p := snd (init Sample.ADDR1) in
  (_type p = Some "spk" \/ _type p = Some "multiline" ->
   get_invoice 0 p = Raise (AttributeError "get")) /\
  (_type p = Some "alias" -> get_invoice 0 p = Raise (Exception "not onchain")).
Proof.
  apply (@plain_recipient_has_no_invoice _ _ _ _ _ _ _ Sample.ADDR1 0).
  reflexivity.
Defined.

Lemma uri_invoice_pays_its_address_witness :
  get_invoice 0 (snd (init ("bitcoin:" ++ Sample.ADDR1 ++ "?amount=1"))) =
    Ret (Some {| Invoice_get_amount_sat := None |}).
Proof.
  rewrite (@uri_invoice_pays_its_address _ _ _ _ _ _ _
             ("bitcoin:" ++ Sample.ADDR1 ++ "?amount=1")
             [("amount", VInt 100000000); ("address", VStr Sample.ADDR1)] 0)
    by reflexivity.
  reflexivity.
Defined.

Lemma lnurl_rounds_compose_witness :
  let p := snd (init "lnurl1sample") in
  let r1 := round_1 p in
  let r2 := round_2 (Some 1000) (first_object r1) in
  fst (init "lnurl1sample") = Ret tt /\ needs_round_1 p = true /\
  first_on_success_called r1 = true /\ needs_round_2 (first_object r1) = true /\
  on_success_called r2 = true /\
  requests r2 = [(callback_url Sample.pointer_data, [("amount", VInt (1000 * 1000))])] /\
  bolt11 (object r2) = Some Sample.INVOICE_1000 /\
  get_invoice 0 (object r2) =
    Ret (Some (match amount_msat {| Invoice_get_amount_sat := Some (VInt 1000) |} with
               | None => with_amount_msat (0 * 1000)
                           {| Invoice_get_amount_sat := Some (VInt 1000) |}
               | Some _ => {| Invoice_get_amount_sat := Some (VInt 1000) |}
               end)).
Proof.
  apply (@lnurl_rounds_compose _ _ _ _ _ _ _ _ _ "lnurl1sample" "lnurl1sample"
           "https://example.com/lnurlp" Sample.pointer_data 1000
           [("pr", Sample.INVOICE_1000)] Sample.INVOICE_1000
           {| Invoice_get_amount_sat := Some (VInt 1000) |} 0);
    try reflexivity; try discriminate.
  split; discriminate.
Defined.

Lemma amount_with_exponent_witness :
  decode_amount ("12" ++ "X" ++ "9"%char :: "abc") = Ret 120.
Proof.
  apply (@amount_with_exponent _ "12" "9" "abc"); try reflexivity;
    try discriminate; cbn; lia.
Defined.

Lemma whole_balance_cannot_be_saved_witness :
  let self' := fst (validate Demo.whole_balance) in
  _canSave self' = true /\ _canPay self' = true /\
  save_invoice self' = (Raise AssertionError, (self', [])).
Proof.
  apply (@whole_balance_cannot_be_saved _ _ Demo.whole_balance Sample.ADDR1);
    try reflexivity. discriminate.
Defined.

End FurtherExamples.
